(** * Extension-host telemetry: the coordinator [ExtHostTelemetry] and the
    per-extension [ExtHostTelemetryLogger]

    A shallow embedding of the extension-host telemetry module (the classes
    [ExtHostTelemetry] and [ExtHostTelemetryLogger] and the function
    [isNewAppInstall]).  Both classes are modelled
    as records; their methods are computations in a small monad that threads
    the object's state, collects the calls made to external collaborators
    (the sender, the trace sink, the event emitters, the logger service) in
    a trace, and can end in a JavaScript exception.

    External collaborators are opaque: a call to one of them is recorded in
    the trace.  The definitions at top level give the methods as they run
    when every call to a collaborator returns and no listener of the
    emitters calls back.  Module [Live] gives the same methods in full: an
    entry point of a sender may raise, and firing an emitter runs the
    listeners, which call back through the handles they hold.  The top-level
    definitions are the [Live] ones in the quiet case (lemmas [quiet_...]).
    The platform services (the trace sink, the logger service) are taken to
    return. *)

From stdpp Require Import gmap strings list fin_maps.

Local Set Warnings "-register-all".

(** ** JavaScript values and property bags *)

(** Event payloads are [Record<string, any>]: string-keyed objects whose
    values are arbitrary JavaScript values. *)
Inductive value :=
  | VUndefined
  | VNull
  | VBool (b : bool)
  | VNum (n : Z)
  | VStr (s : string)
  | VObj (o : gmap string value).

(** [v ?? d] *)
Definition nullish_coalesce (v d : value) : value :=
  match v with
  | VUndefined | VNull => d
  | _ => v
  end.

(** ** Telemetry level and derived configuration *)

(** Modelled from the spec: the enum [TelemetryLevel] is declared in
    [vs/platform/telemetry/common/telemetry], which is not part of the
    sources at hand.  The spec gives it as the ordered enum
    NONE < CRASH < ERROR < USAGE; the code compares its members as numbers
    with [>=] and [===]. *)
Inductive TelemetryLevel := NONE | CRASH | ERROR | USAGE.

#[export] Instance TelemetryLevel_eq_dec : EqDecision TelemetryLevel.
Proof. solve_decision. Defined.

Definition level_value (l : TelemetryLevel) : Z :=
  match l with
  | NONE => 0
  | CRASH => 1
  | ERROR => 2
  | USAGE => 3
  end.

(** [a >= b] on levels *)
Definition level_ge (a b : TelemetryLevel) : bool :=
  (level_value b <=? level_value a)%Z.

(** [a === b] on levels *)
Definition level_eq (a b : TelemetryLevel) : bool :=
  (level_value a =? level_value b)%Z.

(** [{ usage: boolean; error: boolean }] *)
Record ProductConfig := {
  usage : bool;
  error : bool
}.

(** [vscode.TelemetryConfiguration] *)
Record TelemetryConfiguration := {
  isCrashEnabled : bool;
  isErrorsEnabled : bool;
  isUsageEnabled : bool
}.

(** The snapshot a logger caches:
    [{ isUsageEnabled: boolean; isErrorsEnabled: boolean }]. *)
Record TelemetryEnablements := {
  cached_isUsageEnabled : bool;
  cached_isErrorsEnabled : bool
}.

(** ** External collaborators *)

(** Objects live in a store and are referred to by location. *)
Definition loc := nat.

(** A [vscode.TelemetrySender] that passed [validateSender]:
    [sendEventData] and [sendErrorData] are functions, [flush] is a function
    or absent.  The sender is opaque; it is told apart by its identity. *)
Record TelemetrySender := {
  sender_id : nat;
  flush : bool
}.

(** A JavaScript [Error] object. *)
Record Error := {
  message : string
}.

(** [vscode.TelemetryLoggerOptions]; every member is optional. *)
Record TelemetryLoggerOptions := {
  ignoreUnhandledErrors : option bool;
  ignoreBuiltInCommonProperties : option bool;
  additionalCommonProperties : option (gmap string value)
}.

(** The members of [IExtensionDescription] the code reads. *)
Record IExtensionDescription := {
  publisher : string;
  name : string;
  version : string;
  identifier : string
}.

(** Calls that leave the two classes, in the order they happen. *)
Inductive effect :=
  | SendEventData (s : TelemetrySender) (eventName : string) (data : value)
  | SendErrorData (s : TelemetrySender) (exception : Error)
      (data : option (gmap string value))
  | Flush (s : TelemetrySender)
  | Trace (eventName : string) (data : value)
  | EnableStatesFired (api : loc)
  | TelemetryEnabledFired (enabled : bool)
  | TelemetryConfigurationFired (details : TelemetryConfiguration)
  | SetVisibility (visible : bool).

(** The entry points of a sender. *)
Definition is_sender_call (e : effect) : bool :=
  match e with
  | SendEventData _ _ _ | SendErrorData _ _ _ | Flush _ => true
  | _ => false
  end.

(** The entry points of a sender that transmit data. *)
Definition is_transmit (e : effect) : bool :=
  match e with
  | SendEventData _ _ _ | SendErrorData _ _ _ => true
  | _ => false
  end.

Definition is_flush (e : effect) : bool :=
  match e with
  | Flush _ => true
  | _ => false
  end.

(** The two notifications of the coordinator. *)
Definition is_coordinator_event (e : effect) : bool :=
  match e with
  | TelemetryEnabledFired _ | TelemetryConfigurationFired _ => true
  | _ => false
  end.

(** ** The method monad *)

(** Reading a member of [undefined] raises a [TypeError]; it is the only
    exception the two classes raise themselves outside [validateSender].
    [SenderError] stands for whatever an entry point of a sender raises:
    the classes catch nothing. *)
Inductive exn := TypeError | SenderError.

Inductive outcome (A : Type) :=
  | Returned (a : A)
  | Thrown (e : exn).
Arguments Returned {A} a.
Arguments Thrown {A} e.

(** A method of an object with state [S]: from the state before the call
    to the outcome, the state after it and the calls it made. *)
Definition M (S A : Type) : Type := S → outcome A * S * list effect.

#[export] Instance M_ret {S} : MRet (M S) :=
  λ A a s, (Returned a, s, []).

#[export] Instance M_bind {S} : MBind (M S) :=
  λ A B k m s,
    match m s with
    | (Returned a, s1, t1) =>
        match k a s1 with
        | (o, s2, t2) => (o, s2, t1 ++ t2)
        end
    | (Thrown e, s1, t1) => (Thrown e, s1, t1)
    end.

Definition get {S} : M S S := λ s, (Returned s, s, []).
Definition modify {S} (f : S → S) : M S unit := λ s, (Returned (), f s, []).
Definition emit {S} (e : effect) : M S unit := λ s, (Returned (), s, [e]).
Definition throw {S A} (e : exn) : M S A := λ s, (Thrown e, s, []).

(** [try { m } catch { }] *)
Definition attempt {S} (m : M S unit) : M S unit :=
  λ s, match m s with (_, s', t) => (Returned (), s', t) end.

Ltac unfold_M :=
  unfold mbind, M_bind, mret, M_ret, get, modify, emit, throw in *;
  simpl in *.

Definition outcome_of {S A} (r : outcome A * S * list effect) : outcome A :=
  r.1.1.
Definition state_of {S A} (r : outcome A * S * list effect) : S := r.1.2.
Definition trace_of {S A} (r : outcome A * S * list effect) : list effect :=
  r.2.

(** ** The logger *)

Record ExtHostTelemetryLogger := {
  _ignoreBuiltinCommonProperties : bool;
  _additionalCommonProperties : option (gmap string value);
  ignoreUnhandledExtHostErrors : bool;
  _telemetryEnablements : TelemetryEnablements;
  _apiObject : option loc;
  _sender : option TelemetrySender;
  _extension : IExtensionDescription;
  _inLoggingOnlyMode : bool;
  _commonProperties : gmap string value
}.

Definition set_telemetryEnablements (e : TelemetryEnablements)
    (this : ExtHostTelemetryLogger) : ExtHostTelemetryLogger :=
  {| _ignoreBuiltinCommonProperties := _ignoreBuiltinCommonProperties this;
     _additionalCommonProperties := _additionalCommonProperties this;
     ignoreUnhandledExtHostErrors := ignoreUnhandledExtHostErrors this;
     _telemetryEnablements := e;
     _apiObject := _apiObject this;
     _sender := _sender this;
     _extension := _extension this;
     _inLoggingOnlyMode := _inLoggingOnlyMode this;
     _commonProperties := _commonProperties this |}.

Definition set_apiObject (a : option loc)
    (this : ExtHostTelemetryLogger) : ExtHostTelemetryLogger :=
  {| _ignoreBuiltinCommonProperties := _ignoreBuiltinCommonProperties this;
     _additionalCommonProperties := _additionalCommonProperties this;
     ignoreUnhandledExtHostErrors := ignoreUnhandledExtHostErrors this;
     _telemetryEnablements := _telemetryEnablements this;
     _apiObject := a;
     _sender := _sender this;
     _extension := _extension this;
     _inLoggingOnlyMode := _inLoggingOnlyMode this;
     _commonProperties := _commonProperties this |}.

Definition set_sender (s : option TelemetrySender)
    (this : ExtHostTelemetryLogger) : ExtHostTelemetryLogger :=
  {| _ignoreBuiltinCommonProperties := _ignoreBuiltinCommonProperties this;
     _additionalCommonProperties := _additionalCommonProperties this;
     ignoreUnhandledExtHostErrors := ignoreUnhandledExtHostErrors this;
     _telemetryEnablements := _telemetryEnablements this;
     _apiObject := _apiObject this;
     _sender := s;
     _extension := _extension this;
     _inLoggingOnlyMode := _inLoggingOnlyMode this;
     _commonProperties := _commonProperties this |}.

(** The constructor. *)
Definition new_ExtHostTelemetryLogger
    (sender : TelemetrySender) (options : option TelemetryLoggerOptions)
    (extension : IExtensionDescription) (inLoggingOnlyMode : bool)
    (commonProperties : gmap string value)
    (telemetryEnablements : TelemetryEnablements) : ExtHostTelemetryLogger :=
  {| ignoreUnhandledExtHostErrors :=
       default false (options ≫= ignoreUnhandledErrors);
     _ignoreBuiltinCommonProperties :=
       default false (options ≫= ignoreBuiltInCommonProperties);
     _additionalCommonProperties := options ≫= additionalCommonProperties;
     _sender := Some sender;
     _telemetryEnablements :=
       {| cached_isUsageEnabled := cached_isUsageEnabled telemetryEnablements;
          cached_isErrorsEnabled :=
            cached_isErrorsEnabled telemetryEnablements |};
     _apiObject := None;
     _extension := extension;
     _inLoggingOnlyMode := inLoggingOnlyMode;
     _commonProperties := commonProperties |}.

(** [get isDisposed] *)
Definition isDisposed (this : ExtHostTelemetryLogger) : bool :=
  negb (bool_decide (is_Some (_sender this))).

(** The notification is recorded; the listeners it reaches are run in
    [Live.updateTelemetryEnablements]. *)
Definition updateTelemetryEnablements (isUsageEnabled isErrorsEnabled : bool)
    : M ExtHostTelemetryLogger unit :=
  this ← get;
  match _apiObject this with
  | Some api =>
      modify (set_telemetryEnablements
                {| cached_isUsageEnabled := isUsageEnabled;
                   cached_isErrorsEnabled := isErrorsEnabled |});;
      emit (EnableStatesFired api)
  | None => mret ()
  end.

(** [get apiTelemetryLogger]: the frozen handle closes over the logger
    ([that]); it is identified with the logger's location. *)
Definition apiTelemetryLogger (that : loc) : M ExtHostTelemetryLogger loc :=
  this ← get;
  match _apiObject this with
  | Some api => mret api
  | None => modify (set_apiObject (Some that));; mret that
  end.

(** With a [flush] that returns; [Live.dispose] has the one that raises. *)
Definition dispose : M ExtHostTelemetryLogger unit :=
  this ← get;
  match _sender this with
  | Some tempSender =>
      if flush tempSender then
        modify (set_sender None);;
        emit (Flush tempSender);;
        modify (set_apiObject None)
      else
        modify (set_sender None)
  | None => modify (set_sender None)
  end.

Section Pipeline.

(** [cleanData] ([vs/platform/telemetry/common/telemetryUtils]) and
    [mixin] ([vs/base/common/objects]) are imported helpers that are not
    part of the sources at hand; the logger is modelled over any pair of
    them, taken as pure functions.  [cleanData] is always called with the
    same second argument, the empty list, which is left out. *)
Variable cleanData : value → value.
Variable mixin : value → value → value.

Definition mixInCommonPropsAndCleanData (this : ExtHostTelemetryLogger)
    (data : gmap string value) : value :=
  let updatedData :=
    match data !! "properties" with
    | Some properties => nullish_coalesce properties (VObj ∅)
    | None => VObj data
    end in
  let updatedData := cleanData updatedData in
  let updatedData :=
    match _additionalCommonProperties this with
    | Some additional => mixin updatedData (VObj additional)
    | None => updatedData
    end in
  let updatedData :=
    if negb (_ignoreBuiltinCommonProperties this)
    then mixin updatedData (VObj (_commonProperties this))
    else updatedData in
  match data !! "properties" with
  | Some _ => VObj (<["properties" := updatedData]> data)
  | None => updatedData
  end.

(** The three logging methods, with a sender whose entry points return;
    [Live.logEvent], [Live.logUsage] and [Live.logError] have the sender
    that raises. *)
Definition logEvent (eventName : string)
    (data : option (gmap string value)) : M ExtHostTelemetryLogger unit :=
  this ← get;
  match _sender this with
  | None => mret ()
  | Some _ =>
      let eventName :=
        if String.eqb (publisher (_extension this)) "vscode"
        then name (_extension this) +:+ "/" +:+ eventName
        else identifier (_extension this) +:+ "/" +:+ eventName in
      let data := mixInCommonPropsAndCleanData this (default ∅ data) in
      (if negb (_inLoggingOnlyMode this)
       then match _sender this with
            | Some sender => emit (SendEventData sender eventName data)
            | None => mret ()
            end
       else mret ());;
      emit (Trace eventName data)
  end.

Definition logUsage (eventName : string)
    (data : option (gmap string value)) : M ExtHostTelemetryLogger unit :=
  this ← get;
  if negb (cached_isUsageEnabled (_telemetryEnablements this))
  then mret ()
  else logEvent eventName data.

Definition logError (eventNameOrException : string + Error)
    (data : option (gmap string value)) : M ExtHostTelemetryLogger unit :=
  this ← get;
  if negb (cached_isErrorsEnabled (_telemetryEnablements this))
     || negb (bool_decide (is_Some (_sender this)))
  then mret ()
  else
    match eventNameOrException with
    | inl eventName => logEvent eventName data
    | inr exception =>
        match _sender this with
        | Some sender => emit (SendErrorData sender exception data)
        | None => throw TypeError
        end
    end.

End Pipeline.

(** ** The coordinator *)

(** [UIKind] of [extensionHostProtocol]; the code tells [Web] and
    [Desktop] from everything else. *)
Inductive UIKind := Desktop | Web | OtherUIKind.

(** The members of [IExtHostInitDataService] the code reads. *)
Record InitData := {
  isExtensionTelemetryLoggingOnly : bool;
  appHost : string;
  machineId : string;
  sessionId : string;
  firstSessionDate : string;
  initData_version : string;
  uiKind : UIKind;
  remoteAuthority : option string
}.

(** [Map<string, ExtHostTelemetryLogger>]: a JavaScript [Map] keeps its
    entries in insertion order, and [forEach] visits them in that order.
    The loggers themselves live in the object store; the map holds their
    locations, as do the handles given to extensions. *)
Fixpoint Map_get (key : string) (m : list (string * loc)) : option loc :=
  match m with
  | [] => None
  | (k, v) :: m' => if decide (k = key) then Some v else Map_get key m'
  end.

Fixpoint Map_set (key : string) (v : loc) (m : list (string * loc))
    : list (string * loc) :=
  match m with
  | [] => [(key, v)]
  | (k, v') :: m' =>
      if decide (k = key) then (key, v) :: m' else (k, v') :: Map_set key v m'
  end.

Definition Map_delete (key : string) (m : list (string * loc))
    : list (string * loc) :=
  filter (λ e, e.1 ≠ key) m.

Record ExtHostTelemetry := {
  _productConfig : ProductConfig;
  _level : TelemetryLevel;
  _telemetryIsSupported : bool;
  _oldTelemetryEnablement : option bool;
  initData : InitData;
  (** [loggerService.getLogLevel() === LogLevel.Trace] *)
  logLevelIsTrace : bool;
  _telemetryLoggers : list (string * loc);
  (** the object store holding every logger ever constructed *)
  store : gmap loc ExtHostTelemetryLogger
}.

Definition set_productConfig (p : ProductConfig) (this : ExtHostTelemetry)
    : ExtHostTelemetry :=
  {| _productConfig := p;
     _level := _level this;
     _telemetryIsSupported := _telemetryIsSupported this;
     _oldTelemetryEnablement := _oldTelemetryEnablement this;
     initData := initData this;
     logLevelIsTrace := logLevelIsTrace this;
     _telemetryLoggers := _telemetryLoggers this;
     store := store this |}.

Definition set_level (l : TelemetryLevel) (this : ExtHostTelemetry)
    : ExtHostTelemetry :=
  {| _productConfig := _productConfig this;
     _level := l;
     _telemetryIsSupported := _telemetryIsSupported this;
     _oldTelemetryEnablement := _oldTelemetryEnablement this;
     initData := initData this;
     logLevelIsTrace := logLevelIsTrace this;
     _telemetryLoggers := _telemetryLoggers this;
     store := store this |}.

Definition set_telemetryIsSupported (b : bool) (this : ExtHostTelemetry)
    : ExtHostTelemetry :=
  {| _productConfig := _productConfig this;
     _level := _level this;
     _telemetryIsSupported := b;
     _oldTelemetryEnablement := _oldTelemetryEnablement this;
     initData := initData this;
     logLevelIsTrace := logLevelIsTrace this;
     _telemetryLoggers := _telemetryLoggers this;
     store := store this |}.

Definition set_oldTelemetryEnablement (o : option bool)
    (this : ExtHostTelemetry) : ExtHostTelemetry :=
  {| _productConfig := _productConfig this;
     _level := _level this;
     _telemetryIsSupported := _telemetryIsSupported this;
     _oldTelemetryEnablement := o;
     initData := initData this;
     logLevelIsTrace := logLevelIsTrace this;
     _telemetryLoggers := _telemetryLoggers this;
     store := store this |}.

Definition set_logLevelIsTrace (b : bool) (this : ExtHostTelemetry)
    : ExtHostTelemetry :=
  {| _productConfig := _productConfig this;
     _level := _level this;
     _telemetryIsSupported := _telemetryIsSupported this;
     _oldTelemetryEnablement := _oldTelemetryEnablement this;
     initData := initData this;
     logLevelIsTrace := b;
     _telemetryLoggers := _telemetryLoggers this;
     store := store this |}.

Definition set_telemetryLoggers (m : list (string * loc))
    (this : ExtHostTelemetry) : ExtHostTelemetry :=
  {| _productConfig := _productConfig this;
     _level := _level this;
     _telemetryIsSupported := _telemetryIsSupported this;
     _oldTelemetryEnablement := _oldTelemetryEnablement this;
     initData := initData this;
     logLevelIsTrace := logLevelIsTrace this;
     _telemetryLoggers := m;
     store := store this |}.

Definition set_store (st : gmap loc ExtHostTelemetryLogger)
    (this : ExtHostTelemetry) : ExtHostTelemetry :=
  {| _productConfig := _productConfig this;
     _level := _level this;
     _telemetryIsSupported := _telemetryIsSupported this;
     _oldTelemetryEnablement := _oldTelemetryEnablement this;
     initData := initData this;
     logLevelIsTrace := logLevelIsTrace this;
     _telemetryLoggers := _telemetryLoggers this;
     store := st |}.

(** The constructor (field initialisers and body); [isTrace] is the log
    level of the logger service at that moment. *)
Definition new_ExtHostTelemetry (init : InitData) (isTrace : bool)
    : ExtHostTelemetry :=
  {| _productConfig := {| usage := true; error := true |};
     _level := NONE;
     _telemetryIsSupported := false;
     _oldTelemetryEnablement := None;
     initData := init;
     logLevelIsTrace := isTrace;
     _telemetryLoggers := [];
     store := ∅ |}.

(** [new C(...)]: the object is put at a location not yet in use. *)
Definition alloc (logger : ExtHostTelemetryLogger) : M ExtHostTelemetry loc :=
  λ this,
    let l := fresh (dom (store this)) in
    (Returned l, set_store (<[l := logger]> (store this)) this, []).

(** [logger.m(...)] for the logger at location [l].  Every location the
    coordinator holds is allocated (see [wf_allocated]); reading a member
    through a location that is not raises a [TypeError], as through
    [undefined]. *)
Definition invoke {A} (l : loc) (m : M ExtHostTelemetryLogger A)
    : M ExtHostTelemetry A :=
  λ this,
    match store this !! l with
    | Some logger =>
        match m logger with
        | (o, logger', t) =>
            (o, set_store (<[l := logger']> (store this)) this, t)
        end
    | None => (Thrown TypeError, this, [])
    end.

(** [m.forEach((logger, key) => ...)].  The callbacks below delete at most
    the entry being visited and add none, so the entries visited are those
    present when the loop starts. *)
Fixpoint Map_forEach {S} (callback : loc → string → M S unit)
    (entries : list (string * loc)) : M S unit :=
  match entries with
  | [] => mret ()
  | (key, logger) :: rest =>
      callback logger key;;
      Map_forEach callback rest
  end.

Definition updateLoggerVisibility : M ExtHostTelemetry unit :=
  this ← get;
  emit (SetVisibility (_telemetryIsSupported this && logLevelIsTrace this)).

Definition getTelemetryConfiguration (this : ExtHostTelemetry) : bool :=
  level_eq (_level this) USAGE.

Definition getTelemetryDetails (this : ExtHostTelemetry)
    : TelemetryConfiguration :=
  {| isCrashEnabled := level_ge (_level this) CRASH;
     isErrorsEnabled :=
       if error (_productConfig this)
       then level_ge (_level this) ERROR else false;
     isUsageEnabled :=
       if usage (_productConfig this)
       then level_ge (_level this) USAGE else false |}.

Definition initializeTelemetryLevel (level : TelemetryLevel)
    (supportsTelemetry : bool) (productConfig : option ProductConfig)
    : M ExtHostTelemetry unit :=
  modify (set_level level);;
  modify (set_telemetryIsSupported supportsTelemetry);;
  modify (set_productConfig
            (default {| usage := true; error := true |} productConfig));;
  updateLoggerVisibility.

(** [isNewAppInstall]; [now] is [Date.now()] and [firstSession] is
    [new Date(firstSessionDate).getTime()], [None] standing for [NaN]. *)
Definition isNewAppInstall (now : Z) (firstSession : option Z) : bool :=
  match firstSession with
  | None => false
  | Some t => (now - t <? 1000 * 60 * 60 * 24)%Z
  end.

Section Coordinator.

(** Imported helpers that are not part of the sources at hand:
    [cleanData] and [mixin] (see the logger), the parsing of a date string
    ([new Date(s).getTime()], [None] for [NaN]), and the composition
    [getRemoteName(cleanRemoteAuthority(authority))]. *)
Variable cleanData : value → value.
Variable mixin : value → value → value.
Variable Date_getTime : string → option Z.
Variable remoteName : option string → value.

(** [now] is the value of [Date.now()] at the call. *)
Definition getBuiltInCommonProperties (now : Z) (this : ExtHostTelemetry)
    (extension : IExtensionDescription) : gmap string value :=
  let commonProperties : gmap string value := ∅ in
  let commonProperties :=
    <["common.extname" :=
        VStr (publisher extension +:+ "." +:+ name extension)]>
      commonProperties in
  let commonProperties :=
    <["common.extversion" := VStr (version extension)]> commonProperties in
  let commonProperties :=
    <["common.vscodemachineid" := VStr (machineId (initData this))]>
      commonProperties in
  let commonProperties :=
    <["common.vscodesessionid" := VStr (sessionId (initData this))]>
      commonProperties in
  let commonProperties :=
    <["common.vscodeversion" := VStr (initData_version (initData this))]>
      commonProperties in
  let commonProperties :=
    <["common.isnewappinstall" :=
        VBool (isNewAppInstall now
                 (Date_getTime (firstSessionDate (initData this))))]>
      commonProperties in
  let commonProperties :=
    <["common.product" := VStr (appHost (initData this))]>
      commonProperties in
  let commonProperties :=
    match uiKind (initData this) with
    | Web => <["common.uikind" := VStr "web"]> commonProperties
    | Desktop => <["common.uikind" := VStr "desktop"]> commonProperties
    | OtherUIKind => <["common.uikind" := VStr "unknown"]> commonProperties
    end in
  <["common.remotename" := remoteName (remoteAuthority (initData this))]>
    commonProperties.

(** The result is the location of the logger, which stands for the handle
    [logger.apiTelemetryLogger] given to the extension. *)
Definition instantiateLogger (now : Z) (extension : IExtensionDescription)
    (sender : TelemetrySender) (options : option TelemetryLoggerOptions)
    : M ExtHostTelemetry loc :=
  this ← get;
  let telemetryDetails := getTelemetryDetails this in
  logger ← alloc
    (new_ExtHostTelemetryLogger sender options extension
       (isExtensionTelemetryLoggingOnly (initData this))
       (getBuiltInCommonProperties now this extension)
       {| cached_isUsageEnabled := isUsageEnabled telemetryDetails;
          cached_isErrorsEnabled := isErrorsEnabled telemetryDetails |});
  modify (λ this,
    set_telemetryLoggers
      (Map_set (identifier extension) logger (_telemetryLoggers this))
      this);;
  invoke logger (apiTelemetryLogger logger).

(** The two arrow functions handed to [forEach] by the handler below. *)
Definition remove_if_disposed (logger : loc) (key : string)
    : M ExtHostTelemetry unit :=
  disposed ← invoke logger (this ← get; mret (isDisposed this));
  if disposed : bool
  then modify (λ this,
         set_telemetryLoggers (Map_delete key (_telemetryLoggers this)) this)
  else mret ().

Definition update_level (telemetryDetails : TelemetryConfiguration)
    (logger : loc) (_ : string) : M ExtHostTelemetry unit :=
  invoke logger
    (updateTelemetryEnablements (isUsageEnabled telemetryDetails)
       (isErrorsEnabled telemetryDetails)).

Definition onDidChangeTelemetryLevel (level : TelemetryLevel)
    : M ExtHostTelemetry unit :=
  modify (λ this,
    set_oldTelemetryEnablement (Some (getTelemetryConfiguration this))
      this);;
  modify (set_level level);;
  this ← get;
  let telemetryDetails := getTelemetryDetails this in
  (* Remove all disposed loggers *)
  Map_forEach remove_if_disposed (_telemetryLoggers this);;
  (* Loop through all loggers and update their level *)
  this ← get;
  Map_forEach (update_level telemetryDetails) (_telemetryLoggers this);;
  this ← get;
  (if negb (bool_decide (_oldTelemetryEnablement this
                         = Some (getTelemetryConfiguration this)))
   then emit (TelemetryEnabledFired (getTelemetryConfiguration this))
   else mret ());;
  emit (TelemetryConfigurationFired (getTelemetryDetails this));;
  updateLoggerVisibility.

Definition onExtensionError (extension : string) (error : Error)
    : M ExtHostTelemetry bool :=
  this ← get;
  match Map_get extension (_telemetryLoggers this) with
  | None => mret false
  | Some logger =>
      disposed ← invoke logger (this ← get; mret (isDisposed this));
      if disposed : bool then
        modify (λ this,
          set_telemetryLoggers
            (Map_delete extension (_telemetryLoggers this)) this);;
        mret false
      else
        ignore ← invoke logger
                   (this ← get; mret (ignoreUnhandledExtHostErrors this));
        if ignore : bool then mret false
        else
          invoke logger (logError cleanData mixin (inr error) None);;
          mret true
  end.

(** *** Calls from outside

    What the host, the logger service and the extensions can do to a
    coordinator and the loggers it created.  A call that ends in an
    exception leaves the state it reached. *)
Inductive call :=
  | Call_initializeTelemetryLevel (level : TelemetryLevel)
      (supportsTelemetry : bool) (productConfig : option ProductConfig)
  | Call_onDidChangeLogLevel (isTrace : bool)
  | Call_instantiateLogger (now : Z) (extension : IExtensionDescription)
      (sender : TelemetrySender) (options : option TelemetryLoggerOptions)
  | Call_onDidChangeTelemetryLevel (level : TelemetryLevel)
  | Call_onExtensionError (extension : string) (error : Error)
  | Call_logUsage (handle : loc) (eventName : string)
      (data : option (gmap string value))
  | Call_logError (handle : loc) (eventNameOrException : string + Error)
      (data : option (gmap string value))
  | Call_dispose (handle : loc).

Definition discard {S A} (m : M S A) : M S unit := λ s,
  match m s with
  | (Returned _, s', t) => (Returned (), s', t)
  | (Thrown e, s', t) => (Thrown e, s', t)
  end.

Definition perform (c : call) : M ExtHostTelemetry unit :=
  match c with
  | Call_initializeTelemetryLevel level supportsTelemetry productConfig =>
      initializeTelemetryLevel level supportsTelemetry productConfig
  | Call_onDidChangeLogLevel isTrace =>
      modify (set_logLevelIsTrace isTrace);; updateLoggerVisibility
  | Call_instantiateLogger now extension sender options =>
      discard (instantiateLogger now extension sender options)
  | Call_onDidChangeTelemetryLevel level => onDidChangeTelemetryLevel level
  | Call_onExtensionError extension error =>
      discard (onExtensionError extension error)
  | Call_logUsage handle eventName data =>
      invoke handle (logUsage cleanData mixin eventName data)
  | Call_logError handle eventNameOrException data =>
      invoke handle (logError cleanData mixin eventNameOrException data)
  | Call_dispose handle => invoke handle dispose
  end.

(** The state after a sequence of calls. *)
Definition run (calls : list call) (this : ExtHostTelemetry)
    : ExtHostTelemetry :=
  foldl (λ this c, state_of (perform c this)) this calls.

End Coordinator.

(** ** Calls on a single logger *)

Section LoggerCalls.

Variable cleanData : value → value.
Variable mixin : value → value → value.

(** What can be done to a logger once it exists: the three methods of
    its handle, and the push of the coordinator. *)
Inductive logger_call :=
  | LoggerCall_logUsage (eventName : string)
      (data : option (gmap string value))
  | LoggerCall_logError (eventNameOrException : string + Error)
      (data : option (gmap string value))
  | LoggerCall_dispose
  | LoggerCall_updateTelemetryEnablements
      (isUsageEnabled isErrorsEnabled : bool).

Definition perform_logger (c : logger_call) : M ExtHostTelemetryLogger unit :=
  match c with
  | LoggerCall_logUsage eventName data =>
      logUsage cleanData mixin eventName data
  | LoggerCall_logError eventNameOrException data =>
      logError cleanData mixin eventNameOrException data
  | LoggerCall_dispose => dispose
  | LoggerCall_updateTelemetryEnablements isUsageEnabled isErrorsEnabled =>
      updateTelemetryEnablements isUsageEnabled isErrorsEnabled
  end.

(** Calls made one after the other; an exception ends the sequence. *)
Fixpoint perform_all (calls : list logger_call)
    : M ExtHostTelemetryLogger unit :=
  match calls with
  | [] => mret ()
  | c :: rest => perform_logger c;; perform_all rest
  end.

(** The calls an extension makes through a handle. *)
Definition is_handle_call (c : logger_call) : bool :=
  match c with
  | LoggerCall_updateTelemetryEnablements _ _ => false
  | _ => true
  end.

End LoggerCalls.

(** ** The imported helpers of the enrichment pipeline, from the spec *)

(** Modelled from the spec: [mixin] of [vs/base/common/objects] is not part
    of the sources at hand; the logger calls it with two arguments.  The
    spec: the pipeline "mixes in, in order (later does not overwrite
    earlier)" and "builtins never overwrite".  So a key of the source is
    added when the destination lacks it, and a key the destination has
    keeps its value.  The spec says nothing about arguments that are not
    mappings; they are left as they are. *)
Definition mixin_spec (destination source : value) : value :=
  match destination, source with
  | VObj d, VObj s => VObj (d ∪ s)
  | _, _ => destination
  end.

(** Modelled from the spec: [cleanData] of
    [vs/platform/telemetry/common/telemetryUtils] is not part of the sources
    at hand.  The spec: it "strips recognized sensitive patterns (e.g.,
    file-system paths, embedded user/machine identifiers, emails) from
    every property value".  The patterns are not given; [cleanValue] stands
    for the stripping of one property value. *)
Definition cleanData_spec (cleanValue : value → value) (data : value) : value :=
  match data with
  | VObj o => VObj (cleanValue <$> o)
  | _ => data
  end.



(** ** Well-formed coordinator states *)

(** A logger that still has its sender has the handle made for it when it
    was created. *)
Definition handle_kept (l : loc) (logger : ExtHostTelemetryLogger) : Prop :=
  is_Some (_sender logger) → _apiObject logger = Some l.

(** Every live logger of the store has its handle, every location in the
    registry is allocated, and the registry has one entry per key. *)
Definition wf (this : ExtHostTelemetry) : Prop :=
  map_Forall handle_kept (store this)
  ∧ Forall (λ e, is_Some (store this !! e.2)) (_telemetryLoggers this)
  ∧ NoDup (_telemetryLoggers this).*1.

(** What the two loops of the level-change handler compute.  The first
    deletes the key of every entry whose logger is disposed; the second
    replaces the cached snapshot of every logger still registered. *)
Definition disposed_at (st : gmap loc ExtHostTelemetryLogger) (l : loc)
    : bool :=
  from_option isDisposed false (st !! l).

Definition prune (st : gmap loc ExtHostTelemetryLogger)
    (entries m : list (string * loc)) : list (string * loc) :=
  foldl (λ m e, if disposed_at st e.2 then Map_delete e.1 m else m) m entries.

Definition snapshot (details : TelemetryConfiguration) : TelemetryEnablements :=
  {| cached_isUsageEnabled := isUsageEnabled details;
     cached_isErrorsEnabled := isErrorsEnabled details |}.

Definition push (details : TelemetryConfiguration)
    (st : gmap loc ExtHostTelemetryLogger) (entries : list (string * loc))
    : gmap loc ExtHostTelemetryLogger :=
  foldl (λ st e, alter (set_telemetryEnablements (snapshot details)) e.2 st)
    st entries.

(** The state the handler leaves. *)
Definition after_level_change (level : TelemetryLevel)
    (this : ExtHostTelemetry) : ExtHostTelemetry :=
  let this1 :=
    set_level level
      (set_oldTelemetryEnablement (Some (getTelemetryConfiguration this))
         this) in
  let remaining :=
    prune (store this) (_telemetryLoggers this) (_telemetryLoggers this) in
  set_store (push (getTelemetryDetails this1) (store this) remaining)
    (set_telemetryLoggers remaining this1).

(** The name under which a logger emits an event. *)
Definition qualified (this : ExtHostTelemetryLogger) (eventName : string)
    : string :=
  if String.eqb (publisher (_extension this)) "vscode"
  then name (_extension this) +:+ "/" +:+ eventName
  else identifier (_extension this) +:+ "/" +:+ eventName.

(** ** The methods with listeners and failing senders *)

(** What a listener can do with the handles it holds: the three methods a
    handle binds ([logUsage], [logError], [dispose]; the two getters and
    the event only read).  A listener that creates a logger
    ([createTelemetryLogger]) is not modelled: the registry is changed by
    the coordinator's own methods only, so the entries a loop visits are
    those present when it starts. *)
Inductive handle_call :=
  | Handle_logUsage (handle : loc) (eventName : string)
      (data : option (gmap string value))
  | Handle_logError (handle : loc) (eventNameOrException : string + Error)
      (data : option (gmap string value))
  | Handle_dispose (handle : loc).

(** A listener: from the state it finds to the calls it makes through
    handles, in order, each with whether the listener catches what the
    call raises ([try { ... } catch { }]) or lets it end the listener. *)
Definition Listener : Type := ExtHostTelemetry → list (handle_call * bool).

Definition is_dispose (c : handle_call) : bool :=
  match c with
  | Handle_dispose _ => true
  | _ => false
  end.

(** The notifications of the three emitters. *)
Definition is_notification (e : effect) : bool :=
  match e with
  | EnableStatesFired _ | TelemetryEnabledFired _
  | TelemetryConfigurationFired _ => true
  | _ => false
  end.

Module Live.

Section Environment.

Variable cleanData : value → value.
Variable mixin : value → value → value.
Variable Date_getTime : string → option Z.
Variable remoteName : option string → value.

(** Whether a call to an entry point of a sender raises. *)
Variable raises : effect → bool.

(** The listeners subscribed to the emitters: for a notification, the
    listeners it reaches, in the order they run. *)
Variable listeners : effect → list Listener.

(** [Emitter] ([vs/base/common/event]) is not part of the sources at hand.
    What [fire] does when a listener raises is left open: it passes the
    exception on to its caller, whereby the listeners after it do not run,
    or it goes on with the next listener and returns. *)
Variable rethrows : bool.

(** A call to an entry point of a sender: it is made, and it returns or
    raises. *)
Definition call_sender {S} (e : effect) : M S unit :=
  emit e;;
  if raises e then throw SenderError else mret ().

Definition logEvent (eventName : string)
    (data : option (gmap string value)) : M ExtHostTelemetryLogger unit :=
  this ← get;
  match _sender this with
  | None => mret ()
  | Some _ =>
      let eventName :=
        if String.eqb (publisher (_extension this)) "vscode"
        then name (_extension this) +:+ "/" +:+ eventName
        else identifier (_extension this) +:+ "/" +:+ eventName in
      let data :=
        mixInCommonPropsAndCleanData cleanData mixin this (default ∅ data) in
      (if negb (_inLoggingOnlyMode this)
       then match _sender this with
            | Some sender => call_sender (SendEventData sender eventName data)
            | None => mret ()
            end
       else mret ());;
      emit (Trace eventName data)
  end.

Definition logUsage (eventName : string)
    (data : option (gmap string value)) : M ExtHostTelemetryLogger unit :=
  this ← get;
  if negb (cached_isUsageEnabled (_telemetryEnablements this))
  then mret ()
  else logEvent eventName data.

Definition logError (eventNameOrException : string + Error)
    (data : option (gmap string value)) : M ExtHostTelemetryLogger unit :=
  this ← get;
  if negb (cached_isErrorsEnabled (_telemetryEnablements this))
     || negb (bool_decide (is_Some (_sender this)))
  then mret ()
  else
    match eventNameOrException with
    | inl eventName => logEvent eventName data
    | inr exception =>
        match _sender this with
        | Some sender => call_sender (SendErrorData sender exception data)
        | None => throw TypeError
        end
    end.

(** [flush] is called before [dispose] returns (its result is what goes
    into the promise); when it raises, the handle is not cleared. *)
Definition dispose : M ExtHostTelemetryLogger unit :=
  this ← get;
  match _sender this with
  | Some tempSender =>
      if flush tempSender then
        modify (set_sender None);;
        call_sender (Flush tempSender);;
        modify (set_apiObject None)
      else
        modify (set_sender None)
  | None => modify (set_sender None)
  end.

Definition perform_handle (c : handle_call) : M ExtHostTelemetry unit :=
  match c with
  | Handle_logUsage handle eventName data =>
      invoke handle (logUsage eventName data)
  | Handle_logError handle eventNameOrException data =>
      invoke handle (logError eventNameOrException data)
  | Handle_dispose handle => invoke handle dispose
  end.

Fixpoint perform_handles (calls : list (handle_call * bool))
    : M ExtHostTelemetry unit :=
  match calls with
  | [] => mret ()
  | (c, caught) :: rest =>
      (if caught then attempt (perform_handle c) else perform_handle c);;
      perform_handles rest
  end.

(** One listener runs: its calls in order, up to the first that raises
    something the listener does not catch. *)
Definition run_listener (listener : Listener)
    : M ExtHostTelemetry unit :=
  λ this,
    match perform_handles (listener this) this with
    | (Thrown e, this', t) =>
        (if rethrows then Thrown e else Returned (), this', t)
    | r => r
    end.

Fixpoint deliver (subscribed : list Listener)
    : M ExtHostTelemetry unit :=
  match subscribed with
  | [] => mret ()
  | listener :: rest => run_listener listener;; deliver rest
  end.

(** [emitter.fire(x)]: the notification is recorded and the listeners run
    one after the other, inside the call. *)
Definition fire (e : effect) : M ExtHostTelemetry unit :=
  emit e;;
  deliver (listeners e).

(** [logger.updateTelemetryEnablements(...)] for the logger at [that]; the
    listeners run inside the call, so it is given on the coordinator's
    state. *)
Definition updateTelemetryEnablements (that : loc)
    (isUsageEnabled isErrorsEnabled : bool) : M ExtHostTelemetry unit :=
  this ← get;
  match store this !! that with
  | None => throw TypeError
  | Some logger =>
      match _apiObject logger with
      | Some api =>
          modify (λ this,
            set_store
              (<[that := set_telemetryEnablements
                           {| cached_isUsageEnabled := isUsageEnabled;
                              cached_isErrorsEnabled := isErrorsEnabled |}
                           logger]> (store this))
              this);;
          fire (EnableStatesFired api)
      | None => mret ()
      end
  end.

Definition update_level (telemetryDetails : TelemetryConfiguration)
    (logger : loc) (_ : string) : M ExtHostTelemetry unit :=
  updateTelemetryEnablements logger (isUsageEnabled telemetryDetails)
    (isErrorsEnabled telemetryDetails).

(** The listeners call through handles only, so the registry is not
    changed while the second loop runs, and the entries it visits are those
    present when it starts. *)
Definition onDidChangeTelemetryLevel (level : TelemetryLevel)
    : M ExtHostTelemetry unit :=
  modify (λ this,
    set_oldTelemetryEnablement (Some (getTelemetryConfiguration this))
      this);;
  modify (set_level level);;
  this ← get;
  let telemetryDetails := getTelemetryDetails this in
  (* Remove all disposed loggers *)
  Map_forEach remove_if_disposed (_telemetryLoggers this);;
  (* Loop through all loggers and update their level *)
  this ← get;
  Map_forEach (update_level telemetryDetails) (_telemetryLoggers this);;
  this ← get;
  (if negb (bool_decide (_oldTelemetryEnablement this
                         = Some (getTelemetryConfiguration this)))
   then fire (TelemetryEnabledFired (getTelemetryConfiguration this))
   else mret ());;
  this ← get;
  fire (TelemetryConfigurationFired (getTelemetryDetails this));;
  updateLoggerVisibility.

Definition onExtensionError (extension : string) (error : Error)
    : M ExtHostTelemetry bool :=
  this ← get;
  match Map_get extension (_telemetryLoggers this) with
  | None => mret false
  | Some logger =>
      disposed ← invoke logger (this ← get; mret (isDisposed this));
      if disposed : bool then
        modify (λ this,
          set_telemetryLoggers
            (Map_delete extension (_telemetryLoggers this)) this);;
        mret false
      else
        ignore ← invoke logger
                   (this ← get; mret (ignoreUnhandledExtHostErrors this));
        if ignore : bool then mret false
        else
          invoke logger (logError (inr error) None);;
          mret true
  end.

Definition perform (c : call) : M ExtHostTelemetry unit :=
  match c with
  | Call_initializeTelemetryLevel level supportsTelemetry productConfig =>
      initializeTelemetryLevel level supportsTelemetry productConfig
  | Call_onDidChangeLogLevel isTrace =>
      modify (set_logLevelIsTrace isTrace);; updateLoggerVisibility
  | Call_instantiateLogger now extension sender options =>
      discard (instantiateLogger Date_getTime remoteName now extension sender
                 options)
  | Call_onDidChangeTelemetryLevel level => onDidChangeTelemetryLevel level
  | Call_onExtensionError extension error =>
      discard (onExtensionError extension error)
  | Call_logUsage handle eventName data =>
      invoke handle (logUsage eventName data)
  | Call_logError handle eventNameOrException data =>
      invoke handle (logError eventNameOrException data)
  | Call_dispose handle => invoke handle dispose
  end.

(** The state after a sequence of calls. *)
Definition run (calls : list call) (this : ExtHostTelemetry)
    : ExtHostTelemetry :=
  foldl (λ this c, state_of (perform c this)) this calls.

End Environment.

End Live.

(** Senders that return, and no listener. *)
Definition returns (e : effect) : bool := false.

Definition no_listeners (e : effect)
    : list Listener := [].

(** No listener ever disposes a logger. *)
Definition never_dispose
    (listeners : effect → list Listener)
    : Prop :=
  ∀ (e : effect) (this : ExtHostTelemetry),
    Forall
      (λ listener : Listener,
         Forall (λ c, is_dispose c.1 = false) (listener this))
      (listeners e).

(** No listener ever makes a call through a handle. *)
Definition no_calls
    (listeners : effect → list Listener)
    : Prop :=
  ∀ (e : effect) (this : ExtHostTelemetry),
    Forall (λ listener : Listener, listener this = []) (listeners e).

(** ** Concrete data used by the examples *)

Definition example_initData : InitData :=
  {| isExtensionTelemetryLoggingOnly := false;
     appHost := "desktop";
     machineId := "machine";
     sessionId := "session";
     firstSessionDate := "Thu, 01 Jan 2026 00:00:00 GMT";
     initData_version := "1.80.0";
     uiKind := Desktop;
     remoteAuthority := None |}.

Definition example_extension : IExtensionDescription :=
  {| publisher := "acme";
     name := "tools";
     version := "0.1.0";
     identifier := "acme.tools" |}.

Definition example_sender : TelemetrySender :=
  {| sender_id := 7; flush := true |}.

Definition example_error : Error := {| message := "boom" |}.

(** A stand-in for the stripping of one property value: every string is
    replaced by a marker, other values are kept. *)
Definition example_cleanValue (v : value) : value :=
  match v with
  | VStr _ => VStr "<REDACTED>"
  | _ => v
  end.

(** The date of [example_initData] parses, to the first millisecond of
    2026 (UTC); nothing else does. *)
Definition example_Date_getTime (s : string) : option Z :=
  if String.eqb s "Thu, 01 Jan 2026 00:00:00 GMT"
  then Some 1767225600000%Z else None.

Definition example_remoteName (authority : option string) : value :=
  VStr "none".

Definition example_properties : gmap string value :=
  <["path" := VStr "/Users/alice/secret.txt"]> ∅.

(** [{properties: {path: "/Users/alice/secret.txt"}, measurements: {count: 3}}] *)
Definition example_envelope : gmap string value :=
  <["properties" := VObj example_properties]>
    (<["measurements" := VObj (<["count" := VNum 3]> ∅)]> ∅).

(** [{foo: 1}] *)
Definition example_additional : gmap string value := <["foo" := VNum 1]> ∅.

(** A logger with additional property [foo = 1] and builtin common property
    [foo = 2], builtins not suppressed. *)
Definition example_foo_logger : ExtHostTelemetryLogger :=
  {| _ignoreBuiltinCommonProperties := false;
     _additionalCommonProperties := Some example_additional;
     ignoreUnhandledExtHostErrors := false;
     _telemetryEnablements :=
       {| cached_isUsageEnabled := true; cached_isErrorsEnabled := true |};
     _apiObject := Some 0%nat;
     _sender := Some example_sender;
     _extension := example_extension;
     _inLoggingOnlyMode := false;
     _commonProperties := <["foo" := VNum 2]> ∅ |}.

(** A live logger in logging-only mode with usage and errors enabled. *)
Definition example_loggingOnly_logger : ExtHostTelemetryLogger :=
  {| _ignoreBuiltinCommonProperties := false;
     _additionalCommonProperties := None;
     ignoreUnhandledExtHostErrors := false;
     _telemetryEnablements :=
       {| cached_isUsageEnabled := true; cached_isErrorsEnabled := true |};
     _apiObject := Some 0%nat;
     _sender := Some example_sender;
     _extension := example_extension;
     _inLoggingOnlyMode := true;
     _commonProperties := ∅ |}.

(** A coordinator at level NONE with one logger registered, and the same
    after the level was raised to USAGE. *)
Definition example_host : ExtHostTelemetry :=
  run (cleanData_spec example_cleanValue) mixin_spec example_Date_getTime
    example_remoteName
    [Call_initializeTelemetryLevel NONE true None;
     Call_instantiateLogger 0 example_extension example_sender None]
    (new_ExtHostTelemetry example_initData false).

Definition example_host_usage : ExtHostTelemetry :=
  run (cleanData_spec example_cleanValue) mixin_spec example_Date_getTime
    example_remoteName
    [Call_onDidChangeTelemetryLevel USAGE]
    example_host.

Definition example_other_sender : TelemetrySender :=
  {| sender_id := 8; flush := false |}.

(** The same extension creates two loggers at level USAGE; the level then
    drops to NONE. *)
Definition example_host_two_loggers : ExtHostTelemetry :=
  run (cleanData_spec example_cleanValue) mixin_spec example_Date_getTime
    example_remoteName
    [Call_initializeTelemetryLevel USAGE true None;
     Call_instantiateLogger 0 example_extension example_sender None;
     Call_instantiateLogger 0 example_extension example_other_sender None;
     Call_onDidChangeTelemetryLevel NONE]
    (new_ExtHostTelemetry example_initData false).

(** Listeners of every logger's [onDidChangeEnableStates]: one that logs a
    usage event through the handle it is handed, and one that disposes the
    logger through it. *)
Definition example_logging_listeners (e : effect)
    : list Listener :=
  match e with
  | EnableStatesFired api =>
      [λ _, [(Handle_logUsage api "noticed" None, false)]]
  | _ => []
  end.

Definition example_disposing_listeners (e : effect)
    : list Listener :=
  match e with
  | EnableStatesFired api => [λ _, [(Handle_dispose api, false)]]
  | _ => []
  end.

(** Senders whose [sendEventData] and [sendErrorData] raise. *)
Definition example_failing (e : effect) : bool := is_transmit e.

(** ** The check of a sender *)

(** The results of [typeof]. *)
Inductive jstype :=
  | T_undefined
  | T_object
  | T_boolean
  | T_number
  | T_bigint
  | T_string
  | T_symbol
  | T_function.

#[export] Instance jstype_eq_dec : EqDecision jstype.
Proof. solve_decision. Defined.

(** The primitive values other than [undefined] and [null]. *)
Inductive primitive :=
  | P_boolean
  | P_number
  | P_bigint
  | P_string
  | P_symbol.

(** What [validateSender] can be handed at run time, where the declared
    type of [sender] is not enforced.  Of an object only the three members
    the check reads matter, each given by the [typeof] of its value; an
    absent member reads as [undefined]. *)
Inductive candidate :=
  | Cand_undefined
  | Cand_null
  | Cand_primitive (p : primitive)
  | Cand_function
  | Cand_object (sendEventData sendErrorData flush : jstype).

Definition typeof (sender : candidate) : jstype :=
  match sender with
  | Cand_undefined => T_undefined
  | Cand_null => T_object
  | Cand_primitive P_boolean => T_boolean
  | Cand_primitive P_number => T_number
  | Cand_primitive P_bigint => T_bigint
  | Cand_primitive P_string => T_string
  | Cand_primitive P_symbol => T_symbol
  | Cand_function => T_function
  | Cand_object _ _ _ => T_object
  end.

Inductive sender_member := M_sendEventData | M_sendErrorData | M_flush.

(** [typeof sender.m]; [None] when reading the member raises, which it
    does on [null] and [undefined].  The check reads members only of
    candidates whose [typeof] is ['object']; the members of a primitive or
    a function are never read and are given as [undefined]. *)
Definition typeof_member (sender : candidate) (m : sender_member)
    : option jstype :=
  match sender with
  | Cand_undefined | Cand_null => None
  | Cand_primitive _ | Cand_function => Some T_undefined
  | Cand_object sendEventData sendErrorData flush =>
      Some match m with
           | M_sendEventData => sendEventData
           | M_sendErrorData => sendErrorData
           | M_flush => flush
           end
  end.

(** How [validateSender] ends: it returns, it throws one of its own
    [TypeError]s with the given message, or the engine raises a [TypeError]
    for a member read on [null]. *)
Inductive validation :=
  | Valid
  | Invalid (message : string)
  | MemberReadRaised.

Definition validateSender (sender : candidate) : validation :=
  if negb (bool_decide (typeof sender = T_object)) then
    Invalid "TelemetrySender argument is invalid"
  else
    match typeof_member sender M_sendEventData with
    | None => MemberReadRaised
    | Some t =>
        if negb (bool_decide (t = T_function)) then
          Invalid "TelemetrySender.sendEventData must be a function"
        else
          match typeof_member sender M_sendErrorData with
          | None => MemberReadRaised
          | Some t =>
              if negb (bool_decide (t = T_function)) then
                Invalid "TelemetrySender.sendErrorData must be a function"
              else
                match typeof_member sender M_flush with
                | None => MemberReadRaised
                | Some t =>
                    if negb (bool_decide (t = T_undefined))
                       && negb (bool_decide (t = T_function))
                    then
                      Invalid
                        "TelemetrySender.flush must be a function or undefined"
                    else Valid
                end
          end
    end.

(** The calls a logger makes when it logs: to its sender's two transmit
    entry points and to the trace sink. *)
Definition is_logging_effect (e : effect) : Prop :=
  match e with
  | SendEventData _ _ _ | SendErrorData _ _ _ | Trace _ _ => True
  | _ => False
  end.

(** A computation that reaches the loggers only: it keeps a well-formed
    state well-formed and changes nothing but the store. *)
Definition steady {A} (m : M ExtHostTelemetry A) : Prop :=
  ∀ this, wf this →
    wf (state_of (m this))
    ∧ state_of (m this) = set_store (store (state_of (m this))) this.

(** The notifications among the calls of a trace, in order. *)
Definition notifications (t : list effect) : list effect :=
  filter (λ e, is_notification e = true) t.

(** * Properties *)

(** ** The derived configuration *)

Lemma level_ge_USAGE (l : TelemetryLevel) : level_ge l USAGE = level_eq l USAGE.
Proof. by destruct l. Qed.

Lemma level_eq_spec (a b : TelemetryLevel) : level_eq a b = bool_decide (a = b).
Proof. by destruct a, b. Qed.

(** C2.  For every level and product configuration held by the
    coordinator, [getTelemetryDetails] is exactly
    [{isCrashEnabled: L >= CRASH, isErrorsEnabled: P.error && L >= ERROR,
    isUsageEnabled: P.usage && L >= USAGE}]; with [P = {usage: true,
    error: true}], level NONE gives all three false and level USAGE all
    three true. *)
Theorem getTelemetryDetails_derived (this : ExtHostTelemetry) :
  getTelemetryDetails this
  = {| isCrashEnabled := level_ge (_level this) CRASH;
       isErrorsEnabled :=
         error (_productConfig this) && level_ge (_level this) ERROR;
       isUsageEnabled :=
         usage (_productConfig this) && level_ge (_level this) USAGE |}
  ∧ getTelemetryDetails
      (set_level NONE
         (set_productConfig {| usage := true; error := true |} this))
    = {| isCrashEnabled := false;
         isErrorsEnabled := false;
         isUsageEnabled := false |}
  ∧ getTelemetryDetails
      (set_level USAGE
         (set_productConfig {| usage := true; error := true |} this))
    = {| isCrashEnabled := true;
         isErrorsEnabled := true;
         isUsageEnabled := true |}.
Proof.
  split; [|done].
  unfold getTelemetryDetails.
  by destruct (error (_productConfig this)), (usage (_productConfig this)).
Qed.

(** C1, as the code has it.  [getTelemetryConfiguration] looks at the level
    alone: it is true exactly when the level is USAGE, whatever the product
    configuration; the [isUsageEnabled] member of [getTelemetryDetails] is
    its conjunction with [P.usage], so the two agree whenever [P.usage] is
    true. *)
Theorem getTelemetryConfiguration_level_only (this : ExtHostTelemetry) :
  getTelemetryConfiguration this = bool_decide (_level this = USAGE)
  ∧ getTelemetryConfiguration this = level_ge (_level this) USAGE
  ∧ isUsageEnabled (getTelemetryDetails this)
    = usage (_productConfig this) && getTelemetryConfiguration this.
Proof.
  unfold getTelemetryConfiguration, getTelemetryDetails; simpl.
  rewrite level_ge_USAGE, level_eq_spec.
  by destruct (usage (_productConfig this)).
Qed.

(** C1 fails as stated: after the host initialises the level to USAGE with
    a product configuration that switches usage off,
    [getTelemetryConfiguration] is true although usage telemetry is not
    enabled. *)
Lemma getTelemetryConfiguration_not_usage_enabled :
  let this :=
    state_of (initializeTelemetryLevel USAGE true
                (Some {| usage := false; error := true |})
                (new_ExtHostTelemetry example_initData false)) in
  ¬ (getTelemetryConfiguration this = true
     ↔ usage (_productConfig this) = true
       ∧ level_ge (_level this) USAGE = true)
  ∧ getTelemetryConfiguration this
    ≠ isUsageEnabled (getTelemetryDetails this).
Proof.
  split.
  - intros [H _]. by destruct (H eq_refl).
  - done.
Qed.

(** ** Record plumbing *)

Lemma set_sender_id (this : ExtHostTelemetryLogger) :
  set_sender (_sender this) this = this.
Proof. by destruct this. Qed.

Lemma set_store_id (this : ExtHostTelemetry) :
  set_store (store this) this = this.
Proof. by destruct this. Qed.

Lemma isDisposed_false (this : ExtHostTelemetryLogger) :
  isDisposed this = false ↔ is_Some (_sender this).
Proof.
  unfold isDisposed. destruct (_sender this); simpl.
  - split; [eauto | done].
  - split; [done | by intros [? ?]].
Qed.

Lemma isDisposed_true (this : ExtHostTelemetryLogger) :
  isDisposed this = true ↔ _sender this = None.
Proof.
  unfold isDisposed. destruct (_sender this); simpl; split; done.
Qed.

(** ** The logger's methods, case by case *)

Section LoggerFacts.

Variable cleanData : value → value.
Variable mixin : value → value → value.

Lemma logEvent_disposed this eventName data :
  _sender this = None →
  logEvent cleanData mixin eventName data this = (Returned (), this, []).
Proof. intros H. unfold logEvent. unfold_M. by rewrite H. Qed.

Lemma logEvent_live this sender eventName data :
  _sender this = Some sender →
  logEvent cleanData mixin eventName data this
  = (Returned (), this,
     (if _inLoggingOnlyMode this then []
      else [SendEventData sender (qualified this eventName)
              (mixInCommonPropsAndCleanData cleanData mixin this
                 (default ∅ data))])
     ++ [Trace (qualified this eventName)
           (mixInCommonPropsAndCleanData cleanData mixin this
              (default ∅ data))]).
Proof.
  intros H. unfold logEvent, qualified. unfold_M. rewrite H.
  by destruct (_inLoggingOnlyMode this).
Qed.

Lemma logUsage_disabled this eventName data :
  cached_isUsageEnabled (_telemetryEnablements this) = false →
  logUsage cleanData mixin eventName data this = (Returned (), this, []).
Proof. intros H. unfold logUsage. unfold_M. by rewrite H. Qed.

Lemma logUsage_enabled this eventName data :
  cached_isUsageEnabled (_telemetryEnablements this) = true →
  logUsage cleanData mixin eventName data this
  = logEvent cleanData mixin eventName data this.
Proof.
  intros H. unfold logUsage. unfold_M. rewrite H. simpl.
  by destruct (logEvent _ _ _ _ _) as [[[]]].
Qed.

Lemma logError_dropped this eventNameOrException data :
  cached_isErrorsEnabled (_telemetryEnablements this) = false
  ∨ _sender this = None →
  logError cleanData mixin eventNameOrException data this
  = (Returned (), this, []).
Proof.
  intros H. unfold logError. unfold_M.
  destruct H as [-> | ->]; [done|].
  by rewrite orb_true_r.
Qed.

Lemma logError_string this sender eventName data :
  cached_isErrorsEnabled (_telemetryEnablements this) = true →
  _sender this = Some sender →
  logError cleanData mixin (inl eventName) data this
  = logEvent cleanData mixin eventName data this.
Proof.
  intros He Hs. unfold logError. unfold_M. rewrite He, Hs. simpl.
  by destruct (logEvent _ _ _ _ _) as [[[]]].
Qed.

Lemma logError_exception this sender exception data :
  cached_isErrorsEnabled (_telemetryEnablements this) = true →
  _sender this = Some sender →
  logError cleanData mixin (inr exception) data this
  = (Returned (), this, [SendErrorData sender exception data]).
Proof.
  intros He Hs. unfold logError. unfold_M. by rewrite He, Hs.
Qed.

(** With a sender whose calls return, logging never changes the logger
    and returns. *)
Lemma logUsage_pure this eventName data :
  ∃ t, logUsage cleanData mixin eventName data this = (Returned (), this, t).
Proof.
  destruct (cached_isUsageEnabled (_telemetryEnablements this)) eqn:Hu.
  - rewrite logUsage_enabled by done.
    destruct (_sender this) eqn:Hs.
    + erewrite logEvent_live by done. eauto.
    + rewrite logEvent_disposed by done. eauto.
  - rewrite logUsage_disabled by done. eauto.
Qed.

Lemma logError_pure this eventNameOrException data :
  ∃ t, logError cleanData mixin eventNameOrException data this
       = (Returned (), this, t).
Proof.
  destruct (cached_isErrorsEnabled (_telemetryEnablements this)) eqn:He;
    [|rewrite logError_dropped by auto; eauto].
  destruct (_sender this) eqn:Hs;
    [|rewrite logError_dropped by auto; eauto].
  destruct eventNameOrException.
  - erewrite logError_string, logEvent_live by done. eauto.
  - erewrite logError_exception by done. eauto.
Qed.

Lemma dispose_disposed this :
  _sender this = None → dispose this = (Returned (), this, []).
Proof.
  intros H. unfold dispose. unfold_M. rewrite H. simpl.
  by rewrite <- H, set_sender_id.
Qed.

Lemma dispose_sender this : _sender (state_of (dispose this)) = None.
Proof.
  unfold dispose. unfold_M.
  destruct (_sender this) as [s|]; [destruct (flush s)|]; done.
Qed.

Lemma dispose_outcome this : outcome_of (dispose this) = Returned ().
Proof.
  unfold dispose. unfold_M.
  destruct (_sender this) as [s|]; [destruct (flush s)|]; done.
Qed.

Lemma dispose_trace this :
  trace_of (dispose this)
  = match _sender this with
    | Some s => if flush s then [Flush s] else []
    | None => []
    end.
Proof.
  unfold dispose. unfold_M.
  destruct (_sender this) as [s|]; [destruct (flush s)|]; done.
Qed.

Lemma updateTelemetryEnablements_sender this u e :
  outcome_of (updateTelemetryEnablements u e this) = Returned ()
  ∧ _sender (state_of (updateTelemetryEnablements u e this)) = _sender this
  ∧ _apiObject (state_of (updateTelemetryEnablements u e this))
    = _apiObject this
  ∧ Forall (λ ev, is_sender_call ev = false)
      (trace_of (updateTelemetryEnablements u e this)).
Proof.
  unfold updateTelemetryEnablements. unfold_M.
  destruct (_apiObject this) eqn:Ha; simpl; repeat split; auto.
Qed.

End LoggerFacts.

(** ** Disposal *)

Section Disposal.

Variable cleanData : value → value.
Variable mixin : value → value → value.

(** On a disposed logger no call reaches the sender or raises, and the
    logger stays disposed. *)
Lemma perform_logger_disposed this c :
  _sender this = None →
  outcome_of (perform_logger cleanData mixin c this) = Returned ()
  ∧ _sender (state_of (perform_logger cleanData mixin c this)) = None
  ∧ Forall (λ e, is_sender_call e = false)
      (trace_of (perform_logger cleanData mixin c this)).
Proof.
  intros H.
  destruct c as [eventName data | eventNameOrException data | | u e]; simpl.
  - destruct (cached_isUsageEnabled (_telemetryEnablements this)) eqn:Hu.
    + rewrite logUsage_enabled, logEvent_disposed by done. by repeat split.
    + rewrite logUsage_disabled by done. by repeat split.
  - rewrite logError_dropped by auto. by repeat split.
  - rewrite dispose_disposed by done. by repeat split.
  - destruct (updateTelemetryEnablements_sender this u e)
      as (Ho & Hs & _ & Ht).
    by rewrite Hs.
Qed.

Lemma perform_all_disposed calls : ∀ this,
  _sender this = None →
  outcome_of (perform_all cleanData mixin calls this) = Returned ()
  ∧ _sender (state_of (perform_all cleanData mixin calls this)) = None
  ∧ Forall (λ e, is_sender_call e = false)
      (trace_of (perform_all cleanData mixin calls this)).
Proof.
  induction calls as [|c calls IH]; intros this H; [by repeat split|].
  destruct (perform_logger_disposed this c H) as (Ho & Hs & Ht).
  simpl. unfold mbind, M_bind.
  destruct (perform_logger cleanData mixin c this) as [[o s1] t1].
  unfold outcome_of, state_of, trace_of in *; simpl in *. subst o.
  destruct (IH s1 Hs) as (Ho' & Hs' & Ht').
  destruct (perform_all cleanData mixin calls s1) as [[o2 s2] t2].
  simpl in *. repeat split; [done..|by apply Forall_app].
Qed.

(** Through its handle a disposed logger cannot be changed at all. *)
Lemma perform_handle_calls_disposed calls : ∀ this,
  _sender this = None →
  perform_all cleanData mixin (filter (λ c, is_handle_call c) calls) this
  = (Returned (), this, []).
Proof.
  induction calls as [|c calls IH]; intros this H; [done|].
  rewrite filter_cons. destruct c; simpl; try by apply IH.
  - unfold mbind, M_bind.
    destruct (cached_isUsageEnabled (_telemetryEnablements this)) eqn:Hu.
    + rewrite logUsage_enabled, logEvent_disposed by done. by rewrite IH.
    + rewrite logUsage_disabled by done. by rewrite IH.
  - unfold mbind, M_bind. rewrite logError_dropped by auto. by rewrite IH.
  - unfold mbind, M_bind. rewrite dispose_disposed by done. by rewrite IH.
Qed.

(** C6.  Disposal is terminal and idempotent.  Once [dispose] has run,
    whatever is called on the logger afterwards ([logUsage], [logError],
    [dispose], with any arguments, and even pushes of the coordinator)
    calls no entry point of the sender and raises nothing, and the logger
    stays disposed; calls through the handle leave the logger as it is and
    produce no call at all; a second [dispose] is such a no-op; and over
    the first [dispose] and everything after it the sender's flush runs at
    most once. *)
Theorem dispose_terminal (this : ExtHostTelemetryLogger)
    (calls : list logger_call) :
  let disposed := state_of (dispose this) in
  let later := perform_all cleanData mixin calls disposed in
  isDisposed disposed = true
  ∧ outcome_of later = Returned ()
  ∧ Forall (λ e, is_sender_call e = false) (trace_of later)
  ∧ isDisposed (state_of later) = true
  ∧ perform_all cleanData mixin (filter (λ c, is_handle_call c) calls)
      disposed
    = (Returned (), disposed, [])
  ∧ dispose disposed = (Returned (), disposed, [])
  ∧ length (filter (λ e, is_flush e)
              (trace_of (dispose this) ++ trace_of later)) ≤ 1.
Proof.
  intros disposed later.
  assert (Hd : _sender disposed = None) by apply dispose_sender.
  destruct (perform_all_disposed calls disposed Hd) as (Ho & Hs & Ht).
  split; [by apply isDisposed_true|].
  split; [done|]. split; [done|].
  split; [by apply isDisposed_true|].
  split; [by apply perform_handle_calls_disposed|].
  split; [by apply dispose_disposed|].
  rewrite filter_app, length_app.
  assert (Hz : filter (λ e, is_flush e) (trace_of later) = []).
  { fold later in Ht. induction Ht as [|e t He _ IH]; [done|].
    rewrite filter_cons. destruct e; simpl in *; done. }
  rewrite Hz, dispose_trace. simpl.
  destruct (_sender this) as [s|]; [destruct (flush s)|]; simpl; lia.
Qed.

End Disposal.

(** ** Logging-only mode *)

(** In logging-only mode the event path transmits nothing: [logUsage] and
    [logError] with an event name only write to the trace sink. *)
Lemma loggingOnly_events_not_transmitted cleanData mixin this eventName data :
  _inLoggingOnlyMode this = true →
  Forall (λ e, is_transmit e = false)
    (trace_of (logUsage cleanData mixin eventName data this))
  ∧ Forall (λ e, is_transmit e = false)
      (trace_of (logError cleanData mixin (inl eventName) data this)).
Proof.
  intros Hm.
  assert (He : Forall (λ e, is_transmit e = false)
                 (trace_of (logEvent cleanData mixin eventName data this))).
  { destruct (_sender this) eqn:Hs.
    - erewrite logEvent_live by done. rewrite Hm. simpl.
      by repeat constructor.
    - by rewrite logEvent_disposed. }
  split.
  - destruct (cached_isUsageEnabled (_telemetryEnablements this)) eqn:Hu.
    + by rewrite logUsage_enabled.
    + by rewrite logUsage_disabled.
  - destruct (cached_isErrorsEnabled (_telemetryEnablements this)) eqn:Her;
      [|by rewrite logError_dropped by auto].
    destruct (_sender this) eqn:Hs; [|by rewrite logError_dropped by auto].
    by erewrite logError_string.
Qed.

(** C7 does not hold on the exception path: on a live logger in
    logging-only mode with errors enabled, [logError] given an [Error]
    calls [sendErrorData] of the sender, and writes nothing to the trace
    sink. *)
Theorem logError_exception_sent_in_loggingOnly_mode
    (cleanData : value → value) (mixin : value → value → value)
    (data : option (gmap string value)) :
  _inLoggingOnlyMode example_loggingOnly_logger = true
  ∧ isDisposed example_loggingOnly_logger = false
  ∧ logError cleanData mixin (inr example_error) data
      example_loggingOnly_logger
    = (Returned (), example_loggingOnly_logger,
       [SendErrorData example_sender example_error data])
  ∧ Exists (λ e, is_transmit e = true)
      (trace_of (logError cleanData mixin (inr example_error) data
                   example_loggingOnly_logger)).
Proof.
  split; [done|]. split; [done|].
  assert (H : logError cleanData mixin (inr example_error) data
                example_loggingOnly_logger
              = (Returned (), example_loggingOnly_logger,
                 [SendErrorData example_sender example_error data])).
  { by apply logError_exception. }
  split; [done|]. rewrite H. by constructor.
Qed.

(** ** The enrichment pipeline *)

(** C8.  For an envelope-shaped payload (one with a [properties] member)
    the pipeline returns the envelope with only that member replaced: the
    [measurements] member, like every member other than [properties], is
    returned unchanged, whatever [cleanData] and [mixin] do. *)
Theorem measurements_unchanged (cleanData : value → value)
    (mixin : value → value → value) (this : ExtHostTelemetryLogger)
    (data : gmap string value) :
  is_Some (data !! "properties") →
  ∃ o : gmap string value,
    mixInCommonPropsAndCleanData cleanData mixin this data = VObj o
    ∧ o !! "measurements" = data !! "measurements"
    ∧ ∀ k : string, k ≠ "properties" → o !! k = data !! k.
Proof.
  intros [properties Hp]. unfold mixInCommonPropsAndCleanData.
  rewrite Hp. eexists. split; [done|].
  split; [by rewrite lookup_insert_ne|].
  intros k Hk. by rewrite lookup_insert_ne.
Qed.

(** The spec's example: [measurements.count], given as 3, is 3 in the
    payload the pipeline returns. *)
Lemma measurements_unchanged_witness :
  ∃ o : gmap string value,
    mixInCommonPropsAndCleanData (cleanData_spec example_cleanValue)
      mixin_spec example_foo_logger example_envelope = VObj o
    ∧ o !! "measurements" = example_envelope !! "measurements"
    ∧ ∀ k : string, k ≠ "properties" → o !! k = example_envelope !! k.
Proof.
  apply (measurements_unchanged (cleanData_spec example_cleanValue)
           mixin_spec example_foo_logger example_envelope).
  vm_compute. eauto.
Defined.



(** The precedence is the helper's.  The method fixes the order of the two
    calls, additional properties first, builtin ones second, each with two
    arguments; were [mixin] to overwrite the keys its first argument
    already has, the builtin value would be the one emitted. *)
Lemma builtin_emitted_if_mixin_overwrites (mixin : value → value → value)
    (cleanData : value → value) :
  (∀ d s : gmap string value, mixin (VObj d) (VObj s) = VObj (s ∪ d)) →
  cleanData (VObj ∅) = VObj ∅ →
  ∃ q : gmap string value,
    mixInCommonPropsAndCleanData cleanData mixin example_foo_logger ∅ = VObj q
    ∧ q !! "foo" = Some (VNum 2).
Proof.
  intros Hmixin Hclean. unfold mixInCommonPropsAndCleanData. simpl.
  rewrite lookup_empty, Hclean, !Hmixin. by eexists.
Qed.

(** ** Calls of the coordinator on its loggers *)

Lemma invoke_unchanged {A} (l : loc) (m : M ExtHostTelemetryLogger A)
    (this : ExtHostTelemetry) (logger : ExtHostTelemetryLogger)
    (o : outcome A) (t : list effect) :
  store this !! l = Some logger →
  m logger = (o, logger, t) →
  invoke l m this = (o, this, t).
Proof.
  intros Hl Hm. unfold invoke. rewrite Hl, Hm.
  by rewrite insert_id, set_store_id.
Qed.

Lemma invoke_read {A} (l : loc) (f : ExtHostTelemetryLogger → A)
    (this : ExtHostTelemetry) (logger : ExtHostTelemetryLogger) :
  store this !! l = Some logger →
  invoke l (this ← get; mret (f this)) this = (Returned (f logger), this, []).
Proof. intros Hl. by apply invoke_unchanged with logger. Qed.

Lemma Map_get_delete (key : string) (m : list (string * loc)) :
  Map_get key (Map_delete key m) = None.
Proof.
  unfold Map_delete. induction m as [|[k v] m IH]; [done|].
  rewrite filter_cons. simpl. destruct (decide (k ≠ key)) as [Hk|Hk]; simpl.
  - by rewrite decide_False.
  - done.
Qed.

Lemma Map_get_delete_ne (key key' : string) (m : list (string * loc)) :
  key ≠ key' → Map_get key' (Map_delete key m) = Map_get key' m.
Proof.
  intros Hne. unfold Map_delete. induction m as [|[k v] m IH]; [done|].
  rewrite filter_cons. simpl. destruct (decide (k ≠ key)) as [Hk|Hk]; simpl.
  - by rewrite IH.
  - apply dec_stable in Hk. subst k. by rewrite decide_False.
Qed.

Section UnhandledErrors.

Variable cleanData : value → value.
Variable mixin : value → value → value.

Lemma onExtensionError_absent this extension error :
  Map_get extension (_telemetryLoggers this) = None →
  onExtensionError cleanData mixin extension error this
  = (Returned false, this, []).
Proof. intros H. unfold onExtensionError. unfold_M. by rewrite H. Qed.

Lemma onExtensionError_disposed this extension error l logger :
  Map_get extension (_telemetryLoggers this) = Some l →
  store this !! l = Some logger →
  isDisposed logger = true →
  onExtensionError cleanData mixin extension error this
  = (Returned false,
     set_telemetryLoggers (Map_delete extension (_telemetryLoggers this))
       this,
     []).
Proof.
  intros Hl Hs Hd.
  pose proof (invoke_read l isDisposed this logger Hs) as Rd.
  unfold onExtensionError. unfold_M. by rewrite Hl, Rd, Hd.
Qed.

Lemma onExtensionError_ignored this extension error l logger :
  Map_get extension (_telemetryLoggers this) = Some l →
  store this !! l = Some logger →
  isDisposed logger = false →
  ignoreUnhandledExtHostErrors logger = true →
  onExtensionError cleanData mixin extension error this
  = (Returned false, this, []).
Proof.
  intros Hl Hs Hd Hi.
  pose proof (invoke_read l isDisposed this logger Hs) as Rd.
  pose proof (invoke_read l ignoreUnhandledExtHostErrors this logger Hs)
    as Ri.
  unfold onExtensionError. unfold_M. by rewrite Hl, Rd, Hd, Ri, Hi.
Qed.

Lemma onExtensionError_forwarded this extension error l logger :
  Map_get extension (_telemetryLoggers this) = Some l →
  store this !! l = Some logger →
  isDisposed logger = false →
  ignoreUnhandledExtHostErrors logger = false →
  onExtensionError cleanData mixin extension error this
  = (Returned true, this,
     trace_of (logError cleanData mixin (inr error) None logger)).
Proof.
  intros Hl Hs Hd Hi.
  pose proof (invoke_read l isDisposed this logger Hs) as Rd.
  pose proof (invoke_read l ignoreUnhandledExtHostErrors this logger Hs)
    as Ri.
  destruct (logError_pure cleanData mixin logger (inr error) None) as [t Ht].
  pose proof (invoke_unchanged l _ this logger (Returned ()) t Hs Ht) as Rl.
  unfold onExtensionError. unfold_M. rewrite Hl, Rd, Hd, Ri, Hi, Rl, Ht.
  simpl. by rewrite app_nil_r.
Qed.

(** C9.  The unhandled-error entry point, case by case: no logger
    registered under the identifier: false; the registered logger is
    disposed: false, and the entry is removed from the registry (other
    entries and the loggers are untouched); the registered live logger
    opted out: false, nothing is logged and nothing changes; otherwise the
    logger's [logError] runs with the error (and no data) and the result is
    true. *)
Theorem onExtensionError_cases (this : ExtHostTelemetry) (extension : string)
    (error : Error) :
  (Map_get extension (_telemetryLoggers this) = None →
   onExtensionError cleanData mixin extension error this
   = (Returned false, this, []))
  ∧ (∀ (l : loc) (logger : ExtHostTelemetryLogger),
       Map_get extension (_telemetryLoggers this) = Some l →
       store this !! l = Some logger →
       (isDisposed logger = true →
        onExtensionError cleanData mixin extension error this
        = (Returned false,
           set_telemetryLoggers
             (Map_delete extension (_telemetryLoggers this)) this,
           [])
        ∧ Map_get extension (Map_delete extension (_telemetryLoggers this))
          = None
        ∧ ∀ other : string, extension ≠ other →
            Map_get other (Map_delete extension (_telemetryLoggers this))
            = Map_get other (_telemetryLoggers this))
       ∧ (isDisposed logger = false →
          ignoreUnhandledExtHostErrors logger = true →
          onExtensionError cleanData mixin extension error this
          = (Returned false, this, []))
       ∧ (isDisposed logger = false →
          ignoreUnhandledExtHostErrors logger = false →
          onExtensionError cleanData mixin extension error this
          = (Returned true, this,
             trace_of (logError cleanData mixin (inr error) None logger)))).
Proof.
  split; [apply onExtensionError_absent|].
  intros l logger Hl Hs. split; [|split].
  - intros Hd.
    split; [by apply (onExtensionError_disposed this extension error l logger)|].
    split; [apply Map_get_delete|].
    intros other Hne. by apply Map_get_delete_ne.
  - intros Hd Hi.
    by apply (onExtensionError_ignored this extension error l logger).
  - intros Hd Hi.
    by apply (onExtensionError_forwarded this extension error l logger).
Qed.

(** C10.  For a live logger that did not opt out, the entry point answers
    true even when the logger's cached [isErrorsEnabled] is false; the
    error is then dropped: no call is made to the sender or the trace sink,
    and nothing changes. *)
Theorem onExtensionError_true_yet_dropped (this : ExtHostTelemetry)
    (extension : string) (error : Error) (l : loc)
    (logger : ExtHostTelemetryLogger) :
  Map_get extension (_telemetryLoggers this) = Some l →
  store this !! l = Some logger →
  isDisposed logger = false →
  ignoreUnhandledExtHostErrors logger = false →
  cached_isErrorsEnabled (_telemetryEnablements logger) = false →
  onExtensionError cleanData mixin extension error this
  = (Returned true, this, []).
Proof.
  intros Hl Hs Hd Hi He.
  rewrite (onExtensionError_forwarded this extension error l logger)
    by done.
  by rewrite logError_dropped by auto.
Qed.

End UnhandledErrors.

(** A registered live logger that did not opt out, at level USAGE: the
    error is forwarded and the answer is true. *)
Lemma onExtensionError_cases_witness :
  ∃ (l : loc) (logger : ExtHostTelemetryLogger),
    Map_get "acme.tools" (_telemetryLoggers example_host_usage) = Some l
    ∧ store example_host_usage !! l = Some logger
    ∧ isDisposed logger = false
    ∧ ignoreUnhandledExtHostErrors logger = false
    ∧ onExtensionError (cleanData_spec example_cleanValue) mixin_spec
        "acme.tools" example_error example_host_usage
      = (Returned true, example_host_usage,
         trace_of (logError (cleanData_spec example_cleanValue) mixin_spec
                     (inr example_error) None logger)).
Proof.
  eexists 0%nat, _.
  split; [reflexivity|]. split; [reflexivity|].
  split; [reflexivity|]. split; [reflexivity|].
  apply (proj2 (onExtensionError_cases (cleanData_spec example_cleanValue)
                  mixin_spec example_host_usage "acme.tools" example_error)
           0%nat _ eq_refl eq_refl);
    reflexivity.
Defined.

(** A registered live logger created at level NONE: errors are disabled in
    its cache, the answer is true all the same and nothing is sent. *)
Lemma onExtensionError_true_yet_dropped_witness :
  onExtensionError (cleanData_spec example_cleanValue) mixin_spec
    "acme.tools" example_error example_host
  = (Returned true, example_host, []).
Proof.
  eapply (onExtensionError_true_yet_dropped
            (cleanData_spec example_cleanValue) mixin_spec example_host
            "acme.tools" example_error 0%nat);
    reflexivity.
Defined.

(** ** The registry as a JavaScript [Map] *)

Lemma Map_set_elem key v m e : e ∈ Map_set key v m → e = (key, v) ∨ e ∈ m.
Proof.
  induction m as [|[k v'] m IH]; simpl.
  - intros ->%list_elem_of_singleton. by left.
  - destruct (decide (k = key)) as [->|Hk].
    + intros [->|H]%elem_of_cons; [by left|right; by right].
    + intros [->|H]%elem_of_cons; [right; by left|].
      destruct (IH H) as [->|H']; [by left|right; by right].
Qed.

Lemma Map_set_here key v m : (key, v) ∈ Map_set key v m.
Proof.
  induction m as [|[k v'] m IH]; simpl; [by left|].
  destruct (decide (k = key)); [by left|by right].
Qed.

Lemma Map_set_keys key v m :
  (Map_set key v m).*1 = if decide (key ∈ m.*1) then m.*1 else m.*1 ++ [key].
Proof.
  induction m as [|[k v'] m IH]; [done|].
  cbn [Map_set]. destruct (decide (k = key)) as [->|Hk];
    rewrite !fmap_cons; cbn [fst].
  - rewrite decide_True; [done|by left].
  - rewrite IH. destruct (decide (key ∈ m.*1)) as [Hin|Hin].
    + rewrite decide_True; [done|by right].
    + rewrite decide_False; [done|].
      intros [?|?]%elem_of_cons; [by subst|done].
Qed.

Lemma Map_set_NoDup key v m : NoDup m.*1 → NoDup (Map_set key v m).*1.
Proof.
  intros H. rewrite Map_set_keys. destruct (decide (key ∈ m.*1)); [done|].
  apply NoDup_app. split; [done|]. split; [|apply NoDup_singleton].
  intros x Hx ->%list_elem_of_singleton. done.
Qed.

Lemma Map_delete_elem key m e : e ∈ Map_delete key m ↔ e ∈ m ∧ e.1 ≠ key.
Proof. unfold Map_delete. rewrite list_elem_of_filter. tauto. Qed.

Lemma Map_delete_keys key m :
  (Map_delete key m).*1 = filter (λ k, k ≠ key) m.*1.
Proof.
  unfold Map_delete. induction m as [|[k v] m IH]; [done|].
  rewrite fmap_cons, !filter_cons. cbn [fst].
  destruct (decide (k ≠ key)); [|done].
  rewrite fmap_cons. cbn [fst]. by rewrite IH.
Qed.

Lemma Map_delete_NoDup key m : NoDup m.*1 → NoDup (Map_delete key m).*1.
Proof. intros H. rewrite Map_delete_keys. by apply NoDup_filter. Qed.

Lemma Map_get_elem key v m : NoDup m.*1 → (key, v) ∈ m → Map_get key m = Some v.
Proof.
  induction m as [|[k v'] m IH]; simpl.
  - by intros _ ?%elem_of_nil.
  - intros [Hk Hnd]%NoDup_cons [Heq|Hin]%elem_of_cons.
    + simplify_eq. by rewrite decide_True.
    + rewrite decide_False; [by apply IH|].
      intros ->. apply Hk. by apply (list_elem_of_fmap_2 fst) in Hin.
Qed.

Lemma Map_get_Some key v m : Map_get key m = Some v → (key, v) ∈ m.
Proof.
  induction m as [|[k v'] m IH]; simpl; [done|].
  destruct (decide (k = key)) as [->|Hk].
  - intros [= ->]. by left.
  - intros H. right. by apply IH.
Qed.

(** ** The first loop: disposed loggers leave the registry *)

Lemma prune_sub st entries : ∀ m e, e ∈ prune st entries m → e ∈ m.
Proof.
  induction entries as [|e' entries IH]; intros m e; simpl; [done|].
  intros H%IH. destruct (disposed_at st e'.2); [|done].
  by apply Map_delete_elem in H as [? _].
Qed.

Lemma prune_removed st entries : ∀ m e,
  e ∈ prune st entries m →
  ∀ e', e' ∈ entries → disposed_at st e'.2 = true → e'.1 ≠ e.1.
Proof.
  induction entries as [|e0 entries IH]; intros m e He e' Hin Hd.
  - by apply elem_of_nil in Hin.
  - simpl in He. apply elem_of_cons in Hin as [->|Hin].
    + apply prune_sub in He. rewrite Hd in He.
      apply Map_delete_elem in He as [_ Hne]. congruence.
    + by eapply IH.
Qed.

Lemma prune_kept st entries : ∀ m e,
  e ∈ m →
  (∀ e', e' ∈ entries → disposed_at st e'.2 = true → e'.1 ≠ e.1) →
  e ∈ prune st entries m.
Proof.
  induction entries as [|e0 entries IH]; intros m e He Hk; [done|].
  simpl. apply IH.
  - destruct (disposed_at st e0.2) eqn:Hd; [|done].
    apply Map_delete_elem. split; [done|].
    intros Heq. by apply (Hk e0); [left|..].
  - intros e' Hin. apply Hk. by right.
Qed.

Lemma prune_NoDup st entries : ∀ m, NoDup m.*1 → NoDup (prune st entries m).*1.
Proof.
  induction entries as [|e0 entries IH]; intros m H; [done|].
  simpl. apply IH. destruct (disposed_at st e0.2); [|done].
  by apply Map_delete_NoDup.
Qed.

(** Pruning the registry against itself leaves exactly its live entries. *)
Lemma prune_live st m e :
  NoDup m.*1 →
  e ∈ prune st m m ↔ e ∈ m ∧ disposed_at st e.2 = false.
Proof.
  intros Hnd. split.
  - intros H. split; [by eapply prune_sub|].
    destruct (disposed_at st e.2) eqn:Hd; [|done].
    by destruct (prune_removed st m m e H e (prune_sub _ _ _ _ H) Hd).
  - intros [Hin Hd]. apply prune_kept; [done|].
    intros e' Hin' Hd' Heq.
    assert (e' = e); [|subst; congruence].
    destruct e as [k v], e' as [k' v']. simpl in *. subst k'.
    f_equal.
    apply (Map_get_elem k v' m Hnd) in Hin'.
    apply (Map_get_elem k v m Hnd) in Hin. congruence.
Qed.

Lemma set_telemetryLoggers_id this :
  set_telemetryLoggers (_telemetryLoggers this) this = this.
Proof. by destruct this. Qed.

Lemma remove_if_disposed_eq this key l :
  is_Some (store this !! l) →
  remove_if_disposed l key this
  = (Returned (),
     set_telemetryLoggers
       (if disposed_at (store this) l
        then Map_delete key (_telemetryLoggers this)
        else _telemetryLoggers this) this,
     []).
Proof.
  intros [logger Hl].
  pose proof (invoke_read l isDisposed this logger Hl) as Rd.
  unfold remove_if_disposed, disposed_at. unfold_M. rewrite Rd, Hl. simpl.
  destruct (isDisposed logger); [done|].
  by rewrite set_telemetryLoggers_id.
Qed.

Lemma prune_loop entries : ∀ this,
  Forall (λ e, is_Some (store this !! e.2)) entries →
  Map_forEach remove_if_disposed entries this
  = (Returned (),
     set_telemetryLoggers
       (prune (store this) entries (_telemetryLoggers this)) this,
     []).
Proof.
  induction entries as [|[key l] entries IH]; intros this Hall.
  - simpl. unfold_M. by rewrite set_telemetryLoggers_id.
  - apply Forall_cons in Hall as [Hl Hall]. simpl in Hl.
    simpl. unfold mbind, M_bind.
    rewrite remove_if_disposed_eq by done.
    rewrite IH by done. simpl. by destruct this.
Qed.

(** ** The second loop: the new snapshot reaches every registered logger *)

Lemma alter_as_insert (f : ExtHostTelemetryLogger → ExtHostTelemetryLogger)
    (l : loc) (st : gmap loc ExtHostTelemetryLogger) logger :
  st !! l = Some logger → <[l := f logger]> st = alter f l st.
Proof.
  intros Hl. apply map_eq. intros i. destruct (decide (i = l)) as [->|Hne].
  - by rewrite lookup_insert_eq, lookup_alter_eq, Hl.
  - by rewrite lookup_insert_ne, lookup_alter_ne.
Qed.

Lemma update_level_eq details this key l logger :
  store this !! l = Some logger →
  _apiObject logger = Some l →
  update_level details l key this
  = (Returned (),
     set_store
       (alter (set_telemetryEnablements (snapshot details)) l (store this))
       this,
     [EnableStatesFired l]).
Proof.
  intros Hl Ha. unfold update_level, invoke, updateTelemetryEnablements.
  rewrite Hl. unfold_M. rewrite Ha. simpl.
  by rewrite (alter_as_insert _ l (store this) logger Hl).
Qed.

Lemma push_loop details entries : ∀ this,
  Forall (λ e, ∃ logger, store this !! e.2 = Some logger
                         ∧ _apiObject logger = Some e.2) entries →
  Map_forEach (update_level details) entries this
  = (Returned (), set_store (push details (store this) entries) this,
     EnableStatesFired <$> entries.*2).
Proof.
  induction entries as [|[key l] entries IH]; intros this Hall.
  - simpl. unfold_M. by rewrite set_store_id.
  - apply Forall_cons in Hall as [(logger & Hl & Ha) Hall]. simpl in Hl, Ha.
    cbn [Map_forEach]. unfold mbind, M_bind.
    rewrite (update_level_eq details this key l logger Hl Ha).
    rewrite IH.
    + simpl. by destruct this.
    + eapply Forall_impl; [exact Hall|].
      intros [k' l'] (logger' & Hl' & Ha'). simpl in *.
      destruct (decide (l' = l)) as [->|Hne].
      * eexists. rewrite lookup_alter_eq, Hl'. simpl. split; [done|].
        simpl. done.
      * exists logger'. by rewrite lookup_alter_ne.
Qed.

Lemma push_cons details st key l entries :
  push details st ((key, l) :: entries)
  = push details (alter (set_telemetryEnablements (snapshot details)) l st)
      entries.
Proof. done. Qed.

Lemma push_lookup details entries : ∀ st l,
  push details st entries !! l
  = if decide (l ∈ entries.*2)
    then set_telemetryEnablements (snapshot details) <$> st !! l
    else st !! l.
Proof.
  induction entries as [|[key l0] entries IH]; intros st l; [done|].
  rewrite push_cons, IH, fmap_cons. cbn [snd].
  destruct (decide (l = l0)) as [->|Hne].
  - rewrite lookup_alter_eq.
    rewrite (decide_True (P := l0 ∈ l0 :: entries.*2)); [|by left].
    destruct (decide (l0 ∈ entries.*2)); [|done].
    by destruct (st !! l0).
  - rewrite lookup_alter_ne by done.
    destruct (decide (l ∈ entries.*2)) as [Hin|Hin].
    + rewrite decide_True; [done|by right].
    + rewrite decide_False; [done|].
      intros [?|?]%elem_of_cons; done.
Qed.

Lemma bind_eq {S A B} (m : M S A) (k : A → M S B) (s s1 : S) (a : A)
    (t1 : list effect) :
  m s = (Returned a, s1, t1) →
  (m ≫= k) s = (let '(o, s2, t2) := k a s1 in (o, s2, t1 ++ t2)).
Proof. intros H. unfold mbind, M_bind. by rewrite H. Qed.

(** In a well-formed state every logger that survives the first loop is
    live, allocated, and has its handle. *)
Lemma prune_ready this e :
  wf this →
  e ∈ prune (store this) (_telemetryLoggers this) (_telemetryLoggers this) →
  ∃ logger, store this !! e.2 = Some logger
            ∧ isDisposed logger = false
            ∧ _apiObject logger = Some e.2.
Proof.
  intros (Hk & Ha & Hnd) [Hin Hd]%prune_live; [|done].
  rewrite Forall_forall in Ha. destruct (Ha e Hin) as [logger Hl].
  exists logger. unfold disposed_at in Hd. rewrite Hl in Hd. simpl in Hd.
  split; [done|]. split; [done|].
  apply (Hk _ _ Hl). by apply isDisposed_false.
Qed.

Lemma onDidChangeTelemetryLevel_eq level this :
  wf this →
  onDidChangeTelemetryLevel level this
  = (Returned (), after_level_change level this,
     (EnableStatesFired <$> (_telemetryLoggers (after_level_change level this)).*2)
     ++ (if negb (bool_decide (Some (getTelemetryConfiguration this)
                               = Some (level_eq level USAGE)))
         then [TelemetryEnabledFired (level_eq level USAGE)] else [])
     ++ [TelemetryConfigurationFired
           (getTelemetryDetails (after_level_change level this));
         SetVisibility (_telemetryIsSupported this && logLevelIsTrace this)]).
Proof.
  intros Hwf. pose proof Hwf as (Hk & Ha & Hnd).
  unfold onDidChangeTelemetryLevel.
  erewrite bind_eq by reflexivity.
  erewrite bind_eq by reflexivity.
  erewrite bind_eq by reflexivity.
  erewrite bind_eq by (apply prune_loop; exact Ha).
  erewrite bind_eq by reflexivity.
  erewrite bind_eq.
  2:{ apply push_loop. apply Forall_forall. intros e He.
      destruct (prune_ready this e Hwf He) as (logger & Hl & _ & Hapi).
      by exists logger. }
  unfold_M. unfold after_level_change, getTelemetryConfiguration.
  simpl. by destruct (negb _).
Qed.

(** ** Well-formedness is kept by every call *)

Lemma wf_new init isTrace : wf (new_ExtHostTelemetry init isTrace).
Proof.
  split; [apply map_Forall_empty|]. split; [apply Forall_nil_2|apply NoDup_nil_2].
Qed.

Lemma wf_allocated this key l :
  wf this →
  Map_get key (_telemetryLoggers this) = Some l →
  is_Some (store this !! l).
Proof.
  intros (_ & Ha & _) Hin%Map_get_Some.
  rewrite Forall_forall in Ha. by apply (Ha (key, l)).
Qed.

Lemma wf_same this this' :
  store this' = store this →
  _telemetryLoggers this' = _telemetryLoggers this →
  wf this → wf this'.
Proof. unfold wf. by intros -> ->. Qed.

Lemma wf_invoke {A} (l : loc) (m : M ExtHostTelemetryLogger A) this :
  wf this →
  (∀ logger, handle_kept l logger → handle_kept l (state_of (m logger))) →
  wf (state_of (invoke l m this)).
Proof.
  intros (Hk & Ha & Hnd) Hm. unfold invoke.
  destruct (store this !! l) as [logger|] eqn:Hl; [|done].
  specialize (Hm logger (Hk _ _ Hl)).
  destruct (m logger) as [[o logger'] t]. unfold state_of in *. simpl in *.
  split; [by apply map_Forall_insert_2|]. split; [|done].
  eapply Forall_impl; [exact Ha|]. intros e He. simpl.
  apply lookup_insert_is_Some'. by right.
Qed.

Lemma wf_delete key this :
  wf this →
  wf (set_telemetryLoggers (Map_delete key (_telemetryLoggers this)) this).
Proof.
  intros (Hk & Ha & Hnd). split; [done|]. simpl. split.
  - apply Forall_forall. intros e [He _]%Map_delete_elem.
    rewrite Forall_forall in Ha. by apply Ha.
  - by apply Map_delete_NoDup.
Qed.

Lemma wf_after_level_change level this :
  wf this → wf (after_level_change level this).
Proof.
  intros Hwf. pose proof Hwf as (Hk & Ha & Hnd).
  unfold after_level_change. split; [|split]; simpl.
  - intros l logger. rewrite push_lookup.
    destruct (decide _) as [_|_]; [|by apply Hk].
    destruct (store this !! l) as [logger0|] eqn:Hl; [|done].
    intros [= <-]. by apply (Hk l logger0).
  - apply Forall_forall. intros e He. rewrite push_lookup.
    destruct (prune_ready this e Hwf He) as (logger & Hl & _).
    rewrite Hl. by destruct (decide _).
  - by apply prune_NoDup.
Qed.

Section Reachable.

Variable cleanData : value → value.
Variable mixin : value → value → value.
Variable Date_getTime : string → option Z.
Variable remoteName : option string → value.

Lemma instantiateLogger_eq now extension sender options this :
  instantiateLogger Date_getTime remoteName now extension sender options this
  = (Returned (fresh (dom (store this))),
     set_store
       (<[fresh (dom (store this)) :=
            set_apiObject (Some (fresh (dom (store this))))
              (new_ExtHostTelemetryLogger sender options extension
                 (isExtensionTelemetryLoggingOnly (initData this))
                 (getBuiltInCommonProperties Date_getTime remoteName now this
                    extension)
                 (snapshot (getTelemetryDetails this)))]> (store this))
       (set_telemetryLoggers
          (Map_set (identifier extension) (fresh (dom (store this)))
             (_telemetryLoggers this)) this),
     []).
Proof.
  unfold instantiateLogger, alloc, invoke, apiTelemetryLogger. unfold_M.
  rewrite lookup_insert_eq. simpl. by rewrite insert_insert_eq.
Qed.

Lemma wf_instantiateLogger now extension sender options this :
  wf this →
  wf (state_of (instantiateLogger Date_getTime remoteName now extension
                  sender options this)).
Proof.
  intros (Hk & Ha & Hnd). rewrite instantiateLogger_eq.
  unfold state_of. simpl. split; [|split]; simpl.
  - by apply map_Forall_insert_2.
  - apply Forall_forall. intros e [->|He]%Map_set_elem; simpl.
    + rewrite lookup_insert_eq. eauto.
    + apply lookup_insert_is_Some'. right.
      rewrite Forall_forall in Ha. by apply Ha.
  - by apply Map_set_NoDup.
Qed.

Lemma wf_onExtensionError extension error this :
  wf this →
  wf (state_of (onExtensionError cleanData mixin extension error this)).
Proof.
  intros Hwf. pose proof Hwf as (Hk & Ha & Hnd).
  destruct (Map_get extension (_telemetryLoggers this)) as [l|] eqn:Hg;
    [|by rewrite onExtensionError_absent].
  apply Map_get_Some in Hg as Hin.
  rewrite Forall_forall in Ha. destruct (Ha _ Hin) as [logger Hl].
  simpl in Hl.
  destruct (isDisposed logger) eqn:Hd.
  - rewrite (onExtensionError_disposed _ _ this extension error l logger)
      by done.
    by apply wf_delete.
  - destruct (ignoreUnhandledExtHostErrors logger) eqn:Hi.
    + by rewrite (onExtensionError_ignored _ _ this extension error l logger).
    + by rewrite (onExtensionError_forwarded _ _ this extension error l
                    logger).
Qed.

Lemma wf_perform c this :
  wf this →
  wf (state_of (perform cleanData mixin Date_getTime remoteName c this)).
Proof.
  intros Hwf.
  destruct c as [level supports productConfig | isTrace
                | now extension sender options | level | extension err
                | handle eventName data | handle eventNameOrException data
                | handle]; simpl.
  - by apply (wf_same this).
  - by apply (wf_same this).
  - pose proof (wf_instantiateLogger now extension sender options this Hwf)
      as H.
    unfold discard.
    by destruct (instantiateLogger _ _ _ _ _ _ _) as [[[] ?] ?].
  - rewrite onDidChangeTelemetryLevel_eq by done.
    by apply wf_after_level_change.
  - pose proof (wf_onExtensionError extension err this Hwf) as H.
    unfold discard.
    by destruct (onExtensionError _ _ _ _ _) as [[[] ?] ?].
  - apply wf_invoke; [done|]. intros logger H.
    by destruct (logUsage_pure cleanData mixin logger eventName data)
      as [t ->].
  - apply wf_invoke; [done|]. intros logger H.
    by destruct (logError_pure cleanData mixin logger eventNameOrException
                   data) as [t ->].
  - apply wf_invoke; [done|]. intros logger H Hs.
    by rewrite dispose_sender in Hs; destruct Hs.
Qed.

Lemma wf_run calls : ∀ this,
  wf this → wf (run cleanData mixin Date_getTime remoteName calls this).
Proof.
  induction calls as [|c calls IH]; intros this Hwf; [done|].
  simpl. apply IH. by apply wf_perform.
Qed.


Lemma run_snoc calls c this :
  run cleanData mixin Date_getTime remoteName (calls ++ [c]) this
  = state_of (perform cleanData mixin Date_getTime remoteName c
                (run cleanData mixin Date_getTime remoteName calls this)).
Proof. unfold run. by rewrite foldl_snoc. Qed.

Lemma wf_reachable init isTrace calls :
  wf (run cleanData mixin Date_getTime remoteName calls
        (new_ExtHostTelemetry init isTrace)).
Proof. apply wf_run, wf_new. Qed.

(** ** The level-change handler *)

(** After the handler, a registered logger is the live logger that was
    there before, with the new snapshot in its cache. *)
Lemma after_level_change_lookup level this key l :
  wf this →
  (key, l) ∈ _telemetryLoggers (after_level_change level this) →
  ∃ logger0,
    (key, l) ∈ _telemetryLoggers this
    ∧ store this !! l = Some logger0
    ∧ isDisposed logger0 = false
    ∧ store (after_level_change level this) !! l
      = Some (set_telemetryEnablements
                (snapshot (getTelemetryDetails (after_level_change level this)))
                logger0).
Proof.
  intros Hwf Hin. simpl in Hin.
  destruct (prune_ready this (key, l) Hwf Hin) as (logger0 & Hl & Hd & Hapi).
  simpl in Hl, Hapi. exists logger0. split; [by eapply prune_sub|]. split; [done|].
  split; [done|]. simpl. rewrite push_lookup.
  rewrite decide_True; [by rewrite Hl|].
  by apply (list_elem_of_fmap_2 snd) in Hin.
Qed.

(** A live logger registered before the handler is registered after it. *)
Lemma after_level_change_keeps level this key l logger :
  wf this →
  (key, l) ∈ _telemetryLoggers this →
  store this !! l = Some logger →
  isDisposed logger = false →
  (key, l) ∈ _telemetryLoggers (after_level_change level this).
Proof.
  intros (Hk & Ha & Hnd) Hin Hl Hd. simpl. apply prune_live; [done|].
  split; [done|]. unfold disposed_at. simpl. by rewrite Hl.
Qed.

Lemma perform_logUsage_accepted this l logger sender eventName data :
  store this !! l = Some logger →
  _sender logger = Some sender →
  cached_isUsageEnabled (_telemetryEnablements logger) = true →
  perform cleanData mixin Date_getTime remoteName
    (Call_logUsage l eventName data) this
  = (Returned (), this,
     (if _inLoggingOnlyMode logger then []
      else [SendEventData sender (qualified logger eventName)
              (mixInCommonPropsAndCleanData cleanData mixin logger
                 (default ∅ data))])
     ++ [Trace (qualified logger eventName)
           (mixInCommonPropsAndCleanData cleanData mixin logger
              (default ∅ data))]).
Proof.
  intros Hl Hs Hu. simpl. apply invoke_unchanged with logger; [done|].
  rewrite logUsage_enabled by done. by apply logEvent_live.
Qed.

Lemma perform_logUsage_dropped this l logger eventName data :
  store this !! l = Some logger →
  cached_isUsageEnabled (_telemetryEnablements logger) = false →
  perform cleanData mixin Date_getTime remoteName
    (Call_logUsage l eventName data) this
  = (Returned (), this, []).
Proof.
  intros Hl Hu. simpl. apply invoke_unchanged with logger; [done|].
  by apply logUsage_disabled.
Qed.

(** C4, as the code has it.  In every state the coordinator can reach, one
    call of the handler returns normally and makes these calls, in this
    order: one push notification per logger left in the registry, in
    registry order; [onDidChangeTelemetryEnabled], with the new value,
    exactly when [getTelemetryConfiguration()] (the level being USAGE)
    differs before and after the call; [onDidChangeTelemetryConfiguration]
    once, with the new details; the visibility update.  When it has
    returned, hence when the two notifications fired, every registered
    logger caches the new snapshot. *)
Theorem level_change_notifications (init : InitData) (isTrace : bool)
    (calls : list call) (level : TelemetryLevel) :
  let before :=
    run cleanData mixin Date_getTime remoteName calls
      (new_ExtHostTelemetry init isTrace) in
  let result := onDidChangeTelemetryLevel level before in
  let after := state_of result in
  outcome_of result = Returned ()
  ∧ trace_of result
    = (EnableStatesFired <$> (_telemetryLoggers after).*2)
      ++ (if bool_decide (getTelemetryConfiguration before
                          = getTelemetryConfiguration after)
          then []
          else [TelemetryEnabledFired (getTelemetryConfiguration after)])
      ++ [TelemetryConfigurationFired (getTelemetryDetails after)]
      ++ [SetVisibility (_telemetryIsSupported after && logLevelIsTrace after)]
  ∧ length (filter (λ e, is_coordinator_event e)
              (EnableStatesFired <$> (_telemetryLoggers after).*2)) = 0
  ∧ Forall (λ e, ∃ logger,
              store after !! e.2 = Some logger
              ∧ _telemetryEnablements logger
                = snapshot (getTelemetryDetails after))
      (_telemetryLoggers after).
Proof.
  intros before result after.
  assert (Hwf : wf before) by apply wf_reachable.
  assert (Hr : result = onDidChangeTelemetryLevel level before) by done.
  rewrite onDidChangeTelemetryLevel_eq in Hr by done.
  assert (Hafter : after = after_level_change level before)
    by (unfold after; by rewrite Hr).
  split; [by rewrite Hr|]. split; [|split].
  - rewrite Hr, Hafter. unfold trace_of. simpl. do 2 f_equal.
    unfold getTelemetryConfiguration. simpl.
    destruct (level_eq (_level before) USAGE), (level_eq level USAGE); done.
  - induction (_telemetryLoggers after).*2 as [|l ls IH]; [done|].
    by rewrite fmap_cons, filter_cons.
  - apply Forall_forall. intros [key l] Hin. rewrite Hafter in Hin.
    destruct (after_level_change_lookup level before key l Hwf Hin)
      as (logger0 & _ & _ & _ & Hl).
    rewrite <- Hafter in Hl. eexists. split; [exact Hl|done].
Qed.

End Reachable.

(** C4 fails as stated: with a product configuration that switches usage
    off, raising the level from NONE to USAGE leaves the derived
    [isUsageEnabled] false before and after, and yet
    [onDidChangeTelemetryEnabled] fires, with [true]. *)
Lemma enabled_fired_without_usage_change :
  let before :=
    state_of (initializeTelemetryLevel NONE true
                (Some {| usage := false; error := true |})
                (new_ExtHostTelemetry example_initData false)) in
  let result := onDidChangeTelemetryLevel USAGE before in
  isUsageEnabled (getTelemetryDetails before) = false
  ∧ isUsageEnabled (getTelemetryDetails (state_of result)) = false
  ∧ trace_of result
    = [TelemetryEnabledFired true;
       TelemetryConfigurationFired
         {| isCrashEnabled := true;
            isErrorsEnabled := true;
            isUsageEnabled := false |};
       SetVisibility false]
  ∧ ¬ (TelemetryEnabledFired true ∈ trace_of result
       ↔ isUsageEnabled (getTelemetryDetails before)
         ≠ isUsageEnabled (getTelemetryDetails (state_of result))).
Proof.
  simpl. split; [done|]. split; [done|]. split; [done|].
  intros [H _]. apply H; [|done]. vm_compute. by left.
Qed.

(** C3 fails as stated for a live logger that is no longer registered: when
    an extension creates a second logger, the registry entry of the first
    is overwritten, and the handler pushes to the second only.  After the
    level dropped from USAGE to NONE the first logger is live, still caches
    usage as enabled although the coordinator derives it as disabled, and
    its [logUsage] calls still reach the sender. *)
Lemma unregistered_logger_more_permissive :
  let this := example_host_two_loggers in
  _telemetryLoggers this = [("acme.tools", 1%nat)]
  ∧ isUsageEnabled (getTelemetryDetails this) = false
  ∧ isDisposed <$> store this !! 0%nat = Some false
  ∧ (λ logger, cached_isUsageEnabled (_telemetryEnablements logger))
      <$> store this !! 0%nat = Some true
  ∧ is_transmit
      <$> trace_of
            (perform (cleanData_spec example_cleanValue) mixin_spec
               example_Date_getTime example_remoteName
               (Call_logUsage 0%nat "opened" None) this)
    = [true; false].
Proof. vm_compute. by repeat split. Qed.

(** * Further properties of the code *)

(** ** The check of a sender *)

Lemma validateSender_object (e r f : jstype) :
  validateSender (Cand_object e r f)
  = if negb (bool_decide (e = T_function)) then
      Invalid "TelemetrySender.sendEventData must be a function"
    else if negb (bool_decide (r = T_function)) then
      Invalid "TelemetrySender.sendErrorData must be a function"
    else if bool_decide (f = T_undefined) || bool_decide (f = T_function)
      then Valid
    else Invalid "TelemetrySender.flush must be a function or undefined".
Proof.
  unfold validateSender. simpl.
  by destruct (bool_decide (e = T_function)), (bool_decide (r = T_function)),
    (bool_decide (f = T_undefined)), (bool_decide (f = T_function)).
Qed.

(** X1.  [validateSender] returns exactly for an object whose
    [sendEventData] and [sendErrorData] are functions and whose [flush] is
    a function or undefined; it throws "argument is invalid" exactly for
    what is not of type ['object'] (so also for a function); for [null],
    whose type is ['object'], a member read raises instead; and among the
    members the first one at fault, in the order [sendEventData],
    [sendErrorData], [flush], decides the message. *)
Theorem validateSender_outcomes (sender : candidate) :
  (validateSender sender = Valid
   ↔ ∃ flush : jstype,
       sender = Cand_object T_function T_function flush
       ∧ (flush = T_undefined ∨ flush = T_function))
  ∧ (validateSender sender = Invalid "TelemetrySender argument is invalid"
     ↔ typeof sender ≠ T_object)
  ∧ (validateSender sender = MemberReadRaised ↔ sender = Cand_null)
  ∧ (∀ e r f : jstype,
       sender = Cand_object e r f →
       validateSender sender
       = if negb (bool_decide (e = T_function)) then
           Invalid "TelemetrySender.sendEventData must be a function"
         else if negb (bool_decide (r = T_function)) then
           Invalid "TelemetrySender.sendErrorData must be a function"
         else if bool_decide (f = T_undefined) || bool_decide (f = T_function)
           then Valid
         else Invalid "TelemetrySender.flush must be a function or undefined").
Proof.
  split; [|split; [|split]].
  - split.
    + destruct sender as [| |[]| |e r f]; try done.
      rewrite validateSender_object.
      repeat case_bool_decide; simpl; try done; intros _; subst; eauto.
    + intros (f & -> & [->| ->]); done.
  - destruct sender as [| |[]| |e r f]; try (split; done).
    rewrite validateSender_object.
    repeat case_bool_decide; simpl; split; done.
  - destruct sender as [| |[]| |e r f]; try (split; done).
    rewrite validateSender_object.
    repeat case_bool_decide; simpl; split; done.
  - intros e r f ->. apply validateSender_object.
Qed.

(** ** The age of the installation *)

(** X2.  [isNewAppInstall] is false for a first-session date that does not
    parse; for one that does, it is true exactly when less than 24 hours
    (86400000 ms) lie between that date and now, so also for a date in the
    future; and an installation that is not new never becomes new again as
    time goes on. *)
Theorem isNewAppInstall_day (now later : Z) (firstSession : option Z) :
  (now ≤ later)%Z →
  isNewAppInstall now None = false
  ∧ (∀ t : Z, isNewAppInstall now (Some t) = true ↔ (now < t + 86400000)%Z)
  ∧ (isNewAppInstall now firstSession = false →
     isNewAppInstall later firstSession = false).
Proof.
  intros Hle. split; [done|]. split.
  - intros t. unfold isNewAppInstall. rewrite Z.ltb_lt. lia.
  - destruct firstSession as [t|]; [|done]. unfold isNewAppInstall.
    rewrite !Z.ltb_ge. lia.
Qed.

(** 23 hours after the first session the installation is new, 25 hours
    after it is not. *)
Lemma isNewAppInstall_day_witness :
  isNewAppInstall (1000 + 23 * 3600000) None = false
  ∧ (∀ t : Z,
       isNewAppInstall (1000 + 23 * 3600000) (Some t) = true
       ↔ (1000 + 23 * 3600000 < t + 86400000)%Z)
  ∧ (isNewAppInstall (1000 + 23 * 3600000) (Some 0%Z) = false →
     isNewAppInstall (1000 + 25 * 3600000) (Some 0%Z) = false).
Proof.
  apply (isNewAppInstall_day (1000 + 23 * 3600000) (1000 + 25 * 3600000)
           (Some 0%Z)).
  lia.
Defined.

(** ** The derived configuration, level by level *)

(** X4.  Raising the level never switches a category off: each of the
    three flags of [getTelemetryDetails] that is on at a level is on at
    every higher level, for the same product configuration.  And whatever
    the product configuration, errors or usage being enabled implies crash
    reporting being enabled. *)
Theorem getTelemetryDetails_monotone (this : ExtHostTelemetry)
    (lower higher : TelemetryLevel) :
  level_ge higher lower = true →
  let low := getTelemetryDetails (set_level lower this) in
  let high := getTelemetryDetails (set_level higher this) in
  implb (isCrashEnabled low) (isCrashEnabled high) = true
  ∧ implb (isErrorsEnabled low) (isErrorsEnabled high) = true
  ∧ implb (isUsageEnabled low) (isUsageEnabled high) = true
  ∧ implb (isErrorsEnabled low) (isCrashEnabled low) = true
  ∧ implb (isUsageEnabled low) (isCrashEnabled low) = true.
Proof.
  intros H. unfold getTelemetryDetails. simpl.
  destruct (error (_productConfig this)), (usage (_productConfig this)),
    lower, higher; done.
Qed.

Lemma getTelemetryDetails_monotone_witness :
  let this := new_ExtHostTelemetry example_initData false in
  let low := getTelemetryDetails (set_level ERROR this) in
  let high := getTelemetryDetails (set_level USAGE this) in
  implb (isCrashEnabled low) (isCrashEnabled high) = true
  ∧ implb (isErrorsEnabled low) (isErrorsEnabled high) = true
  ∧ implb (isUsageEnabled low) (isUsageEnabled high) = true
  ∧ implb (isErrorsEnabled low) (isCrashEnabled low) = true
  ∧ implb (isUsageEnabled low) (isCrashEnabled low) = true.
Proof.
  apply (getTelemetryDetails_monotone
           (new_ExtHostTelemetry example_initData false) ERROR USAGE).
  reflexivity.
Defined.

(** ** The builtin common properties *)

(** X3.  Whatever the extension, the initialisation data and the clock,
    [getBuiltInCommonProperties] yields a mapping with exactly the nine
    keys below, all under [common.]; [common.extname] is the publisher and
    the name joined by a dot, and [common.uikind] is one of ["web"],
    ["desktop"] and ["unknown"]. *)
Theorem getBuiltInCommonProperties_keys (Date_getTime : string → option Z)
    (remoteName : option string → value) (now : Z) (this : ExtHostTelemetry)
    (extension : IExtensionDescription) :
  let properties :=
    getBuiltInCommonProperties Date_getTime remoteName now this extension in
  dom properties
  = list_to_set
      ["common.remotename"; "common.uikind"; "common.product";
       "common.isnewappinstall"; "common.vscodeversion";
       "common.vscodesessionid"; "common.vscodemachineid";
       "common.extversion"; "common.extname"]
  ∧ properties !! "common.extname"
    = Some (VStr (publisher extension +:+ "." +:+ name extension))
  ∧ properties !! "common.uikind"
    = Some (VStr match uiKind (initData this) with
                 | Web => "web"
                 | Desktop => "desktop"
                 | OtherUIKind => "unknown"
                 end)
  ∧ properties !! "common.remotename"
    = Some (remoteName (remoteAuthority (initData this))).
Proof.
  intros properties. unfold properties, getBuiltInCommonProperties.
  split; [|split; [|split]].
  - destruct (uiKind (initData this)); rewrite !dom_insert_L, dom_empty_L;
      reflexivity.
  - destruct (uiKind (initData this));
      rewrite !(lookup_insert_ne _ _ "common.extname") by done;
      apply lookup_insert_eq.
  - destruct (uiKind (initData this));
      rewrite (lookup_insert_ne _ _ "common.uikind") by done;
      apply lookup_insert_eq.
  - apply lookup_insert_eq.
Qed.

(** ** Logging, call by call *)

(** X7.  When both cached flags are on, reporting an error by event name
    is the same as logging a usage event of that name: same outcome, same
    calls, same payload. *)
Theorem logError_by_name_as_logUsage (cleanData : value → value)
    (mixin : value → value → value) (this : ExtHostTelemetryLogger)
    (eventName : string) (data : option (gmap string value)) :
  cached_isUsageEnabled (_telemetryEnablements this) = true →
  cached_isErrorsEnabled (_telemetryEnablements this) = true →
  logError cleanData mixin (inl eventName) data this
  = logUsage cleanData mixin eventName data this.
Proof.
  intros Hu He. rewrite logUsage_enabled by done.
  destruct (_sender this) as [sender|] eqn:Hs.
  - by rewrite (logError_string _ _ this sender).
  - rewrite logError_dropped by auto. by rewrite logEvent_disposed.
Qed.

Lemma logError_by_name_as_logUsage_witness :
  logError (cleanData_spec example_cleanValue) mixin_spec (inl "failed")
    (Some example_envelope) example_foo_logger
  = logUsage (cleanData_spec example_cleanValue) mixin_spec "failed"
      (Some example_envelope) example_foo_logger.
Proof.
  apply (logError_by_name_as_logUsage (cleanData_spec example_cleanValue)
           mixin_spec example_foo_logger "failed" (Some example_envelope));
    reflexivity.
Defined.

(** ** Pushes and the handle *)

(** X8.  A push changes a logger only through its handle.  A logger whose
    handle was never read (fresh from the constructor) ignores a push: the
    cache keeps the snapshot it was built with and no notification fires.
    After a [dispose] that flushed (which drops the handle) pushes are
    ignored as well; after a [dispose] of a logger whose sender has no
    [flush] the handle stays, and a push still replaces the cache and
    fires the notification on the disposed logger. *)
Theorem updateTelemetryEnablements_through_handle
    (this : ExtHostTelemetryLogger) (isUsageEnabled isErrorsEnabled : bool) :
  (∀ (sender : TelemetrySender) (options : option TelemetryLoggerOptions)
     (extension : IExtensionDescription) (inLoggingOnlyMode : bool)
     (commonProperties : gmap string value)
     (telemetryEnablements : TelemetryEnablements),
     let fresh_logger :=
       new_ExtHostTelemetryLogger sender options extension inLoggingOnlyMode
         commonProperties telemetryEnablements in
     updateTelemetryEnablements isUsageEnabled isErrorsEnabled fresh_logger
     = (Returned (), fresh_logger, []))
  ∧ (∀ sender : TelemetrySender,
       _sender this = Some sender →
       flush sender = true →
       updateTelemetryEnablements isUsageEnabled isErrorsEnabled
         (state_of (dispose this))
       = (Returned (), state_of (dispose this), []))
  ∧ (∀ (sender : TelemetrySender) (api : loc),
       _sender this = Some sender →
       flush sender = false →
       _apiObject this = Some api →
       updateTelemetryEnablements isUsageEnabled isErrorsEnabled
         (state_of (dispose this))
       = (Returned (),
          set_telemetryEnablements
            {| cached_isUsageEnabled := isUsageEnabled;
               cached_isErrorsEnabled := isErrorsEnabled |}
            (state_of (dispose this)),
          [EnableStatesFired api])).
Proof.
  split; [done|]. split.
  - intros sender Hs Hf. unfold dispose, updateTelemetryEnablements.
    unfold_M. by rewrite Hs, Hf.
  - intros sender api Hs Hf Ha. destruct this. simpl in *. subst.
    unfold dispose, updateTelemetryEnablements. unfold_M. by rewrite Hf.
Qed.

(** A live logger with a flushing sender: after [dispose] a push that
    would enable everything changes nothing. *)
Lemma updateTelemetryEnablements_through_handle_witness :
  updateTelemetryEnablements true true (state_of (dispose example_foo_logger))
  = (Returned (), state_of (dispose example_foo_logger), []).
Proof.
  apply (proj1 (proj2 (updateTelemetryEnablements_through_handle
                         example_foo_logger true true))
           example_sender);
    reflexivity.
Defined.

(** X9.  The handle of a logger is made once: reading it a second time
    returns the same handle, changes nothing and makes no call; and reading
    it never touches the sender or the cached snapshot. *)
Theorem apiTelemetryLogger_cached (this : ExtHostTelemetryLogger)
    (that that' : loc) :
  let first := apiTelemetryLogger that this in
  ∃ handle : loc,
    first = (Returned handle, set_apiObject (Some handle) this, [])
    ∧ apiTelemetryLogger that' (state_of first)
      = (Returned handle, state_of first, [])
    ∧ _sender (state_of first) = _sender this
    ∧ _telemetryEnablements (state_of first) = _telemetryEnablements this.
Proof.
  destruct this as [? ? ? ? [api|] ? ? ? ?];
    unfold apiTelemetryLogger; unfold_M; eexists; done.
Qed.

(** ** Envelopes and flat payloads *)

(** X10.  The pipeline treats the [properties] member of an envelope as it
    treats a flat payload: enriching the envelope gives the envelope with
    its [properties] replaced by the enriched flat payload.  A [properties]
    member that is [null] or [undefined] counts as the empty mapping. *)
Theorem envelope_as_flat_payload (cleanData : value → value)
    (mixin : value → value → value) (this : ExtHostTelemetryLogger)
    (data properties : gmap string value) :
  properties !! "properties" = None →
  (data !! "properties" = Some (VObj properties)
   ∨ (properties = ∅
      ∧ (data !! "properties" = Some VNull
         ∨ data !! "properties" = Some VUndefined))) →
  mixInCommonPropsAndCleanData cleanData mixin this data
  = VObj (<["properties" :=
              mixInCommonPropsAndCleanData cleanData mixin this properties]>
            data).
Proof.
  intros Hflat Henv. unfold mixInCommonPropsAndCleanData. rewrite Hflat.
  destruct Henv as [->|[-> [->| ->]]]; done.
Qed.

Lemma envelope_as_flat_payload_witness :
  mixInCommonPropsAndCleanData (cleanData_spec example_cleanValue) mixin_spec
    example_foo_logger example_envelope
  = VObj (<["properties" :=
              mixInCommonPropsAndCleanData (cleanData_spec example_cleanValue)
                mixin_spec example_foo_logger example_properties]>
            example_envelope).
Proof.
  apply (envelope_as_flat_payload (cleanData_spec example_cleanValue)
           mixin_spec example_foo_logger example_envelope example_properties).
  - reflexivity.
  - left. reflexivity.
Defined.

(** ** More on the registry *)

Lemma Map_get_set_eq key v m : Map_get key (Map_set key v m) = Some v.
Proof.
  induction m as [|[k v'] m IH]; simpl.
  - by rewrite decide_True.
  - destruct (decide (k = key)) as [->|Hk]; simpl.
    + by rewrite decide_True.
    + by rewrite decide_False.
Qed.

Lemma Map_get_set_ne key key' v m :
  key ≠ key' → Map_get key' (Map_set key v m) = Map_get key' m.
Proof.
  intros Hne. induction m as [|[k v'] m IH]; simpl.
  - by rewrite decide_False.
  - destruct (decide (k = key)) as [->|Hk]; simpl.
    + by rewrite !decide_False.
    + by rewrite IH.
Qed.

Lemma Map_set_length key v m :
  is_Some (Map_get key m) → length (Map_set key v m) = length m.
Proof.
  induction m as [|[k v'] m IH]; simpl; [by intros [? ?]|].
  destruct (decide (k = key)); simpl; [done|]. intros H. by rewrite IH.
Qed.

Lemma Map_get_None key m : (∀ v, (key, v) ∉ m) → Map_get key m = None.
Proof.
  intros H. destruct (Map_get key m) as [v|] eqn:Hg; [|done].
  apply Map_get_Some in Hg. by destruct (H v).
Qed.

Lemma prune_none st entries : ∀ m,
  Forall (λ e, disposed_at st e.2 = false) entries → prune st entries m = m.
Proof.
  induction entries as [|e entries IH]; intros m Hall; [done|].
  apply Forall_cons in Hall as [He Hall]. simpl. rewrite He. by apply IH.
Qed.

Lemma invoke_trace {A} (l : loc) (m : M ExtHostTelemetryLogger A) this :
  trace_of (invoke l m this)
  = from_option (λ logger, trace_of (m logger)) [] (store this !! l).
Proof.
  unfold invoke. destruct (store this !! l) as [logger|]; [|done].
  simpl. by destruct (m logger) as [[? ?] ?].
Qed.

Section MoreCoordinator.

Variable cleanData : value → value.
Variable mixin : value → value → value.
Variable Date_getTime : string → option Z.
Variable remoteName : option string → value.

(** ** Creating loggers *)

(** X11.  [instantiateLogger] makes no external call and never fails.  It
    puts a new logger at a location not in use, so every logger that was
    there stays as it was; it registers the logger under the extension's
    identifier and leaves the entries of other identifiers alone; and the
    new logger is live, has its handle, and caches the enablement derived
    from the level and product configuration at that moment. *)
Theorem instantiateLogger_registers (this : ExtHostTelemetry) (now : Z)
    (extension : IExtensionDescription) (sender : TelemetrySender)
    (options : option TelemetryLoggerOptions) :
  let creation :=
    instantiateLogger Date_getTime remoteName now extension sender options
      this in
  let created := state_of creation in
  ∃ (handle : loc) (logger : ExtHostTelemetryLogger),
    creation = (Returned handle, created, [])
    ∧ store this !! handle = None
    ∧ store created !! handle = Some logger
    ∧ (∀ l : loc, l ≠ handle → store created !! l = store this !! l)
    ∧ Map_get (identifier extension) (_telemetryLoggers created) = Some handle
    ∧ (∀ other : string,
         identifier extension ≠ other →
         Map_get other (_telemetryLoggers created)
         = Map_get other (_telemetryLoggers this))
    ∧ _sender logger = Some sender
    ∧ _apiObject logger = Some handle
    ∧ _telemetryEnablements logger = snapshot (getTelemetryDetails this)
    ∧ _inLoggingOnlyMode logger
      = isExtensionTelemetryLoggingOnly (initData this)
    ∧ _extension logger = extension
    ∧ getTelemetryDetails created = getTelemetryDetails this.
Proof.
  intros creation created.
  assert (Hc : creation
               = instantiateLogger Date_getTime remoteName now extension
                   sender options this) by done.
  rewrite instantiateLogger_eq in Hc.
  exists (fresh (dom (store this))). eexists.
  assert (Hfresh : store this !! fresh (dom (store this)) = None).
  { apply not_elem_of_dom. apply is_fresh. }
  unfold created. rewrite Hc. unfold state_of. simpl.
  split; [done|]. split; [done|].
  split; [apply lookup_insert_eq|].
  split; [intros l Hl; by apply lookup_insert_ne|].
  split; [apply Map_get_set_eq|].
  split; [intros other Hne; by apply Map_get_set_ne|]. done.
Qed.

(** X12.  A logger takes up the current enablement when it is created: a
    [logUsage] call through the handle just returned reaches the sender
    (unless in logging-only mode) and the trace sink if usage is enabled at
    that moment, and is dropped otherwise; likewise [logError] with the
    errors flag. *)
Theorem created_logger_follows_details (this : ExtHostTelemetry) (now : Z)
    (extension : IExtensionDescription) (sender : TelemetrySender)
    (options : option TelemetryLoggerOptions) (eventName : string)
    (exception : Error) (data : option (gmap string value)) :
  let creation :=
    instantiateLogger Date_getTime remoteName now extension sender options
      this in
  let created := state_of creation in
  ∃ (handle : loc) (logger : ExtHostTelemetryLogger),
    outcome_of creation = Returned handle
    ∧ store created !! handle = Some logger
    ∧ perform cleanData mixin Date_getTime remoteName
        (Call_logUsage handle eventName data) created
      = (Returned (), created,
         if isUsageEnabled (getTelemetryDetails this) then
           (if isExtensionTelemetryLoggingOnly (initData this) then []
            else [SendEventData sender (qualified logger eventName)
                    (mixInCommonPropsAndCleanData cleanData mixin logger
                       (default ∅ data))])
           ++ [Trace (qualified logger eventName)
                 (mixInCommonPropsAndCleanData cleanData mixin logger
                    (default ∅ data))]
         else [])
    ∧ perform cleanData mixin Date_getTime remoteName
        (Call_logError handle (inr exception) data) created
      = (Returned (), created,
         if isErrorsEnabled (getTelemetryDetails this)
         then [SendErrorData sender exception data] else []).
Proof.
  intros creation created.
  assert (Hc : creation
               = instantiateLogger Date_getTime remoteName now extension
                   sender options this) by done.
  rewrite instantiateLogger_eq in Hc.
  exists (fresh (dom (store this))). eexists.
  split; [by rewrite Hc|].
  assert (Hl : store created !! fresh (dom (store this)) = Some
    (set_apiObject (Some (fresh (dom (store this))))
       (new_ExtHostTelemetryLogger sender options extension
          (isExtensionTelemetryLoggingOnly (initData this))
          (getBuiltInCommonProperties Date_getTime remoteName now this
             extension)
          (snapshot (getTelemetryDetails this))))).
  { unfold created. rewrite Hc. unfold state_of. simpl.
    apply lookup_insert_eq. }
  split; [exact Hl|]. split.
  - destruct (isUsageEnabled (getTelemetryDetails this)) eqn:Hu.
    + erewrite perform_logUsage_accepted; [|exact Hl|done|done]. done.
    + by erewrite perform_logUsage_dropped; [|exact Hl|].
  - destruct (isErrorsEnabled (getTelemetryDetails this)) eqn:He;
      cbn [perform]; (eapply invoke_unchanged; [exact Hl|]).
    + apply logError_exception; simpl; [exact He|reflexivity].
    + apply logError_dropped. left. exact He.
Qed.

(** X13.  Registering again under an identifier replaces the entry and
    nothing else: the registry keeps its length, the logger registered
    before is still in the store exactly as it was (not disposed, its
    sender not flushed), and the identifier now leads to the new logger. *)
Theorem instantiateLogger_again (this : ExtHostTelemetry) (now : Z)
    (extension : IExtensionDescription) (sender : TelemetrySender)
    (options : option TelemetryLoggerOptions) (old : loc)
    (logger : ExtHostTelemetryLogger) :
  Map_get (identifier extension) (_telemetryLoggers this) = Some old →
  store this !! old = Some logger →
  let creation :=
    instantiateLogger Date_getTime remoteName now extension sender options
      this in
  let created := state_of creation in
  ∃ handle : loc,
    outcome_of creation = Returned handle
    ∧ handle ≠ old
    ∧ trace_of creation = []
    ∧ Map_get (identifier extension) (_telemetryLoggers created) = Some handle
    ∧ length (_telemetryLoggers created) = length (_telemetryLoggers this)
    ∧ store created !! old = Some logger.
Proof.
  intros Hg Hl creation created.
  assert (Hc : creation
               = instantiateLogger Date_getTime remoteName now extension
                   sender options this) by done.
  rewrite instantiateLogger_eq in Hc.
  exists (fresh (dom (store this))).
  assert (Hne : fresh (dom (store this)) ≠ old).
  { intros Heq. assert (Hf : store this !! fresh (dom (store this)) = None).
    { apply not_elem_of_dom. apply is_fresh. }
    rewrite Heq in Hf. congruence. }
  unfold created. rewrite Hc. unfold outcome_of, trace_of, state_of. simpl.
  split; [done|]. split; [done|]. split; [done|].
  split; [apply Map_get_set_eq|].
  split; [apply Map_set_length; by rewrite Hg|].
  by rewrite lookup_insert_ne.
Qed.

End MoreCoordinator.


Lemma level_change_trace_pushes level this l :
  wf this →
  EnableStatesFired l ∈ trace_of (onDidChangeTelemetryLevel level this) →
  l ∈ (_telemetryLoggers (after_level_change level this)).*2.
Proof.
  intros Hwf. rewrite onDidChangeTelemetryLevel_eq by done.
  unfold trace_of. simpl.
  intros [Hin|Hin]%elem_of_app.
  - by apply list_elem_of_fmap in Hin as (l' & [= ->] & Hl).
  - destruct (negb _); simpl in Hin;
      repeat (apply elem_of_cons in Hin as [Hin|Hin]; [done|]);
      by apply elem_of_nil in Hin.
Qed.

Section LevelChanges.

Variable cleanData : value → value.
Variable mixin : value → value → value.
Variable Date_getTime : string → option Z.
Variable remoteName : option string → value.

(** ** Initialisation *)

(** X14.  [$initializeTelemetryLevel] sets the level, the support flag and
    the product configuration (usage and errors both on when none is
    given) and refreshes the visibility of the log; it reaches no logger:
    the store and the registry are as before, so whatever a [logUsage] or
    [logError] call through any handle did before, it does after. *)
Theorem initializeTelemetryLevel_reaches_no_logger (this : ExtHostTelemetry)
    (level : TelemetryLevel) (supportsTelemetry : bool)
    (productConfig : option ProductConfig) :
  let result :=
    initializeTelemetryLevel level supportsTelemetry productConfig this in
  let after := state_of result in
  result
  = (Returned (), after,
     [SetVisibility (supportsTelemetry && logLevelIsTrace this)])
  ∧ _level after = level
  ∧ _telemetryIsSupported after = supportsTelemetry
  ∧ _productConfig after
    = default {| usage := true; error := true |} productConfig
  ∧ store after = store this
  ∧ _telemetryLoggers after = _telemetryLoggers this
  ∧ (∀ (handle : loc) (eventName : string)
       (eventNameOrException : string + Error)
       (data : option (gmap string value)),
       trace_of (perform cleanData mixin Date_getTime remoteName
                   (Call_logUsage handle eventName data) after)
       = trace_of (perform cleanData mixin Date_getTime remoteName
                     (Call_logUsage handle eventName data) this)
       ∧ trace_of (perform cleanData mixin Date_getTime remoteName
                     (Call_logError handle eventNameOrException data) after)
         = trace_of (perform cleanData mixin Date_getTime remoteName
                       (Call_logError handle eventNameOrException data)
                       this)).
Proof.
  intros result after.
  split; [done|]. split; [done|]. split; [done|]. split; [done|].
  split; [done|]. split; [done|].
  intros handle eventName eventNameOrException data. simpl.
  by rewrite !invoke_trace.
Qed.

(** ** Level changes and the loggers they reach *)


(** X16.  Pruning is lazy.  In every state the coordinator can reach,
    disposing a registered logger through its handle leaves its entry in
    the registry; the next level change removes the entry and sends that
    logger no notification. *)
Theorem disposed_logger_pruned_by_level_change (init : InitData)
    (isTrace : bool) (calls : list call) (level : TelemetryLevel)
    (key : string) (l : loc) :
  let before :=
    run cleanData mixin Date_getTime remoteName calls
      (new_ExtHostTelemetry init isTrace) in
  let disposed :=
    state_of (perform cleanData mixin Date_getTime remoteName
                (Call_dispose l) before) in
  let result := onDidChangeTelemetryLevel level disposed in
  Map_get key (_telemetryLoggers before) = Some l →
  Map_get key (_telemetryLoggers disposed) = Some l
  ∧ Map_get key (_telemetryLoggers (state_of result)) = None
  ∧ EnableStatesFired l ∉ trace_of result.
Proof.
  intros before disposed result Hg.
  assert (Hwf : wf before) by apply wf_reachable.
  assert (Hwfd : wf disposed) by by apply wf_perform.
  destruct (wf_allocated before key l Hwf Hg) as [logger Hl].
  assert (Hreg : _telemetryLoggers disposed = _telemetryLoggers before).
  { unfold disposed. simpl. unfold invoke. rewrite Hl.
    by destruct (dispose logger) as [[? ?] ?]. }
  assert (Hd : disposed_at (store disposed) l = true).
  { unfold disposed, disposed_at. simpl. unfold invoke. rewrite Hl.
    pose proof (dispose_sender logger) as Hs.
    destruct (dispose logger) as [[o logger'] t]. unfold state_of in *.
    simpl in *. rewrite lookup_insert_eq. simpl. by apply isDisposed_true. }
  pose proof Hwfd as (_ & _ & Hnd).
  assert (Hgone : ∀ k, (k, l) ∉ _telemetryLoggers
                                  (after_level_change level disposed)).
  { intros k Hin. simpl in Hin. apply prune_live in Hin as [_ Hlive];
      [|done]. simpl in Hlive. congruence. }
  split; [by rewrite Hreg|]. split.
  - unfold result. rewrite onDidChangeTelemetryLevel_eq by done.
    unfold state_of. cbn [fst snd]. apply Map_get_None. intros v Hin.
    assert (v = l); [|subst; by apply (Hgone key)].
    simpl in Hin. apply prune_sub in Hin.
    apply (Map_get_elem _ _ _ Hnd) in Hin. rewrite Hreg in Hin. congruence.
  - intros Hin. apply level_change_trace_pushes in Hin; [|done].
    apply list_elem_of_fmap in Hin as ([k l'] & Heq & Hin). simpl in Heq.
    subst l'. by apply (Hgone k).
Qed.

End LevelChanges.

Lemma set_telemetryEnablements_own logger :
  set_telemetryEnablements (_telemetryEnablements logger) logger = logger.
Proof. by destruct logger. Qed.

Lemma logUsage_effects cleanData mixin this eventName data :
  Forall is_logging_effect
    (trace_of (logUsage cleanData mixin eventName data this)).
Proof.
  destruct (cached_isUsageEnabled (_telemetryEnablements this)) eqn:Hu;
    [|by rewrite logUsage_disabled].
  rewrite logUsage_enabled by done.
  destruct (_sender this) as [sender|] eqn:Hs;
    [|by rewrite logEvent_disposed].
  erewrite logEvent_live by done. simpl.
  destruct (_inLoggingOnlyMode this); by repeat constructor.
Qed.

Lemma logError_effects cleanData mixin this eventNameOrException data :
  Forall is_logging_effect
    (trace_of (logError cleanData mixin eventNameOrException data this)).
Proof.
  destruct (cached_isErrorsEnabled (_telemetryEnablements this)) eqn:He;
    [|by rewrite logError_dropped by auto].
  destruct (_sender this) as [sender|] eqn:Hs;
    [|by rewrite logError_dropped by auto].
  destruct eventNameOrException as [eventName|exception].
  - erewrite logError_string, logEvent_live by done. simpl.
    destruct (_inLoggingOnlyMode this); by repeat constructor.
  - erewrite logError_exception by done. by repeat constructor.
Qed.

Section Frames.

Variable cleanData : value → value.
Variable mixin : value → value → value.
Variable Date_getTime : string → option Z.
Variable remoteName : option string → value.

(** X20.  The visibility of the telemetry log follows the state.  In every
    state the coordinator can reach and for every call from outside, each
    visibility the call hands to the logger service is "telemetry is
    supported and the log level is trace" for the state the call leaves,
    and a call that changes that value hands it over. *)
Theorem visibility_follows_state (init : InitData) (isTrace : bool)
    (calls : list call) (c : call) :
  let before :=
    run cleanData mixin Date_getTime remoteName calls
      (new_ExtHostTelemetry init isTrace) in
  let result := perform cleanData mixin Date_getTime remoteName c before in
  let after := state_of result in
  (∀ visible : bool,
     SetVisibility visible ∈ trace_of result →
     visible = _telemetryIsSupported after && logLevelIsTrace after)
  ∧ (_telemetryIsSupported after && logLevelIsTrace after
     ≠ _telemetryIsSupported before && logLevelIsTrace before →
     SetVisibility (_telemetryIsSupported after && logLevelIsTrace after)
     ∈ trace_of result).
Proof.
  intros before result after.
  assert (Hwf : wf before) by apply wf_reachable.
  assert (Hlog : ∀ (l : loc) (m : M ExtHostTelemetryLogger ()),
            (∀ logger, Forall is_logging_effect (trace_of (m logger))
                       ∨ Forall (λ e, is_flush e = true)
                           (trace_of (m logger))) →
            (∀ visible, SetVisibility visible ∉ trace_of (invoke l m before))
            ∧ _telemetryIsSupported (state_of (invoke l m before))
              = _telemetryIsSupported before
            ∧ logLevelIsTrace (state_of (invoke l m before))
              = logLevelIsTrace before).
  { intros l m Hm. split.
    - intros visible. rewrite invoke_trace.
      destruct (store before !! l) as [logger|]; simpl;
        [|by intros ?%elem_of_nil].
      intros Hin. destruct (Hm logger) as [H|H];
        rewrite Forall_forall in H; by apply H in Hin.
    - unfold invoke. destruct (store before !! l) as [logger|]; [|done].
      by destruct (m logger) as [[? ?] ?]. }
  unfold after, result.
  destruct c as [level supports productConfig | isTrace'
                | now extension sender options | level | extension err
                | handle eventName data | handle eventNameOrException data
                | handle].
  - unfold state_of, trace_of. simpl. split.
    + intros visible [Hin|Hin%elem_of_nil]%elem_of_cons; [|done].
      by injection Hin as ->.
    + intros _. by left.
  - unfold state_of, trace_of. simpl. split.
    + intros visible [Hin|Hin%elem_of_nil]%elem_of_cons; [|done].
      by injection Hin as ->.
    + intros _. by left.
  - cbn [perform]. unfold discard. rewrite instantiateLogger_eq.
    split; [by intros visible Hin%elem_of_nil|done].
  - cbn [perform]. rewrite onDidChangeTelemetryLevel_eq by done.
    unfold state_of, trace_of. cbn [fst snd]. split; [|done].
    intros visible [Hin|Hin]%elem_of_app.
    + by apply list_elem_of_fmap in Hin as (? & ? & _).
    + destruct (negb _); simpl in Hin;
        repeat (apply elem_of_cons in Hin as [Hin|Hin];
                [by simplify_eq|]);
        by apply elem_of_nil in Hin.
  - cbn [perform]. unfold discard.
    destruct (Map_get extension (_telemetryLoggers before)) as [l|] eqn:Hg.
    + destruct (wf_allocated before extension l Hwf Hg) as [logger Hl].
      destruct (isDisposed logger) eqn:Hd;
        [|destruct (ignoreUnhandledExtHostErrors logger) eqn:Hi].
      * rewrite (onExtensionError_disposed _ _ before extension err l
                   logger) by done.
        split; [by intros visible Hin%elem_of_nil|done].
      * rewrite (onExtensionError_ignored _ _ before extension err l logger)
          by done.
        split; [by intros visible Hin%elem_of_nil|done].
      * rewrite (onExtensionError_forwarded _ _ before extension err l
                   logger) by done.
        split; [|done]. intros visible Hin. unfold trace_of at 1 in Hin.
        cbn [snd] in Hin.
        pose proof (logError_effects cleanData mixin logger (inr err) None)
          as H.
        rewrite Forall_forall in H. by apply H in Hin.
    + rewrite onExtensionError_absent by done.
      split; [by intros visible Hin%elem_of_nil|done].
  - cbn [perform].
    destruct (Hlog handle (logUsage cleanData mixin eventName data))
      as (Hv & -> & ->); [|split; [intros v Hin; by apply Hv in Hin|done]].
    intros logger. left. apply logUsage_effects.
  - cbn [perform].
    destruct (Hlog handle
                (logError cleanData mixin eventNameOrException data))
      as (Hv & -> & ->); [|split; [intros v Hin; by apply Hv in Hin|done]].
    intros logger. left. apply logError_effects.
  - cbn [perform].
    destruct (Hlog handle dispose)
      as (Hv & -> & ->); [|split; [intros v Hin; by apply Hv in Hin|done]].
    intros logger. right. rewrite dispose_trace.
    destruct (_sender logger) as [s|]; [destruct (flush s)|];
      by repeat constructor.
Qed.

End Frames.

(** The extension of [example_host] registers a second logger: the first
    stays in the store as it was. *)
Lemma instantiateLogger_again_witness :
  let creation :=
    instantiateLogger example_Date_getTime example_remoteName 0
      example_extension example_other_sender None example_host in
  let created := state_of creation in
  ∃ handle : loc,
    outcome_of creation = Returned handle
    ∧ handle ≠ 0%nat
    ∧ trace_of creation = []
    ∧ Map_get (identifier example_extension) (_telemetryLoggers created)
      = Some handle
    ∧ length (_telemetryLoggers created)
      = length (_telemetryLoggers example_host)
    ∧ store created !! 0%nat = store example_host !! 0%nat.
Proof.
  destruct (store example_host !! 0%nat) as [logger|] eqn:Hl;
    [|vm_compute in Hl; discriminate].
  apply (instantiateLogger_again example_Date_getTime example_remoteName
           example_host 0 example_extension example_other_sender None 0%nat
           logger);
    [reflexivity|exact Hl].
Defined.


(** The logger of [example_host] is disposed, then the level changes. *)
Lemma disposed_logger_pruned_by_level_change_witness :
  let before :=
    run (cleanData_spec example_cleanValue) mixin_spec example_Date_getTime
      example_remoteName
      [Call_initializeTelemetryLevel NONE true None;
       Call_instantiateLogger 0 example_extension example_sender None]
      (new_ExtHostTelemetry example_initData false) in
  let disposed :=
    state_of (perform (cleanData_spec example_cleanValue) mixin_spec
                example_Date_getTime example_remoteName
                (Call_dispose 0%nat) before) in
  let result := onDidChangeTelemetryLevel USAGE disposed in
  Map_get "acme.tools" (_telemetryLoggers disposed) = Some 0%nat
  ∧ Map_get "acme.tools" (_telemetryLoggers (state_of result)) = None
  ∧ EnableStatesFired 0%nat ∉ trace_of result.
Proof.
  apply (disposed_logger_pruned_by_level_change
           (cleanData_spec example_cleanValue) mixin_spec
           example_Date_getTime example_remoteName example_initData false
           [Call_initializeTelemetryLevel NONE true None;
            Call_instantiateLogger 0 example_extension example_sender None]
           USAGE "acme.tools" 0%nat).
  vm_compute. reflexivity.
Defined.

(** X21.  Three invariants of every state the coordinator can reach: an
    identifier has at most one entry in the registry; every entry leads to
    a logger of the store; and every logger that still has its sender has
    its handle, so that a push to it takes effect. *)
Theorem reachable_invariants (cleanData : value → value)
    (mixin : value → value → value) (Date_getTime : string → option Z)
    (remoteName : option string → value) (init : InitData) (isTrace : bool)
    (calls : list call) :
  let this :=
    run cleanData mixin Date_getTime remoteName calls
      (new_ExtHostTelemetry init isTrace) in
  NoDup (_telemetryLoggers this).*1
  ∧ Forall (λ e, is_Some (store this !! e.2)) (_telemetryLoggers this)
  ∧ (∀ (l : loc) (logger : ExtHostTelemetryLogger)
       (isUsageEnabled isErrorsEnabled : bool),
       store this !! l = Some logger →
       isDisposed logger = false →
       updateTelemetryEnablements isUsageEnabled isErrorsEnabled logger
       = (Returned (),
          set_telemetryEnablements
            {| cached_isUsageEnabled := isUsageEnabled;
               cached_isErrorsEnabled := isErrorsEnabled |} logger,
          [EnableStatesFired l])).
Proof.
  intros this.
  destruct (wf_reachable cleanData mixin Date_getTime remoteName init
              isTrace calls) as (Hk & Ha & Hnd).
  split; [done|]. split; [done|].
  intros l logger u e Hl Hd. apply isDisposed_false in Hd.
  specialize (Hk l logger Hl Hd). unfold updateTelemetryEnablements.
  unfold_M. by rewrite Hk.
Qed.

(** * With listeners that call back and senders that raise *)

(** ** The logger's methods *)

Section LiveLoggerFacts.

Variable cleanData : value → value.
Variable mixin : value → value → value.
Variable raises : effect → bool.

Lemma live_logEvent_eq this eventName data :
  Live.logEvent cleanData mixin raises eventName data this
  = match _sender this with
    | Some sender =>
        let name := qualified this eventName in
        let payload :=
          mixInCommonPropsAndCleanData cleanData mixin this (default ∅ data) in
        if _inLoggingOnlyMode this then
          (Returned (), this, [Trace name payload])
        else if raises (SendEventData sender name payload) then
          (Thrown SenderError, this, [SendEventData sender name payload])
        else
          (Returned (), this,
           [SendEventData sender name payload; Trace name payload])
    | None => (Returned (), this, [])
    end.
Proof.
  unfold Live.logEvent, Live.call_sender, qualified. unfold_M.
  destruct (_sender this) as [sender|]; [|done].
  destruct (_inLoggingOnlyMode this); [done|]. simpl.
  by destruct (raises _).
Qed.

Lemma live_logUsage_eq this eventName data :
  Live.logUsage cleanData mixin raises eventName data this
  = if cached_isUsageEnabled (_telemetryEnablements this)
    then Live.logEvent cleanData mixin raises eventName data this
    else (Returned (), this, []).
Proof.
  unfold Live.logUsage. unfold_M.
  destruct (cached_isUsageEnabled _); [|done]. simpl.
  by destruct (Live.logEvent _ _ _ _ _ _) as [[[]]].
Qed.

Lemma live_logError_eq this eventNameOrException data :
  Live.logError cleanData mixin raises eventNameOrException data this
  = match _sender this with
    | Some sender =>
        if cached_isErrorsEnabled (_telemetryEnablements this) then
          match eventNameOrException with
          | inl eventName =>
              Live.logEvent cleanData mixin raises eventName data this
          | inr exception =>
              (if raises (SendErrorData sender exception data)
               then Thrown SenderError else Returned (),
               this, [SendErrorData sender exception data])
          end
        else (Returned (), this, [])
    | None => (Returned (), this, [])
    end.
Proof.
  unfold Live.logError, Live.call_sender. unfold_M.
  destruct (_sender this) as [sender|] eqn:Hs.
  - destruct (cached_isErrorsEnabled _); [|done]. simpl.
    rewrite ?bool_decide_eq_true_2 by done. simpl.
    destruct eventNameOrException as [eventName|exception].
    + by destruct (Live.logEvent _ _ _ _ _ _) as [[[]]].
    + by destruct (raises _).
  - rewrite ?bool_decide_eq_false_2 by (by intros [? ?]).
    by rewrite ?orb_true_r.
Qed.

(** Logging never changes the logger. *)
Lemma live_logEvent_state this eventName data :
  state_of (Live.logEvent cleanData mixin raises eventName data this) = this.
Proof.
  rewrite live_logEvent_eq. destruct (_sender this); [|done]. simpl.
  destruct (_inLoggingOnlyMode this); [done|]. by destruct (raises _).
Qed.

Lemma live_logUsage_state this eventName data :
  state_of (Live.logUsage cleanData mixin raises eventName data this) = this.
Proof.
  rewrite live_logUsage_eq. destruct (cached_isUsageEnabled _); [|done].
  apply live_logEvent_state.
Qed.

Lemma live_logError_state this eventNameOrException data :
  state_of (Live.logError cleanData mixin raises eventNameOrException data
              this) = this.
Proof.
  rewrite live_logError_eq. destruct (_sender this); [|done].
  destruct (cached_isErrorsEnabled _); [|done].
  destruct eventNameOrException; [apply live_logEvent_state|done].
Qed.

Lemma live_logEvent_effects this eventName data :
  Forall is_logging_effect
    (trace_of (Live.logEvent cleanData mixin raises eventName data this)).
Proof.
  rewrite live_logEvent_eq. destruct (_sender this); [|done]. simpl.
  destruct (_inLoggingOnlyMode this); [by repeat constructor|].
  destruct (raises _); by repeat constructor.
Qed.

Lemma live_logUsage_effects this eventName data :
  Forall is_logging_effect
    (trace_of (Live.logUsage cleanData mixin raises eventName data this)).
Proof.
  rewrite live_logUsage_eq. destruct (cached_isUsageEnabled _); [|done].
  apply live_logEvent_effects.
Qed.

Lemma live_logError_effects this eventNameOrException data :
  Forall is_logging_effect
    (trace_of (Live.logError cleanData mixin raises eventNameOrException data
                 this)).
Proof.
  rewrite live_logError_eq. destruct (_sender this); [|done].
  destruct (cached_isErrorsEnabled _); [|done].
  destruct eventNameOrException; [apply live_logEvent_effects|].
  by repeat constructor.
Qed.

(** [dispose] leaves no sender; with a sender it had, it loses the handle
    too unless [flush] is missing or raises. *)
Lemma live_dispose_sender this :
  _sender (state_of (Live.dispose raises this)) = None.
Proof.
  unfold Live.dispose, Live.call_sender. unfold_M.
  destruct (_sender this) as [s|]; [destruct (flush s)|]; try done.
  simpl. by destruct (raises _).
Qed.

End LiveLoggerFacts.

(** X5.  [logUsage] never changes the logger.  It makes calls only when
    the cached usage flag is on and the sender is present: then one
    [sendEventData] (left out in logging-only mode) followed by one write
    to the trace sink, both with the same qualified name and the same
    enriched payload.  It catches nothing: when [sendEventData] raises,
    [logUsage] raises and the write to the trace sink is skipped; in every
    other case it returns.  It never calls [sendErrorData] or [flush]. *)
Theorem logUsage_calls (cleanData : value → value)
    (mixin : value → value → value) (raises : effect → bool)
    (this : ExtHostTelemetryLogger) (eventName : string)
    (data : option (gmap string value)) :
  let name := qualified this eventName in
  let payload :=
    mixInCommonPropsAndCleanData cleanData mixin this (default ∅ data) in
  Live.logUsage cleanData mixin raises eventName data this
  = match _sender this with
    | Some sender =>
        if cached_isUsageEnabled (_telemetryEnablements this) then
          if _inLoggingOnlyMode this then
            (Returned (), this, [Trace name payload])
          else if raises (SendEventData sender name payload) then
            (Thrown SenderError, this, [SendEventData sender name payload])
          else
            (Returned (), this,
             [SendEventData sender name payload; Trace name payload])
        else (Returned (), this, [])
    | None => (Returned (), this, [])
    end.
Proof.
  intros name payload. rewrite live_logUsage_eq, live_logEvent_eq.
  destruct (_sender this); by destruct (cached_isUsageEnabled _).
Qed.

(** X6.  [logError] never changes the logger.  It makes calls only when
    the cached errors flag is on and the sender is present: for an event
    name the same calls as the event path of [logUsage]; for an [Error]
    exactly one [sendErrorData] with the error and the data as given (not
    enriched, not cleaned), whatever the logging-only mode, and nothing to
    the trace sink.  It catches nothing: it raises exactly when the call
    of the sender it makes raises, and then a write to the trace sink that
    was to follow is skipped. *)
Theorem logError_calls (cleanData : value → value)
    (mixin : value → value → value) (raises : effect → bool)
    (this : ExtHostTelemetryLogger) (eventNameOrException : string + Error)
    (data : option (gmap string value)) :
  Live.logError cleanData mixin raises eventNameOrException data this
  = match _sender this with
    | Some sender =>
        if cached_isErrorsEnabled (_telemetryEnablements this) then
          match eventNameOrException with
          | inl eventName =>
              let name := qualified this eventName in
              let payload :=
                mixInCommonPropsAndCleanData cleanData mixin this
                  (default ∅ data) in
              if _inLoggingOnlyMode this then
                (Returned (), this, [Trace name payload])
              else if raises (SendEventData sender name payload) then
                (Thrown SenderError, this,
                 [SendEventData sender name payload])
              else
                (Returned (), this,
                 [SendEventData sender name payload; Trace name payload])
          | inr exception =>
              if raises (SendErrorData sender exception data) then
                (Thrown SenderError, this,
                 [SendErrorData sender exception data])
              else
                (Returned (), this, [SendErrorData sender exception data])
          end
        else (Returned (), this, [])
    | None => (Returned (), this, [])
    end.
Proof.
  rewrite live_logError_eq.
  destruct (_sender this) as [sender|] eqn:Hs; [|done].
  destruct (cached_isErrorsEnabled _); [|done].
  destruct eventNameOrException as [eventName|exception].
  - by rewrite live_logEvent_eq, Hs.
  - by destruct (raises _).
Qed.

(** A sender whose [sendEventData] raises, on a live logger with usage
    enabled: [logUsage] raises, after the call of the sender and before
    the write to the trace sink. *)
Lemma logUsage_raises_with_sender :
  let result :=
    Live.logUsage (cleanData_spec example_cleanValue) mixin_spec
      example_failing "opened" None example_foo_logger in
  outcome_of result = Thrown SenderError
  ∧ state_of result = example_foo_logger
  ∧ is_transmit <$> trace_of result = [true].
Proof. vm_compute. by repeat split. Qed.

(** ** Well-formedness is kept, whatever the listeners do *)

Lemma bind_state {S A B} (m : M S A) (k : A → M S B) (s s1 : S) (a : A)
    (t1 : list effect) :
  m s = (Returned a, s1, t1) →
  state_of ((m ≫= k) s) = state_of (k a s1).
Proof.
  intros H. unfold mbind, M_bind. rewrite H.
  by destruct (k a s1) as [[? ?] ?].
Qed.

Lemma set_store_set_store st this this' :
  this' = set_store (store this') this →
  set_store st this' = set_store st this.
Proof. intros ->. by destruct this. Qed.

Lemma steady_ret {A} (a : A) : steady (mret a).
Proof. intros this Hwf. split; [done|]. by destruct this. Qed.

Lemma steady_same {A} (m : M ExtHostTelemetry A) :
  (∀ this, state_of (m this) = this) → steady m.
Proof. intros H this Hwf. rewrite H. split; [done|]. by destruct this. Qed.

Lemma steady_bind {A B} (m : M ExtHostTelemetry A)
    (k : A → M ExtHostTelemetry B) :
  steady m → (∀ a, steady (k a)) → steady (m ≫= k).
Proof.
  intros Hm Hk this Hwf. specialize (Hm this Hwf).
  unfold mbind, M_bind. destruct (m this) as [[[a|e] s1] t1]; [|done].
  unfold state_of in Hm. simpl in Hm. destruct Hm as [Hwf1 Heq].
  specialize (Hk a s1 Hwf1). destruct (k a s1) as [[o s2] t2].
  unfold state_of in *. simpl in *. destruct Hk as [Hwf2 Heq2].
  split; [done|]. rewrite Heq2 at 1. by apply set_store_set_store.
Qed.

Lemma steady_invoke {A} (l : loc) (m : M ExtHostTelemetryLogger A) :
  (∀ logger, handle_kept l logger → handle_kept l (state_of (m logger))) →
  steady (invoke l m).
Proof.
  intros Hm this Hwf. split; [by apply wf_invoke|].
  unfold invoke. destruct (store this !! l) as [logger|].
  - by destruct (m logger) as [[? ?] ?].
  - by destruct this.
Qed.

Lemma notifications_app t1 t2 :
  notifications (t1 ++ t2) = notifications t1 ++ notifications t2.
Proof. apply filter_app. Qed.

Lemma notifications_logging t :
  Forall is_logging_effect t → notifications t = [].
Proof.
  induction 1 as [|e t He _ IH]; [done|].
  unfold notifications. rewrite filter_cons.
  destruct (decide _) as [Hn|_]; [|exact IH].
  by destruct e.
Qed.

Section LiveFacts.

Variable cleanData : value → value.
Variable mixin : value → value → value.
Variable Date_getTime : string → option Z.
Variable remoteName : option string → value.
Variable raises : effect → bool.
Variable listeners : effect → list Listener.
Variable rethrows : bool.

(** ** What a listener can do to the state *)

Lemma live_perform_handle_steady c :
  steady (Live.perform_handle cleanData mixin raises c).
Proof.
  destruct c as [handle eventName data | handle eventNameOrException data
                | handle]; simpl; apply steady_invoke; intros logger Hk.
  - by rewrite live_logUsage_state.
  - by rewrite live_logError_state.
  - intros Hs. rewrite live_dispose_sender in Hs. by destruct Hs.
Qed.

Lemma steady_attempt (m : M ExtHostTelemetry unit) :
  steady m → steady (attempt m).
Proof.
  intros Hm this Hwf. specialize (Hm this Hwf). unfold attempt.
  by destruct (m this) as [[? ?] ?].
Qed.

Lemma live_perform_handles_steady calls :
  steady (Live.perform_handles cleanData mixin raises calls).
Proof.
  induction calls as [|[c caught] calls IH]; [apply steady_ret|].
  simpl. apply steady_bind; [|done].
  destruct caught; [apply steady_attempt|];
    apply live_perform_handle_steady.
Qed.

Lemma live_run_listener_state (listener : Listener) this :
  state_of (Live.run_listener cleanData mixin raises rethrows listener this)
  = state_of (Live.perform_handles cleanData mixin raises (listener this)
                this).
Proof.
  unfold Live.run_listener.
  by destruct (Live.perform_handles _ _ _ _ _) as [[[|] ?] ?].
Qed.

Lemma live_run_listener_steady listener :
  steady (Live.run_listener cleanData mixin raises rethrows listener).
Proof.
  intros this Hwf. rewrite live_run_listener_state.
  by apply live_perform_handles_steady.
Qed.

Lemma live_deliver_steady subscribed :
  steady (Live.deliver cleanData mixin raises rethrows subscribed).
Proof.
  induction subscribed as [|listener rest IH]; [apply steady_ret|].
  simpl. apply steady_bind; [apply live_run_listener_steady|done].
Qed.

Lemma live_fire_steady e :
  steady (Live.fire cleanData mixin raises listeners rethrows e).
Proof.
  unfold Live.fire. apply steady_bind; [by apply steady_same|].
  intros _. apply live_deliver_steady.
Qed.

Lemma wf_set_cache this l logger snap :
  wf this →
  store this !! l = Some logger →
  wf (set_store
        (<[l := set_telemetryEnablements snap logger]> (store this)) this).
Proof.
  intros (Hk & Ha & Hnd) Hl. split; [|split; [|done]].
  - apply map_Forall_insert_2; [|done]. by apply (Hk l logger).
  - eapply Forall_impl; [exact Ha|]. intros e He. simpl.
    apply lookup_insert_is_Some'. by right.
Qed.

Lemma live_updateTelemetryEnablements_eq that u e this :
  Live.updateTelemetryEnablements cleanData mixin raises listeners rethrows
    that u e this
  = match store this !! that with
    | Some logger =>
        match _apiObject logger with
        | Some api =>
            Live.fire cleanData mixin raises listeners rethrows
              (EnableStatesFired api)
              (set_store
                 (<[that := set_telemetryEnablements
                              {| cached_isUsageEnabled := u;
                                 cached_isErrorsEnabled := e |} logger]>
                    (store this)) this)
        | None => (Returned (), this, [])
        end
    | None => (Thrown TypeError, this, [])
    end.
Proof.
  unfold Live.updateTelemetryEnablements.
  unfold mbind at 1. unfold M_bind at 1. unfold get.
  destruct (store this !! that) as [logger|]; [|done].
  destruct (_apiObject logger) as [api|]; [|done].
  unfold mbind, M_bind, modify.
  by destruct (Live.fire _ _ _ _ _ _ _) as [[[|] ?] ?].
Qed.

Lemma live_updateTelemetryEnablements_steady that u e :
  steady (Live.updateTelemetryEnablements cleanData mixin raises listeners
            rethrows that u e).
Proof.
  intros this Hwf. rewrite live_updateTelemetryEnablements_eq.
  destruct (store this !! that) as [logger|] eqn:Hl;
    [|by apply (steady_ret ())].
  destruct (_apiObject logger) as [api|]; [|by apply (steady_ret ())].
  pose proof (wf_set_cache this that logger
                {| cached_isUsageEnabled := u; cached_isErrorsEnabled := e |}
                Hwf Hl) as Hwf1.
  destruct (live_fire_steady (EnableStatesFired api) _ Hwf1) as [Hwf2 Heq].
  split; [done|]. rewrite Heq at 1. by apply set_store_set_store.
Qed.

Lemma live_push_loop_steady details entries :
  steady (Map_forEach
            (Live.update_level cleanData mixin raises listeners rethrows
               details) entries).
Proof.
  induction entries as [|[key l] entries IH]; [apply steady_ret|].
  simpl. apply steady_bind; [|done].
  apply live_updateTelemetryEnablements_steady.
Qed.

End LiveFacts.

Section LiveReachable.

Variable cleanData : value → value.
Variable mixin : value → value → value.
Variable Date_getTime : string → option Z.
Variable remoteName : option string → value.
Variable raises : effect → bool.
Variable listeners : effect → list Listener.
Variable rethrows : bool.

Lemma live_onExtensionError_eq extension error this :
  Live.onExtensionError cleanData mixin raises extension error this
  = match Map_get extension (_telemetryLoggers this) with
    | Some l =>
        match store this !! l with
        | Some logger =>
            match _sender logger with
            | Some sender =>
                if ignoreUnhandledExtHostErrors logger then
                  (Returned false, this, [])
                else if cached_isErrorsEnabled (_telemetryEnablements logger)
                then
                  (if raises (SendErrorData sender error None)
                   then Thrown SenderError else Returned true,
                   this, [SendErrorData sender error None])
                else (Returned true, this, [])
            | None =>
                (Returned false,
                 set_telemetryLoggers
                   (Map_delete extension (_telemetryLoggers this)) this,
                 [])
            end
        | None => (Thrown TypeError, this, [])
        end
    | None => (Returned false, this, [])
    end.
Proof.
  unfold Live.onExtensionError.
  unfold mbind at 1. unfold M_bind at 1. unfold get.
  destruct (Map_get extension (_telemetryLoggers this)) as [l|]; [|done].
  destruct (store this !! l) as [logger|] eqn:Hl.
  - erewrite bind_eq by (by apply invoke_read).
    destruct (_sender logger) as [sender|] eqn:Hs.
    + assert (Hd : isDisposed logger = false)
        by (apply isDisposed_false; by rewrite Hs).
      rewrite Hd.
      erewrite bind_eq by (by apply invoke_read).
      destruct (ignoreUnhandledExtHostErrors logger); [done|].
      pose proof (live_logError_state cleanData mixin raises logger
                    (inr error) None) as Hst.
      pose proof (live_logError_eq cleanData mixin raises logger
                    (inr error) None) as Heq.
      rewrite Hs in Heq.
      unfold mbind, M_bind, invoke. rewrite Hl, Heq.
      destruct (cached_isErrorsEnabled _); simpl;
        rewrite insert_id, set_store_id by done; [|done].
      by destruct (raises _).
    + assert (Hd : isDisposed logger = true)
        by (by apply isDisposed_true).
      by rewrite Hd.
  - unfold mbind, M_bind, invoke. by rewrite Hl.
Qed.

Lemma live_wf_onExtensionError extension error this :
  wf this →
  wf (state_of (Live.onExtensionError cleanData mixin raises extension error
                  this)).
Proof.
  intros Hwf. rewrite live_onExtensionError_eq.
  destruct (Map_get extension (_telemetryLoggers this)) as [l|]; [|done].
  destruct (store this !! l) as [logger|]; [|done].
  destruct (_sender logger) as [sender|]; [|by apply wf_delete].
  destruct (ignoreUnhandledExtHostErrors logger); [done|].
  by destruct (cached_isErrorsEnabled _).
Qed.

Lemma wf_handler_start level this :
  wf this →
  wf (set_telemetryLoggers
        (prune (store this) (_telemetryLoggers this) (_telemetryLoggers this))
        (set_level level
           (set_oldTelemetryEnablement (Some (getTelemetryConfiguration this))
              this))).
Proof.
  intros Hwf. pose proof Hwf as (Hk & Ha & Hnd).
  split; [done|]. simpl. split; [|by apply prune_NoDup].
  apply Forall_forall. intros e He. apply prune_sub in He.
  rewrite Forall_forall in Ha. by apply Ha.
Qed.

Lemma live_wf_onDidChangeTelemetryLevel level this :
  wf this →
  wf (state_of (Live.onDidChangeTelemetryLevel cleanData mixin raises
                  listeners rethrows level this)).
Proof.
  intros Hwf. pose proof Hwf as (Hk & Ha & Hnd).
  unfold Live.onDidChangeTelemetryLevel.
  erewrite bind_state by reflexivity.
  erewrite bind_state by reflexivity.
  erewrite bind_state by reflexivity.
  erewrite bind_state by (apply prune_loop; exact Ha).
  eapply proj1.
  apply steady_bind;
    [by apply steady_same| |exact (wf_handler_start level this Hwf)]. intros this2.
  apply steady_bind; [apply live_push_loop_steady|]. intros _.
  apply steady_bind; [by apply steady_same|]. intros this3.
  apply steady_bind.
  { destruct (negb _); [apply live_fire_steady|apply steady_ret]. }
  intros _.
  apply steady_bind; [by apply steady_same|]. intros this4.
  apply steady_bind; [apply live_fire_steady|]. intros _.
  by apply steady_same.
Qed.

Lemma live_wf_perform c this :
  wf this →
  wf (state_of (Live.perform cleanData mixin Date_getTime remoteName raises
                  listeners rethrows c this)).
Proof.
  intros Hwf.
  destruct c as [level supports productConfig | isTrace
                | now extension sender options | level | extension err
                | handle eventName data | handle eventNameOrException data
                | handle]; simpl.
  - by apply (wf_same this).
  - by apply (wf_same this).
  - pose proof (wf_instantiateLogger Date_getTime remoteName now extension
                  sender options this Hwf) as H.
    unfold discard.
    by destruct (instantiateLogger _ _ _ _ _ _ _) as [[[] ?] ?].
  - by apply live_wf_onDidChangeTelemetryLevel.
  - pose proof (live_wf_onExtensionError extension err this Hwf) as H.
    unfold discard.
    by destruct (Live.onExtensionError _ _ _ _ _ _) as [[[] ?] ?].
  - by apply (live_perform_handle_steady cleanData mixin raises
                (Handle_logUsage handle eventName data)).
  - by apply (live_perform_handle_steady cleanData mixin raises
                (Handle_logError handle eventNameOrException data)).
  - by apply (live_perform_handle_steady cleanData mixin raises
                (Handle_dispose handle)).
Qed.

Lemma live_wf_run calls : ∀ this,
  wf this →
  wf (Live.run cleanData mixin Date_getTime remoteName raises listeners
        rethrows calls this).
Proof.
  induction calls as [|c calls IH]; intros this Hwf; [done|].
  simpl. apply IH. by apply live_wf_perform.
Qed.

Lemma live_wf_reachable init isTrace calls :
  wf (Live.run cleanData mixin Date_getTime remoteName raises listeners
        rethrows calls (new_ExtHostTelemetry init isTrace)).
Proof. apply live_wf_run, wf_new. Qed.

End LiveReachable.

(** ** The unhandled-error entry point *)

Section LiveUnhandledErrors.

Variable cleanData : value → value.
Variable mixin : value → value → value.
Variable Date_getTime : string → option Z.
Variable remoteName : option string → value.
Variable raises : effect → bool.
Variable listeners : effect → list Listener.
Variable rethrows : bool.

(** X19.  In every state the coordinator can reach, whatever the senders
    and the listeners did on the way, the unhandled-error entry point
    answers false exactly when no live logger that did not opt out is
    registered under the identifier, and then it makes no call.
    Otherwise, when the logger's cached errors flag is off it makes no
    call and answers true; when the flag is on it calls [sendErrorData]
    with the error and no data, and answers true if that call returns and
    raises what the sender raised if it does not.  It changes no logger,
    makes no other call, and never writes to the trace sink. *)
Theorem onExtensionError_handled_iff (init : InitData) (isTrace : bool)
    (calls : list call) (extension : string) (error : Error) :
  let before :=
    Live.run cleanData mixin Date_getTime remoteName raises listeners rethrows
      calls (new_ExtHostTelemetry init isTrace) in
  let result :=
    Live.onExtensionError cleanData mixin raises extension error before in
  store (state_of result) = store before
  ∧ (outcome_of result = Returned false
     ↔ ¬ ∃ (l : loc) (logger : ExtHostTelemetryLogger),
           Map_get extension (_telemetryLoggers before) = Some l
           ∧ store before !! l = Some logger
           ∧ isDisposed logger = false
           ∧ ignoreUnhandledExtHostErrors logger = false)
  ∧ (outcome_of result = Returned false → trace_of result = [])
  ∧ (∀ (l : loc) (logger : ExtHostTelemetryLogger)
       (sender : TelemetrySender),
       Map_get extension (_telemetryLoggers before) = Some l →
       store before !! l = Some logger →
       _sender logger = Some sender →
       ignoreUnhandledExtHostErrors logger = false →
       result
       = if cached_isErrorsEnabled (_telemetryEnablements logger) then
           if raises (SendErrorData sender error None) then
             (Thrown SenderError, before, [SendErrorData sender error None])
           else
             (Returned true, before, [SendErrorData sender error None])
         else (Returned true, before, [])).
Proof.
  intros before result.
  assert (Hwf : wf before) by apply live_wf_reachable.
  unfold result. rewrite live_onExtensionError_eq.
  destruct (Map_get extension (_telemetryLoggers before)) as [l|] eqn:Hg.
  - destruct (wf_allocated before extension l Hwf Hg) as [logger Hl].
    rewrite Hl.
    destruct (_sender logger) as [sender|] eqn:Hs.
    + assert (Hd : isDisposed logger = false)
        by (apply isDisposed_false; by rewrite Hs).
      destruct (ignoreUnhandledExtHostErrors logger) eqn:Hi.
      * split; [done|]. split; [|split; [done|]].
        -- split; [|done]. intros _ (l' & logger' & ? & ? & ? & ?).
           congruence.
        -- intros l' logger' sender' ? ? ? ?. congruence.
      * assert (Hq : ∃ l' logger',
                  Some l = Some l' ∧ store before !! l' = Some logger'
                  ∧ isDisposed logger' = false
                  ∧ ignoreUnhandledExtHostErrors logger' = false)
          by by exists l, logger.
        destruct (cached_isErrorsEnabled (_telemetryEnablements logger))
          eqn:He; [destruct (raises _) eqn:Hr|];
          (split; [done|]; split; [|split; [done|]];
           [split; [done|by intros []]|];
           intros l' logger' sender' [= <-] Hl' Hs' _;
           rewrite Hl in Hl'; injection Hl' as <-;
           rewrite Hs in Hs'; injection Hs' as <-;
           by rewrite He, ?Hr).
    + assert (Hd : isDisposed logger = true) by by apply isDisposed_true.
      split; [done|]. split; [|split; [done|]].
      * split; [|done]. intros _ (l' & logger' & ? & ? & ? & ?). congruence.
      * intros l' logger' sender' ? ? ? ?. congruence.
  - split; [done|]. split; [|split; [done|]].
    + split; [|done]. by intros _ (l' & logger' & ? & ?).
    + by intros l' logger' sender' ?.
Qed.

End LiveUnhandledErrors.

(** A sender whose [sendErrorData] raises: the entry point raises too. *)
Lemma onExtensionError_raises_with_sender :
  let before :=
    Live.run (cleanData_spec example_cleanValue) mixin_spec
      example_Date_getTime example_remoteName example_failing
      example_logging_listeners false
      [Call_initializeTelemetryLevel USAGE true None;
       Call_instantiateLogger 0 example_extension example_sender None]
      (new_ExtHostTelemetry example_initData false) in
  let result :=
    Live.onExtensionError (cleanData_spec example_cleanValue) mixin_spec
      example_failing "acme.tools" example_error before in
  outcome_of result = Thrown SenderError
  ∧ trace_of result = [SendErrorData example_sender example_error None].
Proof. vm_compute. by repeat split. Qed.

(** ** The level-change handler when no listener disposes a logger *)

Lemma invoke_state_same {A} (l : loc) (m : M ExtHostTelemetryLogger A) this :
  (∀ logger, state_of (m logger) = logger) →
  state_of (invoke l m this) = this.
Proof.
  intros Hm. unfold invoke.
  destruct (store this !! l) as [logger|] eqn:Hl; [|done].
  specialize (Hm logger). destruct (m logger) as [[o logger'] t].
  unfold state_of in *. simpl in *. subst logger'.
  by rewrite insert_id, set_store_id.
Qed.

Section NoDisposal.

Variable cleanData : value → value.
Variable mixin : value → value → value.
Variable Date_getTime : string → option Z.
Variable remoteName : option string → value.
Variable raises : effect → bool.
Variable listeners : effect → list Listener.
Variable rethrows : bool.

Hypothesis no_disposal : never_dispose listeners.

Lemma live_perform_handle_eq c this :
  is_dispose c = false →
  ∃ o t,
    Live.perform_handle cleanData mixin raises c this = (o, this, t)
    ∧ Forall is_logging_effect t.
Proof.
  intros Hc.
  destruct (Live.perform_handle cleanData mixin raises c this)
    as [[o s] t] eqn:Heq.
  exists o, t.
  assert (Hs : state_of (Live.perform_handle cleanData mixin raises c this)
               = this
               ∧ Forall is_logging_effect
                   (trace_of (Live.perform_handle cleanData mixin raises c
                                this))).
  { destruct c as [handle eventName data | handle eventNameOrException data
                  | handle]; [| |done]; simpl.
    - split; [apply invoke_state_same; intros; apply live_logUsage_state|].
      rewrite invoke_trace. destruct (store this !! handle); [|done].
      apply live_logUsage_effects.
    - split; [apply invoke_state_same; intros; apply live_logError_state|].
      rewrite invoke_trace. destruct (store this !! handle); [|done].
      apply live_logError_effects. }
  rewrite Heq in Hs. unfold state_of, trace_of in Hs. simpl in Hs.
  destruct Hs as [-> Ht]. done.
Qed.

Lemma live_perform_handles_eq calls : ∀ this,
  Forall (λ c, is_dispose c.1 = false) calls →
  ∃ o t,
    Live.perform_handles cleanData mixin raises calls this = (o, this, t)
    ∧ Forall is_logging_effect t.
Proof.
  induction calls as [|[c caught] calls IH]; intros this Hall.
  - by exists (Returned ()), [].
  - apply Forall_cons in Hall as [Hc Hall]. simpl in Hc.
    destruct (live_perform_handle_eq c this Hc) as (o1 & t1 & Heq1 & Ht1).
    destruct (IH this Hall) as (o2 & t2 & Heq2 & Ht2).
    assert (Hstep : ∃ o1',
      (if caught
       then attempt (Live.perform_handle cleanData mixin raises c)
       else Live.perform_handle cleanData mixin raises c) this
      = (o1', this, t1)).
    { destruct caught; [|by eauto]. unfold attempt. rewrite Heq1. by eauto. }
    destruct Hstep as [o1' Hstep].
    simpl. unfold mbind, M_bind. rewrite Hstep.
    destruct o1' as [[]|e]; [|by eauto].
    rewrite Heq2. exists o2, (t1 ++ t2). split; [done|].
    by apply Forall_app.
Qed.

Lemma live_run_listener_eq (listener : Listener) this :
  Forall (λ c, is_dispose c.1 = false) (listener this) →
  ∃ o t,
    Live.run_listener cleanData mixin raises rethrows listener this
    = (o, this, t)
    ∧ Forall is_logging_effect t
    ∧ (rethrows = false → o = Returned ()).
Proof.
  intros Hall.
  destruct (live_perform_handles_eq (listener this) this Hall)
    as (o & t & Heq & Ht).
  unfold Live.run_listener. rewrite Heq.
  destruct o as [[]|e]; [by eauto|].
  eexists _, t. split; [done|]. split; [done|]. by intros ->.
Qed.

Lemma live_deliver_eq subscribed : ∀ this,
  (∀ (listener : Listener) this,
     listener ∈ subscribed →
     Forall (λ c, is_dispose c.1 = false) (listener this)) →
  ∃ o t,
    Live.deliver cleanData mixin raises rethrows subscribed this
    = (o, this, t)
    ∧ Forall is_logging_effect t
    ∧ (rethrows = false → o = Returned ()).
Proof.
  induction subscribed as [|listener rest IH]; intros this Hall.
  - by exists (Returned ()), [].
  - destruct (live_run_listener_eq listener this) as (o1 & t1 & Heq1 & Ht1 & Ho1).
    { apply Hall. by left. }
    destruct (IH this) as (o2 & t2 & Heq2 & Ht2 & Ho2).
    { intros l s Hin. apply Hall. by right. }
    simpl. unfold mbind, M_bind. rewrite Heq1.
    destruct o1 as [[]|e].
    + rewrite Heq2. exists o2, (t1 ++ t2). split; [done|].
      split; [by apply Forall_app|done].
    + exists (Thrown e), t1. split; [done|]. split; [done|].
      intros Hr. by specialize (Ho1 Hr).
Qed.

Lemma live_fire_eq e this :
  ∃ o t,
    Live.fire cleanData mixin raises listeners rethrows e this
    = (o, this, e :: t)
    ∧ Forall is_logging_effect t
    ∧ (rethrows = false → o = Returned ()).
Proof.
  destruct (live_deliver_eq (listeners e) this) as (o & t & Heq & Ht & Ho).
  { intros listener s Hin. pose proof (no_disposal e s) as H.
    rewrite Forall_forall in H. by apply H. }
  unfold Live.fire, mbind, M_bind, emit. rewrite Heq. by exists o, t.
Qed.

Lemma live_update_level_eq details this key l logger :
  store this !! l = Some logger →
  _apiObject logger = Some l →
  ∃ o t,
    Live.update_level cleanData mixin raises listeners rethrows details l key
      this
    = (o,
       set_store
         (alter (set_telemetryEnablements (snapshot details)) l (store this))
         this,
       EnableStatesFired l :: t)
    ∧ Forall is_logging_effect t
    ∧ (rethrows = false → o = Returned ()).
Proof.
  intros Hl Ha. unfold Live.update_level.
  rewrite live_updateTelemetryEnablements_eq, Hl, Ha.
  rewrite <- (alter_as_insert _ l (store this) logger Hl).
  apply live_fire_eq.
Qed.

Lemma live_push_loop details entries : ∀ this,
  Forall (λ e, ∃ logger, store this !! e.2 = Some logger
                         ∧ _apiObject logger = Some e.2) entries →
  ∃ o done t,
    Map_forEach
      (Live.update_level cleanData mixin raises listeners rethrows details)
      entries this
    = (o, set_store (push details (store this) done) this, t)
    ∧ done `prefix_of` entries
    ∧ notifications t = EnableStatesFired <$> done.*2
    ∧ Forall (λ e, is_notification e = true ∨ is_logging_effect e) t
    ∧ (o = Returned () → done = entries)
    ∧ (rethrows = false → o = Returned ()).
Proof.
  induction entries as [|[key l] entries IH]; intros this Hall.
  - exists (Returned ()), [], []. simpl. unfold mret, M_ret.
    rewrite set_store_id. by repeat split.
  - apply Forall_cons in Hall as [(logger & Hl & Ha) Hall]. simpl in Hl, Ha.
    destruct (live_update_level_eq details this key l logger Hl Ha)
      as (o1 & t1 & Heq1 & Ht1 & Ho1).
    cbn [Map_forEach]. unfold mbind, M_bind. rewrite Heq1.
    assert (Hn1 : notifications (EnableStatesFired l :: t1)
                  = [EnableStatesFired l]).
    { change (EnableStatesFired l :: t1) with ([EnableStatesFired l] ++ t1).
      rewrite notifications_app, (notifications_logging t1) by done. done. }
    assert (Hf1 : Forall (λ e, is_notification e = true ∨ is_logging_effect e)
                    (EnableStatesFired l :: t1)).
    { constructor; [by left|]. eapply Forall_impl; [exact Ht1|]. auto. }
    destruct o1 as [[]|e].
    + destruct (IH (set_store
                      (alter (set_telemetryEnablements (snapshot details)) l
                         (store this)) this))
        as (o & done & t & Heq & Hpre & Hn & Hf & Hd & Ho).
      { eapply Forall_impl; [exact Hall|].
        intros [k' l'] (logger' & Hl' & Ha'). simpl in *.
        destruct (decide (l' = l)) as [->|Hne].
        - eexists. rewrite lookup_alter_eq, Hl'. simpl. split; [done|].
          simpl. done.
        - exists logger'. by rewrite lookup_alter_ne. }
      rewrite Heq. exists o, ((key, l) :: done), ((EnableStatesFired l :: t1) ++ t).
      split; [simpl; by destruct this|].
      split; [by apply prefix_cons|].
      split; [by rewrite notifications_app, Hn1, Hn|].
      split; [by apply Forall_app|].
      split; [|done]. intros Hr. by rewrite Hd.
    + exists (Thrown e), [(key, l)], (EnableStatesFired l :: t1).
      split; [done|].
      split; [apply prefix_cons, prefix_nil|].
      split; [done|]. split; [done|]. split; [done|].
      intros Hr. by specialize (Ho1 Hr).
Qed.

End NoDisposal.

Section NoDisposalHandler.

Variable cleanData : value → value.
Variable mixin : value → value → value.
Variable Date_getTime : string → option Z.
Variable remoteName : option string → value.
Variable raises : effect → bool.
Variable listeners : effect → list Listener.
Variable rethrows : bool.

Hypothesis no_disposal : never_dispose listeners.

(** The end of the handler: the two notifications of the coordinator and
    the visibility update. *)
Lemma live_notify_eq (this : ExtHostTelemetry) :
  ∃ o t,
    (this0 ← get;
     (if negb (bool_decide (_oldTelemetryEnablement this0
                            = Some (getTelemetryConfiguration this0)))
      then Live.fire cleanData mixin raises listeners rethrows
             (TelemetryEnabledFired (getTelemetryConfiguration this0))
      else mret ());;
     this1 ← get;
     Live.fire cleanData mixin raises listeners rethrows
       (TelemetryConfigurationFired (getTelemetryDetails this1));;
     updateLoggerVisibility) this
    = (o, this, t)
    ∧ (o = Returned () →
       notifications t
       = (if negb (bool_decide (_oldTelemetryEnablement this
                                = Some (getTelemetryConfiguration this)))
          then [TelemetryEnabledFired (getTelemetryConfiguration this)]
          else [])
         ++ [TelemetryConfigurationFired (getTelemetryDetails this)])
    ∧ Forall (λ e, is_notification e = true ∨ is_logging_effect e
                   ∨ ∃ b, e = SetVisibility b) t
    ∧ (rethrows = false → o = Returned ()).
Proof.
  assert (Hlog : ∀ t, Forall is_logging_effect t →
            Forall (λ e, is_notification e = true ∨ is_logging_effect e
                         ∨ ∃ b, e = SetVisibility b) t).
  { intros t Ht. eapply Forall_impl; [exact Ht|]. auto. }
  assert (Hfirst : ∃ o1 t1,
    (if negb (bool_decide (_oldTelemetryEnablement this
                           = Some (getTelemetryConfiguration this)))
     then Live.fire cleanData mixin raises listeners rethrows
            (TelemetryEnabledFired (getTelemetryConfiguration this))
     else mret ()) this = (o1, this, t1)
    ∧ notifications t1
      = (if negb (bool_decide (_oldTelemetryEnablement this
                               = Some (getTelemetryConfiguration this)))
         then [TelemetryEnabledFired (getTelemetryConfiguration this)]
         else [])
    ∧ Forall (λ e, is_notification e = true ∨ is_logging_effect e
                   ∨ ∃ b, e = SetVisibility b) t1
    ∧ (rethrows = false → o1 = Returned ())).
  { destruct (negb _).
    - destruct (live_fire_eq cleanData mixin raises listeners rethrows
                  no_disposal
                  (TelemetryEnabledFired (getTelemetryConfiguration this))
                  this) as (o1 & t1 & Heq1 & Ht1 & Ho1).
      exists o1, (TelemetryEnabledFired (getTelemetryConfiguration this) :: t1).
      split; [done|]. split; [|split; [|done]].
      + change (?e :: t1) with ([e] ++ t1).
        by rewrite notifications_app, (notifications_logging t1).
      + constructor; [by left|by apply Hlog].
    - by exists (Returned ()), []. }
  destruct Hfirst as (o1 & t1 & Heq1 & Hn1 & Hf1 & Ho1).
  erewrite bind_eq by reflexivity.
  unfold mbind at 1. unfold M_bind at 1. rewrite Heq1.
  destruct o1 as [[]|e].
  - erewrite bind_eq by reflexivity.
    destruct (live_fire_eq cleanData mixin raises listeners rethrows
                no_disposal
                (TelemetryConfigurationFired (getTelemetryDetails this))
                this) as (o2 & t2 & Heq2 & Ht2 & Ho2).
    unfold mbind at 1. unfold M_bind at 1. rewrite Heq2.
    assert (Hn2 : notifications
                    (TelemetryConfigurationFired (getTelemetryDetails this)
                     :: t2)
                  = [TelemetryConfigurationFired (getTelemetryDetails this)]).
    { change (?e :: t2) with ([e] ++ t2).
      by rewrite notifications_app, (notifications_logging t2). }
    destruct o2 as [[]|e].
    + eexists _, _. split; [reflexivity|]. split; [|split; [|done]].
      * intros _. simpl. rewrite !notifications_app, Hn1.
        change (?e :: t2 ++ ?r) with ((e :: t2) ++ r).
        rewrite notifications_app, Hn2. simpl. by rewrite ?app_nil_r.
      * simpl. apply Forall_app_2; [done|].
        constructor; [by left|]. apply Forall_app_2; [by apply Hlog|].
        constructor; [|constructor]. right. right. by eexists.
    + eexists _, _. split; [reflexivity|]. split; [done|].
      split; [|done]. simpl. apply Forall_app_2; [done|].
      constructor; [by left|by apply Hlog].
  - eexists _, _. split; [reflexivity|]. split; [done|].
    split; [by rewrite app_nil_l|done].
Qed.

Lemma live_onDidChangeTelemetryLevel_eq level this :
  wf this →
  let changed := after_level_change level this in
  let details := getTelemetryDetails changed in
  ∃ o done t,
    Live.onDidChangeTelemetryLevel cleanData mixin raises listeners rethrows
      level this
    = (o, set_store (push details (store this) done) changed, t)
    ∧ done `prefix_of` _telemetryLoggers changed
    ∧ (o = Returned () →
       done = _telemetryLoggers changed
       ∧ notifications t
         = (EnableStatesFired <$> (_telemetryLoggers changed).*2)
           ++ (if negb (bool_decide (Some (getTelemetryConfiguration this)
                                     = Some (level_eq level USAGE)))
               then [TelemetryEnabledFired (level_eq level USAGE)] else [])
           ++ [TelemetryConfigurationFired details])
    ∧ Forall (λ e, is_notification e = true ∨ is_logging_effect e
                   ∨ ∃ b, e = SetVisibility b) t
    ∧ (rethrows = false → o = Returned ()).
Proof.
  intros Hwf changed details. pose proof Hwf as (Hk & Ha & Hnd).
  unfold Live.onDidChangeTelemetryLevel.
  erewrite bind_eq by reflexivity.
  erewrite bind_eq by reflexivity.
  erewrite bind_eq by reflexivity.
  erewrite bind_eq by (apply prune_loop; exact Ha).
  erewrite bind_eq by reflexivity.
  match goal with
  | |- context [Map_forEach (Live.update_level _ _ _ _ _ ?d) ?entries] =>
      destruct (live_push_loop cleanData mixin raises listeners rethrows
                  no_disposal d entries
                  (set_telemetryLoggers entries
                     (set_level level
                        (set_oldTelemetryEnablement
                           (Some (getTelemetryConfiguration this)) this))))
        as (o & done & t & Heq & Hpre & Hn & Hf & Hd & Ho)
  end.
  { apply Forall_forall. intros e He.
    destruct (prune_ready this e Hwf He) as (logger & Hl & _ & Hapi).
    by exists logger. }
  unfold mbind at 1. unfold M_bind at 1.
  simpl in Heq. simpl. rewrite Heq.
  assert (Hf' : Forall (λ e, is_notification e = true ∨ is_logging_effect e
                             ∨ ∃ b, e = SetVisibility b) t).
  { eapply Forall_impl; [exact Hf|]. intros e [?|?]; auto. }
  destruct o as [[]|e].
  - specialize (Hd eq_refl). subst done.
    match goal with
    | |- context [(get ≫= ?k) ?s] =>
        destruct (live_notify_eq s) as (o2 & t2 & Heq2 & Hn2 & Hf2 & Ho2)
    end.
    rewrite Heq2. exists o2, (_telemetryLoggers changed), (t ++ t2).
    split; [done|]. split; [done|]. split; [|split; [by apply Forall_app_2|done]].
    intros Hr. split; [done|].
    rewrite notifications_app, Hn, (Hn2 Hr). done.
  - exists (Thrown e), done, t. split; [done|]. split; [done|].
    split; [done|]. split; [done|]. intros Hr. by specialize (Ho Hr).
Qed.

End NoDisposalHandler.

Section LiveLevelChange.

Variable cleanData : value → value.
Variable mixin : value → value → value.
Variable Date_getTime : string → option Z.
Variable remoteName : option string → value.
Variable raises : effect → bool.
Variable listeners : effect → list Listener.
Variable rethrows : bool.

(** A [logUsage] call through a handle, on a live logger. *)
Lemma live_perform_logUsage_eq this l logger sender eventName data :
  store this !! l = Some logger →
  _sender logger = Some sender →
  Live.perform cleanData mixin Date_getTime remoteName raises listeners
    rethrows (Call_logUsage l eventName data) this
  = if cached_isUsageEnabled (_telemetryEnablements logger) then
      if _inLoggingOnlyMode logger then
        (Returned (), this,
         [Trace (qualified logger eventName)
            (mixInCommonPropsAndCleanData cleanData mixin logger
               (default ∅ data))])
      else if raises (SendEventData sender (qualified logger eventName)
                        (mixInCommonPropsAndCleanData cleanData mixin logger
                           (default ∅ data)))
      then
        (Thrown SenderError, this,
         [SendEventData sender (qualified logger eventName)
            (mixInCommonPropsAndCleanData cleanData mixin logger
               (default ∅ data))])
      else
        (Returned (), this,
         [SendEventData sender (qualified logger eventName)
            (mixInCommonPropsAndCleanData cleanData mixin logger
               (default ∅ data));
          Trace (qualified logger eventName)
            (mixInCommonPropsAndCleanData cleanData mixin logger
               (default ∅ data))])
    else (Returned (), this, []).
Proof.
  intros Hl Hs. simpl.
  pose proof (live_logUsage_eq cleanData mixin raises logger eventName data)
    as Heq.
  rewrite live_logEvent_eq, Hs in Heq. simpl in Heq.
  destruct (cached_isUsageEnabled _);
    [|by apply invoke_unchanged with logger].
  destruct (_inLoggingOnlyMode logger);
    [by apply invoke_unchanged with logger|].
  destruct (raises _); by apply invoke_unchanged with logger.
Qed.

(** When the handler has returned and no listener disposed a logger, the
    state is the one the two loops compute. *)
Lemma live_level_change_returned level this :
  never_dispose listeners →
  wf this →
  outcome_of (Live.onDidChangeTelemetryLevel cleanData mixin raises listeners
                rethrows level this) = Returned () →
  state_of (Live.onDidChangeTelemetryLevel cleanData mixin raises listeners
              rethrows level this) = after_level_change level this.
Proof.
  intros Hnd Hwf Ho.
  destruct (live_onDidChangeTelemetryLevel_eq cleanData mixin raises listeners
              rethrows Hnd level this Hwf)
    as (o & done & t & Heq & Hpre & Hret & Hf & Hr).
  rewrite Heq in Ho |- *. unfold outcome_of, state_of in *. simpl in Ho.
  destruct (Hret Ho) as [-> _]. cbn [fst snd].
  unfold after_level_change. by simpl.
Qed.

Lemma live_level_change_registry level this :
  never_dispose listeners →
  wf this →
  _telemetryLoggers
    (state_of (Live.onDidChangeTelemetryLevel cleanData mixin raises listeners
                 rethrows level this))
  = _telemetryLoggers (after_level_change level this).
Proof.
  intros Hnd Hwf.
  destruct (live_onDidChangeTelemetryLevel_eq cleanData mixin raises listeners
              rethrows Hnd level this Hwf)
    as (o & done & t & Heq & Hpre & Hret & Hf & Hr).
  by rewrite Heq.
Qed.

Lemma live_level_change_returns level this :
  never_dispose listeners →
  wf this →
  rethrows = false →
  outcome_of (Live.onDidChangeTelemetryLevel cleanData mixin raises listeners
                rethrows level this) = Returned ().
Proof.
  intros Hnd Hwf Hre.
  destruct (live_onDidChangeTelemetryLevel_eq cleanData mixin raises listeners
              rethrows Hnd level this Hwf)
    as (o & done & t & Heq & Hpre & Hret & Hf & Hr).
  rewrite Heq. by apply Hr.
Qed.

(** C3, as the code has it.  Take any state the coordinator can reach,
    whatever the senders and the listeners ([raises0], [listeners0]) did
    on the way, and a call of the level-change handler during which no
    listener disposes a logger.
    When the handler has returned (it does whenever [fire] does not pass on
    what a listener raises): every logger in the registry is live, was
    registered before, and caches exactly the newly derived enablement, so
    the cache of a registered logger is not more permissive than that
    enablement, and, when usage is now enabled, a [logUsage] call on it
    reaches the sender (unless in logging-only mode) and then, if the
    sender returns, the trace sink.  Every live logger registered before
    is still registered.  In particular a logger created while usage was
    disabled has its [logUsage] calls dropped, and accepted right after a
    level change that enables usage, through the same handle. *)
Theorem level_change_reaches_registered_loggers (init : InitData)
    (isTrace : bool) (calls : list call) (level : TelemetryLevel)
    (raises0 : effect → bool)
    (listeners0 : effect → list Listener) :
  never_dispose listeners →
  let before :=
    Live.run cleanData mixin Date_getTime remoteName raises0 listeners0
      rethrows calls (new_ExtHostTelemetry init isTrace) in
  let result :=
    Live.onDidChangeTelemetryLevel cleanData mixin raises listeners rethrows
      level before in
  let after := state_of result in
  let details := getTelemetryDetails after in
  (rethrows = false → outcome_of result = Returned ())
  ∧ (outcome_of result = Returned () →
     ∀ (key : string) (l : loc),
       (key, l) ∈ _telemetryLoggers after →
       ∃ (logger : ExtHostTelemetryLogger) (sender : TelemetrySender),
         (key, l) ∈ _telemetryLoggers before
         ∧ store after !! l = Some logger
         ∧ _sender logger = Some sender
         ∧ isDisposed logger = false
         ∧ _telemetryEnablements logger = snapshot details
         ∧ (cached_isUsageEnabled (_telemetryEnablements logger) = true →
            isUsageEnabled details = true)
         ∧ (cached_isErrorsEnabled (_telemetryEnablements logger) = true →
            isErrorsEnabled details = true)
         ∧ (isUsageEnabled details = true →
            ∀ (eventName : string) (data : option (gmap string value)),
              let name := qualified logger eventName in
              let payload :=
                mixInCommonPropsAndCleanData cleanData mixin logger
                  (default ∅ data) in
              Live.perform cleanData mixin Date_getTime remoteName raises
                listeners rethrows (Call_logUsage l eventName data) after
              = if _inLoggingOnlyMode logger then
                  (Returned (), after, [Trace name payload])
                else if raises (SendEventData sender name payload) then
                  (Thrown SenderError, after,
                   [SendEventData sender name payload])
                else
                  (Returned (), after,
                   [SendEventData sender name payload; Trace name payload])))
  ∧ (∀ (key : string) (l : loc) (logger : ExtHostTelemetryLogger),
       (key, l) ∈ _telemetryLoggers before →
       store before !! l = Some logger →
       isDisposed logger = false →
       (key, l) ∈ _telemetryLoggers after)
  ∧ (∀ (now : Z) (extension : IExtensionDescription)
       (sender : TelemetrySender) (options : option TelemetryLoggerOptions)
       (eventName : string) (data : option (gmap string value)),
       let creation :=
         instantiateLogger Date_getTime remoteName now extension sender
           options before in
       let created := state_of creation in
       let change :=
         Live.onDidChangeTelemetryLevel cleanData mixin raises listeners
           rethrows level created in
       let changed := state_of change in
       isUsageEnabled (getTelemetryDetails before) = false →
       isUsageEnabled (getTelemetryDetails changed) = true →
       outcome_of change = Returned () →
       ∃ (handle : loc) (name : string) (payload : value),
         outcome_of creation = Returned handle
         ∧ Live.perform cleanData mixin Date_getTime remoteName raises
             listeners rethrows (Call_logUsage handle eventName data) created
           = (Returned (), created, [])
         ∧ Live.perform cleanData mixin Date_getTime remoteName raises
             listeners rethrows (Call_logUsage handle eventName data) changed
           = if isExtensionTelemetryLoggingOnly (initData before) then
               (Returned (), changed, [Trace name payload])
             else if raises (SendEventData sender name payload) then
               (Thrown SenderError, changed,
                [SendEventData sender name payload])
             else
               (Returned (), changed,
                [SendEventData sender name payload; Trace name payload])).
Proof.
  intros Hnd before result after details.
  assert (Hwf : wf before) by apply live_wf_reachable.
  split; [by apply live_level_change_returns|]. split; [|split].
  - intros Hret key l Hin.
    assert (Hafter : after = after_level_change level before)
      by by apply live_level_change_returned.
    rewrite Hafter in Hin.
    destruct (after_level_change_lookup level before key l Hwf Hin)
      as (logger0 & Hin0 & Hl0 & Hd0 & Hl).
    apply isDisposed_false in Hd0 as Hs0. destruct Hs0 as [sender Hs0].
    rewrite <- Hafter in Hl. fold details in Hl.
    exists (set_telemetryEnablements (snapshot details) logger0), sender.
    split; [done|]. split; [done|]. split; [done|]. split; [done|].
    split; [done|]. split; [done|]. split; [done|].
    intros Hu eventName data name payload.
    assert (Hcu : cached_isUsageEnabled
                    (_telemetryEnablements
                       (set_telemetryEnablements (snapshot details) logger0))
                  = true) by exact Hu.
    erewrite live_perform_logUsage_eq; [|exact Hl|exact Hs0].
    by rewrite Hcu.
  - intros key l logger Hin Hl Hd. unfold after, result.
    rewrite live_level_change_registry by done.
    by apply after_level_change_keeps with logger.
  - intros now extension sender options eventName data creation created
      change changed Hoff Hon Hret.
    assert (Hc : creation
                 = instantiateLogger Date_getTime remoteName now extension
                     sender options before) by done.
    rewrite instantiateLogger_eq in Hc.
    set (handle := fresh (dom (store before))) in *.
    assert (Hwfc : wf created).
    { by apply wf_instantiateLogger. }
    exists handle.
    assert (Hcl : ∃ logger0, store created !! handle = Some logger0
                   ∧ _sender logger0 = Some sender
                   ∧ _inLoggingOnlyMode logger0
                     = isExtensionTelemetryLoggingOnly (initData before)
                   ∧ cached_isUsageEnabled (_telemetryEnablements logger0)
                     = false
                   ∧ (identifier extension, handle)
                     ∈ _telemetryLoggers created).
    { unfold created. rewrite Hc. unfold state_of. simpl.
      rewrite lookup_insert_eq. eexists. split; [done|].
      split; [done|]. split; [done|]. split; [done|].
      apply Map_set_here. }
    destruct Hcl as (logger0 & Hl0 & Hs0 & Hm0 & Hu0 & Hin0).
    assert (Hchg : changed = after_level_change level created)
      by by apply live_level_change_returned.
    assert (Hin : (identifier extension, handle) ∈ _telemetryLoggers changed).
    { rewrite Hchg. apply after_level_change_keeps with logger0; try done.
      apply isDisposed_false. by rewrite Hs0. }
    rewrite Hchg in Hin.
    destruct (after_level_change_lookup level created _ _ Hwfc Hin)
      as (logger1 & _ & Hl1 & _ & Hl).
    rewrite <- Hchg in Hl. rewrite Hl0 in Hl1. injection Hl1 as <-.
    eexists _, _. split; [by rewrite Hc|].
    split.
    { erewrite live_perform_logUsage_eq; [|exact Hl0|exact Hs0].
      by rewrite Hu0. }
    assert (Hcu : cached_isUsageEnabled
                    (_telemetryEnablements
                       (set_telemetryEnablements
                          (snapshot (getTelemetryDetails changed)) logger0))
                  = true) by exact Hon.
    erewrite live_perform_logUsage_eq; [|exact Hl|exact Hs0].
    rewrite Hcu.
    change (_inLoggingOnlyMode
              (set_telemetryEnablements
                 (snapshot (getTelemetryDetails changed)) logger0))
      with (_inLoggingOnlyMode logger0).
    rewrite Hm0. reflexivity.
Qed.

End LiveLevelChange.

Lemma level_change_reaches_registered_loggers_witness :
  let before :=
    Live.run (cleanData_spec example_cleanValue) mixin_spec
      example_Date_getTime example_remoteName returns
      example_disposing_listeners false
      [Call_initializeTelemetryLevel NONE true None]
      (new_ExtHostTelemetry example_initData false) in
  let creation :=
    instantiateLogger example_Date_getTime example_remoteName 0
      example_extension example_sender None before in
  let created := state_of creation in
  let change :=
    Live.onDidChangeTelemetryLevel (cleanData_spec example_cleanValue)
      mixin_spec example_failing example_logging_listeners false USAGE
      created in
  let changed := state_of change in
  ∃ (handle : loc) (name : string) (payload : value),
    outcome_of creation = Returned handle
    ∧ Live.perform (cleanData_spec example_cleanValue) mixin_spec
        example_Date_getTime example_remoteName example_failing
        example_logging_listeners false
        (Call_logUsage handle "opened" None) created
      = (Returned (), created, [])
    ∧ Live.perform (cleanData_spec example_cleanValue) mixin_spec
        example_Date_getTime example_remoteName example_failing
        example_logging_listeners false
        (Call_logUsage handle "opened" None) changed
      = if isExtensionTelemetryLoggingOnly (initData before) then
          (Returned (), changed, [Trace name payload])
        else if example_failing (SendEventData example_sender name payload)
        then
          (Thrown SenderError, changed,
           [SendEventData example_sender name payload])
        else
          (Returned (), changed,
           [SendEventData example_sender name payload; Trace name payload]).
Proof.
  assert (Hnd : never_dispose example_logging_listeners).
  { intros e this. destruct e; repeat constructor. }
  apply (proj2 (proj2 (proj2
           (level_change_reaches_registered_loggers
              (cleanData_spec example_cleanValue) mixin_spec
              example_Date_getTime example_remoteName example_failing
              example_logging_listeners false example_initData false
              [Call_initializeTelemetryLevel NONE true None] USAGE returns
              example_disposing_listeners Hnd)))
           0%Z example_extension example_sender None "opened" None);
    vm_compute; reflexivity.
Defined.

(** Why C3 needs its proviso: a listener that disposes the logger it is
    notified about.  The handler returns, and the logger is in the
    registry, disposed. *)
Lemma disposing_listener_leaves_disposed_entry :
  let result :=
    Live.onDidChangeTelemetryLevel (cleanData_spec example_cleanValue)
      mixin_spec returns example_disposing_listeners false ERROR
      example_host_usage in
  outcome_of result = Returned ()
  ∧ _telemetryLoggers (state_of result) = [("acme.tools", 0%nat)]
  ∧ isDisposed <$> store (state_of result) !! 0%nat = Some true
  ∧ is_flush <$> trace_of result = [false; true; false; false; false].
Proof. vm_compute. by repeat split. Qed.

(** ** The quiet case *)

Lemma bind_ext {S A B} (m m' : M S A) (k k' : A → M S B) (s : S) :
  m s = m' s →
  (∀ a s1, k a s1 = k' a s1) →
  (m ≫= k) s = (m' ≫= k') s.
Proof.
  intros Hm Hk. unfold mbind, M_bind. rewrite Hm.
  destruct (m' s) as [[[a|e] s1] t1]; [|done]. by rewrite Hk.
Qed.

Lemma invoke_ext {A} (l : loc) (m m' : M ExtHostTelemetryLogger A) this :
  (∀ logger, m logger = m' logger) →
  invoke l m this = invoke l m' this.
Proof.
  intros Hm. unfold invoke. destruct (store this !! l); [|done].
  by rewrite Hm.
Qed.

Lemma Map_forEach_ext {S} (f g : loc → string → M S unit) entries :
  (∀ l key s, f l key s = g l key s) →
  ∀ s, Map_forEach f entries s = Map_forEach g entries s.
Proof.
  intros Hfg. induction entries as [|[key l] entries IH]; intros s; [done|].
  simpl. by apply bind_ext.
Qed.

Section Quiet.

Variable cleanData : value → value.
Variable mixin : value → value → value.
Variable Date_getTime : string → option Z.
Variable remoteName : option string → value.
Variable raises : effect → bool.
Variable listeners : effect → list Listener.
Variable rethrows : bool.

(** Every call of a sender returns, and no listener makes a call. *)
Hypothesis senders_return : ∀ e, raises e = false.
Hypothesis listeners_quiet : no_calls listeners.

Lemma quiet_logEvent eventName data this :
  Live.logEvent cleanData mixin raises eventName data this
  = logEvent cleanData mixin eventName data this.
Proof.
  rewrite live_logEvent_eq.
  destruct (_sender this) as [sender|] eqn:Hs.
  - erewrite logEvent_live by done. simpl. rewrite senders_return.
    by destruct (_inLoggingOnlyMode this).
  - by rewrite logEvent_disposed.
Qed.

Lemma quiet_logUsage eventName data this :
  Live.logUsage cleanData mixin raises eventName data this
  = logUsage cleanData mixin eventName data this.
Proof.
  rewrite live_logUsage_eq, quiet_logEvent.
  destruct (cached_isUsageEnabled _) eqn:Hu.
  - by rewrite logUsage_enabled.
  - by rewrite logUsage_disabled.
Qed.

Lemma quiet_logError eventNameOrException data this :
  Live.logError cleanData mixin raises eventNameOrException data this
  = logError cleanData mixin eventNameOrException data this.
Proof.
  rewrite live_logError_eq.
  destruct (_sender this) as [sender|] eqn:Hs;
    [|by rewrite logError_dropped by auto].
  destruct (cached_isErrorsEnabled _) eqn:He;
    [|by rewrite logError_dropped by auto].
  destruct eventNameOrException as [eventName|exception].
  - rewrite quiet_logEvent. by erewrite logError_string.
  - rewrite senders_return. by erewrite logError_exception.
Qed.

Lemma quiet_dispose this : Live.dispose raises this = dispose this.
Proof.
  unfold Live.dispose, dispose, Live.call_sender. unfold_M.
  destruct (_sender this) as [s|]; [|done].
  destruct (flush s); [|done]. by rewrite senders_return.
Qed.

Lemma quiet_deliver subscribed this :
  Forall (λ listener : Listener, listener this = []) subscribed →
  Live.deliver cleanData mixin raises rethrows subscribed this
  = (Returned (), this, []).
Proof.
  induction 1 as [|listener rest Hl _ IH]; [done|].
  simpl. unfold mbind, M_bind, Live.run_listener. rewrite Hl. simpl.
  unfold mret, M_ret. by rewrite IH.
Qed.

Lemma quiet_fire e this :
  Live.fire cleanData mixin raises listeners rethrows e this = emit e this.
Proof.
  unfold Live.fire, mbind, M_bind, emit.
  by rewrite quiet_deliver by apply listeners_quiet.
Qed.

Lemma quiet_update_level details l key this :
  Live.update_level cleanData mixin raises listeners rethrows details l key
    this
  = update_level details l key this.
Proof.
  unfold Live.update_level, update_level.
  rewrite live_updateTelemetryEnablements_eq.
  unfold invoke, updateTelemetryEnablements.
  destruct (store this !! l) as [logger|] eqn:Hl; [|done].
  unfold_M. destruct (_apiObject logger) as [api|]; simpl.
  - by rewrite quiet_fire.
  - by rewrite insert_id, set_store_id.
Qed.

Lemma quiet_onDidChangeTelemetryLevel level this :
  Live.onDidChangeTelemetryLevel cleanData mixin raises listeners rethrows
    level this
  = onDidChangeTelemetryLevel level this.
Proof.
  unfold Live.onDidChangeTelemetryLevel, onDidChangeTelemetryLevel.
  apply bind_ext; [done|]. intros _ s1.
  apply bind_ext; [done|]. intros _ s2.
  apply bind_ext; [done|]. intros this1 s3.
  apply bind_ext; [done|]. intros _ s4.
  apply bind_ext; [done|]. intros this2 s5.
  apply bind_ext.
  { apply Map_forEach_ext. intros. apply quiet_update_level. }
  intros _ s6.
  unfold mbind, M_bind, get. cbv beta iota.
  destruct (negb _).
  - rewrite quiet_fire. unfold emit at 1. cbv beta iota.
    by rewrite quiet_fire.
  - unfold mret at 1, M_ret at 1. cbv beta iota. by rewrite quiet_fire.
Qed.

Lemma quiet_onExtensionError extension error this :
  Live.onExtensionError cleanData mixin raises extension error this
  = onExtensionError cleanData mixin extension error this.
Proof.
  unfold Live.onExtensionError, onExtensionError.
  apply bind_ext; [done|]. intros this0 s1.
  destruct (Map_get extension (_telemetryLoggers this0)) as [l|]; [|done].
  apply bind_ext; [done|]. intros [] s2; [done|].
  apply bind_ext; [done|]. intros [] s3; [done|].
  apply bind_ext; [|done].
  apply invoke_ext. intros logger. apply quiet_logError.
Qed.

Lemma quiet_perform c this :
  Live.perform cleanData mixin Date_getTime remoteName raises listeners
    rethrows c this
  = perform cleanData mixin Date_getTime remoteName c this.
Proof.
  destruct c as [level supports productConfig | isTrace
                | now extension sender options | level | extension err
                | handle eventName data | handle eventNameOrException data
                | handle]; simpl; try done.
  - apply quiet_onDidChangeTelemetryLevel.
  - unfold discard. by rewrite quiet_onExtensionError.
  - apply invoke_ext. intros. apply quiet_logUsage.
  - apply invoke_ext. intros. apply quiet_logError.
  - apply invoke_ext. intros. apply quiet_dispose.
Qed.

(** The states reached are the same. *)
Lemma quiet_run calls : ∀ this,
  Live.run cleanData mixin Date_getTime remoteName raises listeners rethrows
    calls this
  = run cleanData mixin Date_getTime remoteName calls this.
Proof.
  induction calls as [|c calls IH]; intros this; [done|].
  simpl. by rewrite quiet_perform, IH.
Qed.

End Quiet.

(** ** Level changes, again *)

Lemma push_fixed details st entries :
  (∀ l logger,
     l ∈ entries.*2 → st !! l = Some logger →
     _telemetryEnablements logger = snapshot details) →
  push details st entries = st.
Proof.
  intros Hall. apply map_eq. intros l. rewrite push_lookup.
  destruct (decide (l ∈ entries.*2)) as [Hin|]; [|done].
  destruct (st !! l) as [logger|] eqn:Hl; [|done]. simpl.
  rewrite <- (Hall l logger Hin Hl). by rewrite set_telemetryEnablements_own.
Qed.

Section LiveRepeatedChanges.

Variable cleanData : value → value.
Variable mixin : value → value → value.
Variable Date_getTime : string → option Z.
Variable remoteName : option string → value.
Variable raises : effect → bool.
Variable listeners : effect → list Listener.
Variable rethrows : bool.

(** X17.  A level change is not remembered.  Take any state the
    coordinator can reach and listeners that dispose no logger.  After a
    level change that has returned, a second change to the same level
    leaves the registry, the loggers and the derived configuration as the
    first one left them; when it returns (it does whenever [fire] does not
    pass on what a listener raises) it has fired no
    [onDidChangeTelemetryEnabled], and yet notified every registered logger
    and fired [onDidChangeTelemetryConfiguration] again. *)
Theorem level_change_repeated (init : InitData) (isTrace : bool)
    (calls : list call) (level : TelemetryLevel) (raises0 : effect → bool)
    (listeners0 : effect → list Listener) :
  never_dispose listeners →
  let before :=
    Live.run cleanData mixin Date_getTime remoteName raises0 listeners0
      rethrows calls (new_ExtHostTelemetry init isTrace) in
  let first :=
    Live.onDidChangeTelemetryLevel cleanData mixin raises listeners rethrows
      level before in
  let once := state_of first in
  let again :=
    Live.onDidChangeTelemetryLevel cleanData mixin raises listeners rethrows
      level once in
  outcome_of first = Returned () →
  store (state_of again) = store once
  ∧ _telemetryLoggers (state_of again) = _telemetryLoggers once
  ∧ getTelemetryDetails (state_of again) = getTelemetryDetails once
  ∧ (rethrows = false → outcome_of again = Returned ())
  ∧ (outcome_of again = Returned () →
     notifications (trace_of again)
     = (EnableStatesFired <$> (_telemetryLoggers once).*2)
       ++ [TelemetryConfigurationFired (getTelemetryDetails once)]).
Proof.
  intros Hnd before first once again Hret.
  assert (Hwf : wf before) by apply live_wf_reachable.
  assert (Honce : once = after_level_change level before)
    by by apply live_level_change_returned.
  assert (Hwf1 : wf once).
  { rewrite Honce. by apply wf_after_level_change. }
  assert (Hlive : Forall (λ e, disposed_at (store once) e.2 = false)
                    (_telemetryLoggers once)).
  { apply Forall_forall. intros [k l] Hin. rewrite Honce in Hin.
    destruct (after_level_change_lookup level before k l Hwf Hin)
      as (logger0 & _ & _ & Hd & Hl).
    rewrite <- Honce in Hl. unfold disposed_at. simpl. by rewrite Hl. }
  assert (Hprune : prune (store once) (_telemetryLoggers once)
                     (_telemetryLoggers once) = _telemetryLoggers once)
    by by apply prune_none.
  assert (Hlevel : _level once = level) by by rewrite Honce.
  assert (Hreg : _telemetryLoggers (after_level_change level once)
                 = _telemetryLoggers once) by exact Hprune.
  assert (Hdet : getTelemetryDetails (after_level_change level once)
                 = getTelemetryDetails once).
  { unfold getTelemetryDetails. simpl. by rewrite Hlevel. }
  destruct (live_onDidChangeTelemetryLevel_eq cleanData mixin raises listeners
              rethrows Hnd level once Hwf1)
    as (o & done & t & Heq & Hpre & Hdone & Hf & Hr).
  fold again in Heq. rewrite Heq. unfold state_of, outcome_of, trace_of.
  cbn [fst snd]. rewrite Hreg in Hpre, Hdone. rewrite Hdet in Heq, Hdone |- *.
  split; [|split; [done|split; [|split; [done|]]]].
  - cbn [store set_store]. apply push_fixed. intros l logger Hin Hl.
    apply list_elem_of_fmap in Hin as ([k l'] & Heq' & Hin). simpl in Heq'.
    subst l'. destruct Hpre as [rest Hrest].
    assert (Hin' : (k, l) ∈ _telemetryLoggers once).
    { rewrite Hrest. apply elem_of_app. by left. }
    clear Hin. rename Hin' into Hin. rewrite Honce in Hin.
    destruct (after_level_change_lookup level before k l Hwf Hin)
      as (logger0 & _ & _ & _ & Hl').
    rewrite <- Honce in Hl'. rewrite Hl in Hl'. by injection Hl' as ->.
  - unfold getTelemetryDetails in *. simpl. by rewrite Hlevel.
  - intros Ho. destruct (Hdone Ho) as [_ ->]. f_equal.
    unfold getTelemetryConfiguration. rewrite Hlevel.
    by rewrite bool_decide_eq_true_2.
Qed.

(** X18.  In every state the coordinator can reach, a level change whose
    listeners dispose no logger sets the level and leaves the product
    configuration and the support flag alone; it creates, removes,
    disposes and revives no logger: every logger of the store is there
    afterwards, the same but for its cached snapshot.  Every call made
    while it runs is a notification, the visibility update, or a logging
    call ([sendEventData], [sendErrorData], a write to the trace sink);
    the logging calls are the listeners': when no listener makes a call
    through a handle there is none. *)
Theorem level_change_frame (init : InitData) (isTrace : bool)
    (calls : list call) (level : TelemetryLevel) (raises0 : effect → bool)
    (listeners0 : effect → list Listener) :
  never_dispose listeners →
  let before :=
    Live.run cleanData mixin Date_getTime remoteName raises0 listeners0
      rethrows calls (new_ExtHostTelemetry init isTrace) in
  let result :=
    Live.onDidChangeTelemetryLevel cleanData mixin raises listeners rethrows
      level before in
  let after := state_of result in
  Forall (λ e, is_notification e = true ∨ is_logging_effect e
               ∨ ∃ b, e = SetVisibility b) (trace_of result)
  ∧ (no_calls listeners →
     Forall (λ e, is_sender_call e = false ∧ ¬ is_logging_effect e)
       (trace_of result))
  ∧ _level after = level
  ∧ _productConfig after = _productConfig before
  ∧ _telemetryIsSupported after = _telemetryIsSupported before
  ∧ ∀ l : loc,
      ∃ snap : TelemetryEnablements,
        store after !! l = set_telemetryEnablements snap <$> store before !! l.
Proof.
  intros Hnd before result after.
  assert (Hwf : wf before) by apply live_wf_reachable.
  split; [|split].
  - destruct (live_onDidChangeTelemetryLevel_eq cleanData mixin raises
                listeners rethrows Hnd level before Hwf)
      as (o & done & t & Heq & Hpre & Hdone & Hf & Hr).
    unfold result. by rewrite Heq.
  - intros Hq. unfold result.
    rewrite quiet_onDidChangeTelemetryLevel by done.
    rewrite onDidChangeTelemetryLevel_eq by done.
    unfold trace_of. cbn [snd].
    apply Forall_app. split.
    + apply Forall_fmap, Forall_forall. intros l _. simpl. tauto.
    + apply Forall_app. split.
      * destruct (negb _); repeat constructor; simpl; tauto.
      * repeat constructor; simpl; tauto.
  - destruct (live_onDidChangeTelemetryLevel_eq cleanData mixin raises
                listeners rethrows Hnd level before Hwf)
      as (o & done & t & Heq & Hpre & Hdone & Hf & Hr).
    unfold after, result. rewrite Heq. unfold state_of. cbn [fst snd].
    split; [done|]. split; [done|]. split; [done|].
    intros l. cbn [store set_store]. rewrite push_lookup.
    destruct (decide _).
    + by eexists.
    + destruct (store before !! l) as [logger|] eqn:Hl.
      * exists (_telemetryEnablements logger). simpl.
        by rewrite set_telemetryEnablements_own.
      * by exists (snapshot (getTelemetryDetails before)).
Qed.

End LiveRepeatedChanges.

Lemma level_change_repeated_witness :
  let before :=
    Live.run (cleanData_spec example_cleanValue) mixin_spec
      example_Date_getTime example_remoteName returns
      example_disposing_listeners false
      [Call_initializeTelemetryLevel NONE true None;
       Call_instantiateLogger 0 example_extension example_sender None]
      (new_ExtHostTelemetry example_initData false) in
  let once :=
    state_of
      (Live.onDidChangeTelemetryLevel (cleanData_spec example_cleanValue)
         mixin_spec example_failing example_logging_listeners false USAGE
         before) in
  let again :=
    Live.onDidChangeTelemetryLevel (cleanData_spec example_cleanValue)
      mixin_spec example_failing example_logging_listeners false USAGE once in
  store (state_of again) = store once
  ∧ _telemetryLoggers (state_of again) = _telemetryLoggers once
  ∧ getTelemetryDetails (state_of again) = getTelemetryDetails once
  ∧ (false = false → outcome_of again = Returned ())
  ∧ (outcome_of again = Returned () →
     notifications (trace_of again)
     = (EnableStatesFired <$> (_telemetryLoggers once).*2)
       ++ [TelemetryConfigurationFired (getTelemetryDetails once)]).
Proof.
  assert (Hnd : never_dispose example_logging_listeners).
  { intros e this. destruct e; repeat constructor. }
  apply (level_change_repeated (cleanData_spec example_cleanValue) mixin_spec
           example_Date_getTime example_remoteName example_failing
           example_logging_listeners false example_initData false
           [Call_initializeTelemetryLevel NONE true None;
            Call_instantiateLogger 0 example_extension example_sender None]
           USAGE returns example_disposing_listeners Hnd).
  vm_compute. reflexivity.
Defined.

Lemma level_change_frame_witness :
  let before :=
    Live.run (cleanData_spec example_cleanValue) mixin_spec
      example_Date_getTime example_remoteName returns
      example_disposing_listeners false
      [Call_initializeTelemetryLevel NONE true None;
       Call_instantiateLogger 0 example_extension example_sender None]
      (new_ExtHostTelemetry example_initData false) in
  let result :=
    Live.onDidChangeTelemetryLevel (cleanData_spec example_cleanValue)
      mixin_spec example_failing example_logging_listeners false USAGE
      before in
  _level (state_of result) = USAGE
  ∧ is_transmit <$> trace_of result = [false; true; false; false; false].
Proof.
  assert (Hnd : never_dispose example_logging_listeners).
  { intros e this. destruct e; repeat constructor. }
  split.
  - apply (level_change_frame (cleanData_spec example_cleanValue) mixin_spec
             example_Date_getTime example_remoteName example_failing
             example_logging_listeners false example_initData false
             [Call_initializeTelemetryLevel NONE true None;
              Call_instantiateLogger 0 example_extension example_sender None]
             USAGE returns example_disposing_listeners Hnd).
  - vm_compute. reflexivity.
Defined.
